(** * ffmpeg-mcp: the tool dispatcher and the batch runner of [ffmpeg_mcp.py]

    A shallow embedding of [FFmpegProcessor], [FileManager] and
    [handle_call_tool].  Python values that reach the code from the JSON
    argument map are [PyVal]s; everything outside the interpreter (the file
    system, [os.makedirs], [subprocess.run], [json]) is an oracle carried by
    the [World], indexed by a clock so that two queries at different times
    may disagree; raised exceptions are explicit results.  The path functions
    are the POSIX ones ([posixpath], [PurePosixPath]): the separator is [/]
    and [Path.glob] compares names case-sensitively. *)

From stdpp Require Import gmap strings list pretty.
From Stdlib Require Import ZArith Ascii.

Local Open Scope Z_scope.

(** ** Python values and exceptions *)

(** The values a decoded JSON argument map can hold.  [VOther] stands for the
    remaining JSON values (floats, lists, objects): it carries the Python
    type name and the text [str()] gives. *)
Inductive PyVal : Type :=
  | VNone
  | VBool (b : bool)
  | VInt (z : Z)
  | VStr (s : string)
  | VOther (tyname repr : string).

(** [type(v).__name__] *)
Definition py_type_name (v : PyVal) : string :=
  match v with
  | VNone => "NoneType"
  | VBool _ => "bool"
  | VInt _ => "int"
  | VStr _ => "str"
  | VOther ty _ => ty
  end.

(** [str(v)], which is also what an f-string field [{v}] prints. *)
Definition py_str (v : PyVal) : string :=
  match v with
  | VNone => "None"
  | VBool true => "True"
  | VBool false => "False"
  | VInt z => pretty z
  | VStr s => s
  | VOther _ repr => repr
  end.

(** Subclasses of [Exception] that the modelled calls raise. *)
Inductive ExnKind : Type :=
  | TypeError
  | ValueError
  | OverflowError
  | OSError
  | FileNotFoundError
  | TimeoutExpired
  | JSONDecodeError
  | PlainException.

(** An exception object: its class and the text of [str(e)]. *)
Record Exn : Type := mkExn { exn_kind : ExnKind; exn_msg : string }.

Inductive Res (A : Type) : Type :=
  | Ok (a : A)
  | Raise (e : Exn).
Arguments Ok {A} a.
Arguments Raise {A} e.

(** ** The world outside the interpreter *)

(** [subprocess.CompletedProcess] *)
Record CompletedProcess : Type := mkCompleted {
  returncode : Z;
  stdout : string;
  stderr : string
}.

(** What the code did to the outside: every call of [os.makedirs] and every
    call of [subprocess.run] that reached the operating system.  [EvCall]
    is written only by instrumented callbacks handed to
    [batch_process_files]. *)
Inductive Event : Type :=
  | EvMakedirs (name : string)
  | EvSpawn (cmd : list string)
  | EvCall (file_path output_path : string).

(** The parsed [ffprobe] document; its shape is not inspected. *)
Definition JsonDoc : Type := string.

Record World : Type := mkWorld {
  w_clock : nat;
  w_trace : list Event;
  (* os.stat succeeds on a str path / on a file descriptor *)
  fs_exists : nat -> string -> bool;
  fd_exists : nat -> Z -> bool;
  (* Path.exists() and Path.is_dir(), or the OSError they raise *)
  fs_is_dir : nat -> string -> Res bool;
  (* names inside a directory, in enumeration order, or the OSError *)
  fs_listdir : nat -> string -> Res (list string);
  (* None: the directories exist afterwards; Some e: os.makedirs raised e *)
  fs_makedirs : nat -> string -> option Exn;
  (* the outcome of running a command line *)
  proc_run : nat -> list string -> Res CompletedProcess;
  (* json.loads and json.dumps(_, indent=2, ensure_ascii=False) *)
  json_loads : string -> Res JsonDoc;
  json_dumps : JsonDoc -> string
}.

Definition tick (w : World) : World :=
  mkWorld (S (w_clock w)) (w_trace w) (fs_exists w) (fd_exists w)
          (fs_is_dir w) (fs_listdir w) (fs_makedirs w) (proc_run w)
          (json_loads w) (json_dumps w).

Definition emit (ev : Event) (w : World) : World :=
  mkWorld (w_clock w) (w_trace w ++ [ev]) (fs_exists w) (fd_exists w)
          (fs_is_dir w) (fs_listdir w) (fs_makedirs w) (proc_run w)
          (json_loads w) (json_dumps w).

(** The command lines handed to the operating system so far. *)
Fixpoint spawned (t : list Event) : list (list string) :=
  match t with
  | [] => []
  | EvSpawn cmd :: t' => cmd :: spawned t'
  | _ :: t' => spawned t'
  end.

(** The callback entries recorded so far. *)
Fixpoint calls (t : list Event) : list (string * string) :=
  match t with
  | [] => []
  | EvCall a b :: t' => (a, b) :: calls t'
  | _ :: t' => calls t'
  end.

(** ** Computations: state passing with exceptions *)

Definition M (A : Type) : Type := World -> Res A * World.

Definition ret {A} (a : A) : M A := fun w => (Ok a, w).
Definition raise {A} (e : Exn) : M A := fun w => (Raise e, w).
Definition bind {A B} (m : M A) (k : A -> M B) : M B :=
  fun w => match m w with
           | (Ok a, w') => k a w'
           | (Raise e, w') => (Raise e, w')
           end.

(** [try: body  except Exception as e: handler(e)] *)
Definition try_except {A} (body : M A) (handler : Exn -> M A) : M A :=
  fun w => match body w with
           | (Ok a, w') => (Ok a, w')
           | (Raise e, w') => handler e w'
           end.

Notation "'let!' x ':=' m 'in' k" := (bind m (fun x => k))
  (at level 10, x name, m at level 100, k at level 200).
Notation "'run!' m 'in' k" := (bind m (fun _ => k))
  (at level 10, m at level 100, k at level 200).

(** [for x in xs: acc = body(x, acc)]; a raise inside the body leaves the
    loop at once. *)
Fixpoint for_each {A S} (xs : list A) (body : A -> S -> M S) (acc : S) : M S :=
  match xs with
  | [] => ret acc
  | x :: xs' => let! acc' := body x acc in for_each xs' body acc'
  end.

(** ** Strings and POSIX paths *)

Definition is_sep (c : ascii) : bool := bool_decide (c = "/"%char).

(** [s.endswith(suffix)] *)
Definition endswith (s suffix : string) : bool :=
  String.prefix (String.rev suffix) (String.rev s).

(** [s.startswith(prefix)] *)
Definition startswith (s prefix : string) : bool := String.prefix prefix s.

(** [str.upper] on ASCII text (the extension lists of this program are
    ASCII). *)
Definition ascii_upper (c : ascii) : ascii :=
  let n := nat_of_ascii c in
  if bool_decide (97 <= n <= 122)%nat then ascii_of_nat (n - 32) else c.

Fixpoint upper (s : string) : string :=
  match s with
  | EmptyString => EmptyString
  | String c s' => String (ascii_upper c) (upper s')
  end.

(** [s.lstrip('/')] *)
Fixpoint lstrip_sep (s : string) : string :=
  match s with
  | String c s' => if is_sep c then lstrip_sep s' else s
  | EmptyString => EmptyString
  end.

(** The reversed text of [p[:p.rfind('/') + 1]], given [p] reversed. *)
Fixpoint rev_head (r : string) : string :=
  match r with
  | String c r' => if is_sep c then r else rev_head r'
  | EmptyString => EmptyString
  end.

(** [posixpath.dirname] on a [str]:
    [i = p.rfind('/') + 1; head = p[:i];
     if head and head != '/' * len(head): head = head.rstrip('/')]. *)
Definition dirname (p : string) : string :=
  let head := rev_head (String.rev p) in
  let stripped := lstrip_sep head in
  String.rev (if bool_decide (stripped = "") then head else stripped).

(** [posixpath.join(a, b)] on two [str]s. *)
Definition join (a b : string) : string :=
  if startswith b "/" then b
  else if bool_decide (a = "") || endswith a "/" then a +:+ b
  else a +:+ "/" +:+ b.

(** [s.split('/')] *)
Fixpoint split_sep_go (cur : string) (s : string) : list string :=
  match s with
  | EmptyString => [String.rev cur]
  | String c s' =>
      if is_sep c then String.rev cur :: split_sep_go "" s'
      else split_sep_go (String c cur) s'
  end.
Definition split_sep (s : string) : list string := split_sep_go "" s.

(** ['/'.join(parts)] *)
Fixpoint join_sep (parts : list string) : string :=
  match parts with
  | [] => ""
  | [x] => x
  | x :: rest => x +:+ "/" +:+ join_sep rest
  end.

(** A [PurePosixPath]: the root ([""], ["/"] or ["//"]) and the parts below
    it; empty components and ["."] are dropped when the text is parsed. *)
Record PurePath : Type := mkPath { path_root : string; path_parts : list string }.

Definition parse_root (s : string) : string :=
  if startswith s "//" && negb (startswith s "///") then "//"
  else if startswith s "/" then "/"
  else "".

Definition parse_path (s : string) : PurePath :=
  mkPath (parse_root s)
         (filter (fun x => x <> "" /\ x <> ".") (split_sep s)).

(** [str(path)] *)
Definition path_str (p : PurePath) : string :=
  match path_root p, path_parts p with
  | EmptyString, [] => "."
  | r, ps => r +:+ join_sep ps
  end.

(** [path.name] *)
Definition path_name (p : PurePath) : string := List.last (path_parts p) "".

(** The child [path / name] that iterating a directory yields for the
    entry [name]. *)
Definition path_child (p : PurePath) (name : string) : PurePath :=
  mkPath (path_root p) (path_parts p ++ [name]).

(** [fnmatch] of a name against the pattern [*.<ext>], for an [ext] without
    pattern characters: the name ends with the dot and [ext]. *)
Definition fnmatch_star_dot (ext name : string) : bool :=
  endswith name ("." +:+ ext).

(** ** Library calls that touch the world *)

(** The [TypeError] of [os.fspath] on a value that is no path. *)
Definition fspath_error (v : PyVal) : Exn :=
  mkExn TypeError
    ("expected str, bytes or os.PathLike object, not " +:+ py_type_name v).

(** [os.fspath(v)] for the values of this model. *)
Definition os_fspath (v : PyVal) : M string :=
  match v with
  | VStr s => ret s
  | _ => raise (fspath_error v)
  end.

(** [os.stat] on a file descriptor, inside [os.path.exists]: a descriptor is
    a C [int]; [OSError] is swallowed by [exists], [OverflowError] is not. *)
Definition exists_fd (fd : Z) : M bool :=
  if fd <? - 2 ^ 31 then raise (mkExn OverflowError "fd is less than minimum")
  else if 2 ^ 31 <=? fd then raise (mkExn OverflowError "fd is greater than maximum")
  else fun w => (Ok (fd_exists w (w_clock w) fd), tick w).

(** [os.path.exists(v)]: [os.stat] with [OSError] and [ValueError] turned
    into [False]; a value that is neither a path nor an integer is a
    [TypeError], which [exists] lets through. *)
Definition os_path_exists (v : PyVal) : M bool :=
  match v with
  | VStr s => fun w => (Ok (fs_exists w (w_clock w) s), tick w)
  | VInt z => exists_fd z
  | VBool b => exists_fd (if b then 1 else 0)
  | _ => raise (mkExn TypeError
                  ("stat: path should be string, bytes, os.PathLike or integer, not "
                   +:+ py_type_name v))
  end.

(** [os.path.dirname(v)] *)
Definition os_path_dirname (v : PyVal) : M string :=
  let! p := os_fspath v in ret (dirname p).

(** [os.path.join(a, b)] with [b] a [str]. *)
Definition os_path_join (a : PyVal) (b : string) : M string :=
  let! a' := os_fspath a in ret (join a' b).

(** [os.makedirs(name, exist_ok=True)]: the empty name cannot be created
    ([mkdir('')] fails with ENOENT and [''] is no directory); any other name
    succeeds or fails as the file system decides. *)
Definition os_makedirs (name : string) : M unit :=
  fun w =>
    let w' := tick (emit (EvMakedirs name) w) in
    if bool_decide (name = "") then
      (Raise (mkExn FileNotFoundError "[Errno 2] No such file or directory: ''"), w')
    else match fs_makedirs w (w_clock w) name with
         | None => (Ok tt, w')
         | Some e => (Raise e, w')
         end.

(** The [str] elements of a command line, when all of them are. *)
Fixpoint argv_of (cmd : list PyVal) : PyVal + list string :=
  match cmd with
  | [] => inr []
  | VStr s :: rest =>
      match argv_of rest with
      | inr ss => inr (s :: ss)
      | inl bad => inl bad
      end
  | v :: _ => inl v
  end.

(** [subprocess.run(cmd, capture_output=True, text=True)]: an argument that
    is no [str] is rejected before anything is started; otherwise the
    command line goes to the operating system, which answers with a
    completed process or an exception (the program is missing, a timeout
    expires). *)
Definition subprocess_run (cmd : list PyVal) : M CompletedProcess :=
  match argv_of cmd with
  | inl bad => raise (fspath_error bad)
  | inr argv =>
      fun w => (proc_run w (w_clock w) argv, tick (emit (EvSpawn argv) w))
  end.

(** [Path(v)] *)
Definition Path (v : PyVal) : M PurePath :=
  let! s := os_fspath v in ret (parse_path s).

(** [path.exists() and path.is_dir()]: one query of the file system; unlike
    [os.path.exists], [Path.exists] re-raises an [OSError] other than
    "not found". *)
Definition path_exists_and_is_dir (p : PurePath) : M bool :=
  fun w => (fs_is_dir w (w_clock w) (path_str p), tick w).

(** [path.glob("*." + ext)]: the children of [path], in enumeration order,
    whose name matches. *)
Definition path_glob_star_dot (p : PurePath) (ext : string) : M (list PurePath) :=
  fun w =>
    (match fs_listdir w (w_clock w) (path_str p) with
     | Ok names => Ok (path_child p <$> filter (fun n => fnmatch_star_dot ext n = true) names)
     | Raise e => Raise e
     end, tick w).

Definition json_loads_text (s : string) : M JsonDoc :=
  fun w => (json_loads w s, w).

(** ** [FFmpegProcessor] *)

Module FFmpegProcessor.

Definition check_ffmpeg_available : M bool :=
  try_except
    (let! result := subprocess_run [VStr "ffmpeg"; VStr "-version"] in
     ret (returncode result =? 0))
    (fun _ => ret false).

Definition get_media_info (file_path : PyVal) : M JsonDoc :=
  try_except
    (let cmd := [VStr "ffprobe"; VStr "-v"; VStr "quiet"; VStr "-print_format";
                 VStr "json"; VStr "-show_format"; VStr "-show_streams"; file_path] in
     let! result := subprocess_run cmd in
     if returncode result =? 0 then json_loads_text (stdout result)
     else raise (mkExn PlainException ("FFprobe error: " +:+ stderr result)))
    (fun e => raise (mkExn PlainException ("Failed to get media info: " +:+ exn_msg e))).

Definition compress_image (input_path output_path quality : PyVal) : M bool :=
  try_except
    (let! d := os_path_dirname output_path in
     run! os_makedirs d in
     let cmd := [VStr "ffmpeg"; VStr "-y"; VStr "-i"; input_path;
                 VStr "-q:v"; VStr (py_str quality);
                 output_path] in
     let! result := subprocess_run cmd in
     ret (returncode result =? 0))
    (fun _ => ret false).

Definition convert_image_format (input_path output_path : PyVal) : M bool :=
  try_except
    (let! d := os_path_dirname output_path in
     run! os_makedirs d in
     let cmd := [VStr "ffmpeg"; VStr "-y"; VStr "-i"; input_path; output_path] in
     let! result := subprocess_run cmd in
     ret (returncode result =? 0))
    (fun _ => ret false).

Definition resize_image (input_path output_path width height : PyVal) : M bool :=
  try_except
    (let! d := os_path_dirname output_path in
     run! os_makedirs d in
     let cmd := [VStr "ffmpeg"; VStr "-y"; VStr "-i"; input_path;
                 VStr "-vf"; VStr ("scale=" +:+ py_str width +:+ ":" +:+ py_str height);
                 output_path] in
     let! result := subprocess_run cmd in
     ret (returncode result =? 0))
    (fun _ => ret false).

Definition compress_video (input_path output_path crf preset : PyVal) : M bool :=
  try_except
    (let! d := os_path_dirname output_path in
     run! os_makedirs d in
     let cmd := [VStr "ffmpeg"; VStr "-y"; VStr "-i"; input_path;
                 VStr "-c:v"; VStr "libx264"; VStr "-crf"; VStr (py_str crf);
                 VStr "-preset"; preset;
                 VStr "-c:a"; VStr "aac"; VStr "-b:a"; VStr "128k";
                 output_path] in
     let! result := subprocess_run cmd in
     ret (returncode result =? 0))
    (fun _ => ret false).

Definition convert_video_format (input_path output_path : PyVal) : M bool :=
  try_except
    (let! d := os_path_dirname output_path in
     run! os_makedirs d in
     let cmd := [VStr "ffmpeg"; VStr "-y"; VStr "-i"; input_path; output_path] in
     let! result := subprocess_run cmd in
     ret (returncode result =? 0))
    (fun _ => ret false).

Definition resize_video (input_path output_path width height : PyVal) : M bool :=
  try_except
    (let! d := os_path_dirname output_path in
     run! os_makedirs d in
     let cmd := [VStr "ffmpeg"; VStr "-y"; VStr "-i"; input_path;
                 VStr "-vf"; VStr ("scale=" +:+ py_str width +:+ ":" +:+ py_str height);
                 VStr "-c:a"; VStr "copy";
                 output_path] in
     let! result := subprocess_run cmd in
     ret (returncode result =? 0))
    (fun _ => ret false).

End FFmpegProcessor.

(** ** [FileManager] *)

(** The [results] dictionary of [batch_process_files]. *)
Record BatchResults : Type := mkResults {
  success : list string;
  failed : list string;
  total : nat
}.

Module FileManager.

Definition image_extensions : list string :=
  ["jpg"; "jpeg"; "png"; "bmp"; "gif"; "tiff"; "webp"].
Definition video_extensions : list string :=
  ["mp4"; "avi"; "mkv"; "mov"; "wmv"; "flv"; "webm"; "m4v"].
Definition all_extensions : list string := image_extensions ++ video_extensions.

Definition get_files_by_extension (directory : PyVal) (extensions : list string)
  : M (list string) :=
  let! path := Path directory in
  let! is_dir := path_exists_and_is_dir path in
  let! files :=
    (if is_dir then
       for_each extensions
         (fun ext files =>
            let! lower := path_glob_star_dot path ext in
            let! upper := path_glob_star_dot path (upper ext) in
            ret (files ++ lower ++ upper))
         []
     else ret []) in
  ret (path_str <$> files).

(** One turn of the loop of [batch_process_files]. *)
Definition process_one (output_dir : PyVal) (process_func : PyVal -> PyVal -> M bool)
    (file_path : string) (results : BatchResults) : M BatchResults :=
  try_except
    (let file_name := path_name (parse_path file_path) in
     let! output_path := os_path_join output_dir file_name in
     let! ok := process_func (VStr file_path) (VStr output_path) in
     if ok then
       ret (mkResults (success results ++ [file_name]) (failed results) (total results))
     else
       ret (mkResults (success results) (failed results ++ [file_name]) (total results)))
    (fun e =>
       ret (mkResults (success results)
              (failed results ++
                 [path_name (parse_path file_path) +:+ ": " +:+ exn_msg e])
              (total results))).

(** [process_func] stands for the callback with its keyword arguments
    already applied. *)
Definition batch_process_files (input_dir output_dir : PyVal)
    (process_func : PyVal -> PyVal -> M bool) : M BatchResults :=
  let results := mkResults [] [] 0 in
  let! files := get_files_by_extension input_dir all_extensions in
  let results := mkResults (success results) (failed results) (length files) in
  for_each files (process_one output_dir process_func) results.

End FileManager.

(** ** The dispatcher *)

(** [mcp.types.TextContent] *)
Record TextContent : Type := mkTextContent { type_ : string; text : string }.

Definition text_content (s : string) : TextContent := mkTextContent "text" s.

(** [arguments.get(key)] and [arguments.get(key, default)] *)
Definition dict_get (arguments : gmap string PyVal) (key : string) (dflt : PyVal) : PyVal :=
  default dflt (arguments !! key).

Definition nl : string := String (ascii_of_nat 10) EmptyString.

(** [', '.join(items)] *)
Fixpoint comma_join (items : list string) : string :=
  match items with
  | [] => ""
  | [x] => x
  | x :: rest => x +:+ ", " +:+ comma_join rest
  end.

(** The summary of a batch run; [title] is the first line. *)
Definition batch_message (title : string) (results : BatchResults) : string :=
  let message :=
    title +:+ nl +:+ "总计: " +:+ pretty (total results) +:+ " 个文件" +:+ nl
    +:+ "成功: " +:+ pretty (length (success results)) +:+ " 个" +:+ nl
    +:+ "失败: " +:+ pretty (length (failed results)) +:+ " 个" in
  match failed results with
  | [] => message
  | _ :: _ => message +:+ nl +:+ "失败的文件: " +:+ comma_join (failed results)
  end.

(** The body of the [try] block of [handle_call_tool]. *)
Definition handle_call_tool_body (name : string) (arguments : gmap string PyVal)
  : M (list TextContent) :=
  if String.eqb name "compress_image" then
    let input_path := dict_get arguments "input_path" VNone in
    let output_path := dict_get arguments "output_path" VNone in
    let quality := dict_get arguments "quality" (VInt 85) in
    let! found := os_path_exists input_path in
    if negb found then
      ret [text_content ("错误：输入文件不存在: " +:+ py_str input_path)]
    else
      let! ok := FFmpegProcessor.compress_image input_path output_path quality in
      if ok then
        ret [text_content ("图片压缩成功：" +:+ py_str input_path +:+ " -> " +:+ py_str output_path)]
      else
        ret [text_content ("图片压缩失败：" +:+ py_str input_path)]
  else if String.eqb name "batch_compress_images" then
    let input_dir := dict_get arguments "input_dir" VNone in
    let output_dir := dict_get arguments "output_dir" VNone in
    let quality := dict_get arguments "quality" (VInt 85) in
    let! found := os_path_exists input_dir in
    if negb found then
      ret [text_content ("错误：输入目录不存在: " +:+ py_str input_dir)]
    else
      let! results :=
        FileManager.batch_process_files input_dir output_dir
          (fun i o => FFmpegProcessor.compress_image i o quality) in
      ret [text_content (batch_message "批量图片压缩完成！" results)]
  else if String.eqb name "convert_image_format" then
    let input_path := dict_get arguments "input_path" VNone in
    let output_path := dict_get arguments "output_path" VNone in
    let! found := os_path_exists input_path in
    if negb found then
      ret [text_content ("错误：输入文件不存在: " +:+ py_str input_path)]
    else
      let! ok := FFmpegProcessor.convert_image_format input_path output_path in
      if ok then
        ret [text_content ("图片格式转换成功：" +:+ py_str input_path +:+ " -> " +:+ py_str output_path)]
      else
        ret [text_content ("图片格式转换失败：" +:+ py_str input_path)]
  else if String.eqb name "resize_image" then
    let input_path := dict_get arguments "input_path" VNone in
    let output_path := dict_get arguments "output_path" VNone in
    let width := dict_get arguments "width" VNone in
    let height := dict_get arguments "height" VNone in
    let! found := os_path_exists input_path in
    if negb found then
      ret [text_content ("错误：输入文件不存在: " +:+ py_str input_path)]
    else
      let! ok := FFmpegProcessor.resize_image input_path output_path width height in
      if ok then
        ret [text_content ("图片尺寸调整成功：" +:+ py_str input_path +:+ " -> " +:+ py_str output_path
                           +:+ " (" +:+ py_str width +:+ "x" +:+ py_str height +:+ ")")]
      else
        ret [text_content ("图片尺寸调整失败：" +:+ py_str input_path)]
  else if String.eqb name "compress_video" then
    let input_path := dict_get arguments "input_path" VNone in
    let output_path := dict_get arguments "output_path" VNone in
    let crf := dict_get arguments "crf" (VInt 23) in
    let preset := dict_get arguments "preset" (VStr "medium") in
    let! found := os_path_exists input_path in
    if negb found then
      ret [text_content ("错误：输入文件不存在: " +:+ py_str input_path)]
    else
      let! ok := FFmpegProcessor.compress_video input_path output_path crf preset in
      if ok then
        ret [text_content ("视频压缩成功：" +:+ py_str input_path +:+ " -> " +:+ py_str output_path)]
      else
        ret [text_content ("视频压缩失败：" +:+ py_str input_path)]
  else if String.eqb name "batch_compress_videos" then
    let input_dir := dict_get arguments "input_dir" VNone in
    let output_dir := dict_get arguments "output_dir" VNone in
    let crf := dict_get arguments "crf" (VInt 23) in
    let preset := dict_get arguments "preset" (VStr "medium") in
    let! found := os_path_exists input_dir in
    if negb found then
      ret [text_content ("错误：输入目录不存在: " +:+ py_str input_dir)]
    else
      let! results :=
        FileManager.batch_process_files input_dir output_dir
          (fun i o => FFmpegProcessor.compress_video i o crf preset) in
      ret [text_content (batch_message "批量视频压缩完成！" results)]
  else if String.eqb name "convert_video_format" then
    let input_path := dict_get arguments "input_path" VNone in
    let output_path := dict_get arguments "output_path" VNone in
    let! found := os_path_exists input_path in
    if negb found then
      ret [text_content ("错误：输入文件不存在: " +:+ py_str input_path)]
    else
      let! ok := FFmpegProcessor.convert_video_format input_path output_path in
      if ok then
        ret [text_content ("视频格式转换成功：" +:+ py_str input_path +:+ " -> " +:+ py_str output_path)]
      else
        ret [text_content ("视频格式转换失败：" +:+ py_str input_path)]
  else if String.eqb name "resize_video" then
    let input_path := dict_get arguments "input_path" VNone in
    let output_path := dict_get arguments "output_path" VNone in
    let width := dict_get arguments "width" VNone in
    let height := dict_get arguments "height" VNone in
    let! found := os_path_exists input_path in
    if negb found then
      ret [text_content ("错误：输入文件不存在: " +:+ py_str input_path)]
    else
      let! ok := FFmpegProcessor.resize_video input_path output_path width height in
      if ok then
        ret [text_content ("视频尺寸调整成功：" +:+ py_str input_path +:+ " -> " +:+ py_str output_path
                           +:+ " (" +:+ py_str width +:+ "x" +:+ py_str height +:+ ")")]
      else
        ret [text_content ("视频尺寸调整失败：" +:+ py_str input_path)]
  else if String.eqb name "get_media_info" then
    let file_path := dict_get arguments "file_path" VNone in
    let! found := os_path_exists file_path in
    if negb found then
      ret [text_content ("错误：文件不存在: " +:+ py_str file_path)]
    else
      try_except
        (let! info := FFmpegProcessor.get_media_info file_path in
         fun w => (Ok [text_content (json_dumps w info)], w))
        (fun e => ret [text_content ("获取媒体信息失败：" +:+ exn_msg e)])
  else if String.eqb name "check_ffmpeg_status" then
    let! available := FFmpegProcessor.check_ffmpeg_available in
    if available then
      ret [text_content "FFmpeg 已安装并可用"]
    else
      ret [text_content "FFmpeg 未安装或不可用，请先安装FFmpeg"]
  else
    ret [text_content ("未知的工具名称: " +:+ name)].

(** [handle_call_tool(name, arguments)]; [None] is the absent argument
    map. *)
Definition handle_call_tool (name : string) (arguments : option (gmap string PyVal))
  : M (list TextContent) :=
  let arguments := default ∅ arguments in
  try_except
    (handle_call_tool_body name arguments)
    (fun e => ret [text_content ("工具执行出错: " +:+ exn_msg e)]).

(** ** The registry

    The names and the [required] lists of the schemas that
    [handle_list_tools] advertises. *)
Record Tool : Type := mkTool { tool_name : string; tool_required : list string }.

Definition handle_list_tools : list Tool :=
  [ mkTool "compress_image" ["input_path"; "output_path"];
    mkTool "batch_compress_images" ["input_dir"; "output_dir"];
    mkTool "convert_image_format" ["input_path"; "output_path"];
    mkTool "resize_image" ["input_path"; "output_path"; "width"; "height"];
    mkTool "compress_video" ["input_path"; "output_path"];
    mkTool "batch_compress_videos" ["input_dir"; "output_dir"];
    mkTool "convert_video_format" ["input_path"; "output_path"];
    mkTool "resize_video" ["input_path"; "output_path"; "width"; "height"];
    mkTool "get_media_info" ["file_path"];
    mkTool "check_ffmpeg_status" [] ].

(** [required_of name param]: the schema registered under [name] lists
    [param] as required. *)
Definition required_of (name param : string) : Prop :=
  exists t, t ∈ handle_list_tools /\ tool_name t = name /\ param ∈ tool_required t.

(** The parameter that carries the input path of a tool, with the text that
    opens its "does not exist" answer. *)
Definition input_param (name : string) : option (string * string) :=
  if bool_decide (name ∈ ["compress_image"; "convert_image_format"; "resize_image";
                          "compress_video"; "convert_video_format"; "resize_video"])
  then Some ("input_path", "错误：输入文件不存在: ")
  else if bool_decide (name ∈ ["batch_compress_images"; "batch_compress_videos"])
  then Some ("input_dir", "错误：输入目录不存在: ")
  else if bool_decide (name = "get_media_info")
  then Some ("file_path", "错误：文件不存在: ")
  else None.

(** The parameter that carries the destination of a tool. *)
Definition output_param (name : string) : option string :=
  if bool_decide (name ∈ ["compress_image"; "convert_image_format"; "resize_image";
                          "compress_video"; "convert_video_format"; "resize_video"])
  then Some "output_path"
  else if bool_decide (name ∈ ["batch_compress_images"; "batch_compress_videos"])
  then Some "output_dir"
  else None.

(** The six single-file transcoding operations, with their remaining
    arguments applied. *)
Definition single_file_operations (quality width height crf preset : PyVal)
  : list (PyVal -> PyVal -> M bool) :=
  [ (fun i o => FFmpegProcessor.compress_image i o quality);
    FFmpegProcessor.convert_image_format;
    (fun i o => FFmpegProcessor.resize_image i o width height);
    (fun i o => FFmpegProcessor.compress_video i o crf preset);
    FFmpegProcessor.convert_video_format;
    (fun i o => FFmpegProcessor.resize_video i o width height) ].

(** [sub in s] *)
Fixpoint contains (s sub : string) : bool :=
  String.prefix sub s ||
  match s with
  | EmptyString => false
  | String _ s' => contains s' sub
  end.

(** A path text without a separator: a bare file name. *)
Fixpoint has_sep (s : string) : bool :=
  match s with
  | EmptyString => false
  | String c s' => is_sep c || has_sep s'
  end.

(** ** Worlds for the examples *)

(** A world in which the paths of [present] exist, every directory lists
    [entries], directories can be created, and every command ends with the
    return code [rc]. *)
Definition sample_world (present entries : list string) (rc : Z) : World :=
  mkWorld 0 []
    (fun _ p => bool_decide (p ∈ present))
    (fun _ _ => false)
    (fun _ p => Ok (bool_decide (p ∈ present)))
    (fun _ _ => Ok entries)
    (fun _ _ => None)
    (fun _ _ => Ok (mkCompleted rc "" ""))
    (fun s => Ok s)
    (fun d => d).

(** A callback for [batch_process_files] that records its call and then
    behaves as [behave] says. *)
Definition stub_process_func (behave : string -> string -> Res bool)
  : PyVal -> PyVal -> M bool :=
  fun i o w => (behave (py_str i) (py_str o), emit (EvCall (py_str i) (py_str o)) w).

(** ** Vocabulary of the properties *)

(** [preserves f m]: running [m] does not change the observation [f] of the
    world, whether [m] returns or raises. *)
Definition preserves {O A} (f : World -> O) (m : M A) : Prop :=
  forall w, f (snd (m w)) = f w.

(** [file_name_of file_path] is [Path(file_path).name]. *)
Definition file_name_of (file_path : string) : string :=
  path_name (parse_path file_path).

(** An entry of one of the two lists stands for the file [name]: it is the
    bare name, or the name followed by a colon, a blank and a reason. *)
Definition recorded_as (name entry : string) : Prop :=
  entry = name \/ exists reason, entry = name +:+ ": " +:+ reason.

(** The names of the files whose mark is [b], in order. *)
Fixpoint names_marked (b : bool) (files : list string) (marks : list bool) : list string :=
  match files, marks with
  | f :: files', m :: marks' =>
      if bool_decide (m = b) then file_name_of f :: names_marked b files' marks'
      else names_marked b files' marks'
  | _, _ => []
  end.

(** What the loop of [batch_process_files] must have recorded for [files]
    when the callback behaves as [behave] says and the destination
    directory is [d]: the names of the files it accepted, and one entry for
    each file on which it returned [False] or raised. *)
Definition stub_success (d : string) (behave : string -> string -> Res bool)
    (files : list string) : list string :=
  flat_map (fun f => match behave f (join d (file_name_of f)) with
                     | Ok true => [file_name_of f]
                     | _ => []
                     end) files.

Definition stub_failed (d : string) (behave : string -> string -> Res bool)
    (files : list string) : list string :=
  flat_map (fun f => match behave f (join d (file_name_of f)) with
                     | Ok true => []
                     | Ok false => [file_name_of f]
                     | Raise e => [file_name_of f +:+ ": " +:+ exn_msg e]
                     end) files.

(** ** More of the registry *)

(** The names that [handle_list_tools] advertises. *)
Definition tool_names : list string := tool_name <$> handle_list_tools.

(** The keys under [properties] in each advertised schema. *)
Definition tool_properties : list (string * list string) :=
  [ ("compress_image", ["input_path"; "output_path"; "quality"]);
    ("batch_compress_images", ["input_dir"; "output_dir"; "quality"]);
    ("convert_image_format", ["input_path"; "output_path"]);
    ("resize_image", ["input_path"; "output_path"; "width"; "height"]);
    ("compress_video", ["input_path"; "output_path"; "crf"; "preset"]);
    ("batch_compress_videos", ["input_dir"; "output_dir"; "crf"; "preset"]);
    ("convert_video_format", ["input_path"; "output_path"]);
    ("resize_video", ["input_path"; "output_path"; "width"; "height"]);
    ("get_media_info", ["file_path"]);
    ("check_ffmpeg_status", []) ].

(** The [default] entries of the advertised schemas: tool, property,
    value. *)
Definition tool_defaults : list (string * string * PyVal) :=
  [ ("compress_image", "quality", VInt 85);
    ("batch_compress_images", "quality", VInt 85);
    ("compress_video", "crf", VInt 23);
    ("compress_video", "preset", VStr "medium");
    ("batch_compress_videos", "crf", VInt 23);
    ("batch_compress_videos", "preset", VStr "medium") ].

(** ** Vocabulary for the enumeration *)

(** The entry name [n] is picked by one of the two globs that
    [get_files_by_extension] runs for [ext]. *)
Definition matches_extension (ext n : string) : bool :=
  fnmatch_star_dot ext n || fnmatch_star_dot (upper ext) n.

(** The entry name [n] is picked for one of the extensions of
    [batch_process_files]. *)
Definition has_known_extension (n : string) : bool :=
  existsb (fun ext => matches_extension ext n) FileManager.all_extensions.

(** The patterns, without the leading [*.], that the loop of
    [get_files_by_extension] globs, in order. *)
Definition glob_suffixes (extensions : list string) : list string :=
  flat_map (fun ext => [ext; upper ext]) extensions.

(** No name can end with two of the dotted suffixes: none of them ends
    with another one. *)
Fixpoint exclusive (suffixes : list string) : bool :=
  match suffixes with
  | [] => true
  | s :: rest =>
      forallb (fun s' => negb (endswith ("." +:+ s) ("." +:+ s'))
                         && negb (endswith ("." +:+ s') ("." +:+ s))) rest
      && exclusive rest
  end.

(** ** Vocabulary for the answers of the dispatcher *)

(** The first line of the summary of each batch tool. *)
Definition batch_title (name : string) : string :=
  if String.eqb name "batch_compress_images" then "批量图片压缩完成！"
  else "批量视频压缩完成！".

(** The six tools that work on one file. *)
Definition single_file_tools : list string :=
  ["compress_image"; "convert_image_format"; "resize_image";
   "compress_video"; "convert_video_format"; "resize_video"].

(** The command line that each single-file tool builds from its arguments,
    for the input path [ins] and the output path [outs]. *)
Definition tool_command (name : string) (arguments : gmap string PyVal)
    (ins outs : string) : list string :=
  if String.eqb name "compress_image" then
    ["ffmpeg"; "-y"; "-i"; ins;
     "-q:v"; py_str (dict_get arguments "quality" (VInt 85)); outs]
  else if String.eqb name "convert_image_format" then
    ["ffmpeg"; "-y"; "-i"; ins; outs]
  else if String.eqb name "resize_image" then
    ["ffmpeg"; "-y"; "-i"; ins;
     "-vf"; "scale=" +:+ py_str (dict_get arguments "width" VNone) +:+ ":"
            +:+ py_str (dict_get arguments "height" VNone);
     outs]
  else if String.eqb name "compress_video" then
    ["ffmpeg"; "-y"; "-i"; ins;
     "-c:v"; "libx264"; "-crf"; py_str (dict_get arguments "crf" (VInt 23));
     "-preset"; py_str (dict_get arguments "preset" (VStr "medium"));
     "-c:a"; "aac"; "-b:a"; "128k"; outs]
  else if String.eqb name "convert_video_format" then
    ["ffmpeg"; "-y"; "-i"; ins; outs]
  else if String.eqb name "resize_video" then
    ["ffmpeg"; "-y"; "-i"; ins;
     "-vf"; "scale=" +:+ py_str (dict_get arguments "width" VNone) +:+ ":"
            +:+ py_str (dict_get arguments "height" VNone);
     "-c:a"; "copy"; outs]
  else [].

(** The text that opens the success answer of each single-file tool. *)
Definition success_prefix (name : string) : string :=
  if String.eqb name "compress_image" then "图片压缩成功："
  else if String.eqb name "convert_image_format" then "图片格式转换成功："
  else if String.eqb name "resize_image" then "图片尺寸调整成功："
  else if String.eqb name "compress_video" then "视频压缩成功："
  else if String.eqb name "convert_video_format" then "视频格式转换成功："
  else "视频尺寸调整成功：".

(** The text that opens the failure answer of each single-file tool. *)
Definition failure_prefix (name : string) : string :=
  if String.eqb name "compress_image" then "图片压缩失败："
  else if String.eqb name "convert_image_format" then "图片格式转换失败："
  else if String.eqb name "resize_image" then "图片尺寸调整失败："
  else if String.eqb name "compress_video" then "视频压缩失败："
  else if String.eqb name "convert_video_format" then "视频格式转换失败："
  else "视频尺寸调整失败：".

(** What follows the two paths in a success answer: the size, for the two
    resizing tools. *)
Definition success_suffix (name : string) (arguments : gmap string PyVal) : string :=
  if String.eqb name "resize_image" || String.eqb name "resize_video" then
    " (" +:+ py_str (dict_get arguments "width" VNone) +:+ "x"
    +:+ py_str (dict_get arguments "height" VNone) +:+ ")"
  else "".

(** The directories that [os.makedirs] was asked for so far. *)
Fixpoint made_dirs (t : list Event) : list string :=
  match t with
  | [] => []
  | EvMakedirs name :: t' => name :: made_dirs t'
  | _ :: t' => made_dirs t'
  end.


(** * The two command-line scripts: [install.py] and [setup_cursor_mcp.py]

    The scripts print, read and write files, make directories, run commands
    and may leave through [sys.exit].  Their machine is a small state (what
    was printed, the files, the directories, the commands run) next to a
    host that fixes what the scripts cannot decide: the platform, the paths
    of the interpreter and of the script, and which calls of the operating
    system fail. *)

(** A decoded JSON document as the Python object [json.load] returns
    (floats left out); an object keeps its keys in order. *)
#[warnings="-register-all"]
Inductive Json : Type :=
  | JNull
  | JBool (b : bool)
  | JInt (z : Z)
  | JStr (s : string)
  | JList (items : list Json)
  | JDict (entries : list (string * Json)).

(** [d.get(key)] on the entries of a [dict]. *)
Fixpoint entries_lookup (key : string) (entries : list (string * Json)) : option Json :=
  match entries with
  | [] => None
  | (k, v) :: rest => if String.eqb k key then Some v else entries_lookup key rest
  end.

(** [d[key] = v] on the entries of a [dict]: a key that is present keeps its
    place, a new key goes to the end. *)
Fixpoint entries_set (key : string) (v : Json) (entries : list (string * Json))
  : list (string * Json) :=
  match entries with
  | [] => [(key, v)]
  | (k, old) :: rest =>
      if String.eqb k key then (k, v) :: rest else (k, old) :: entries_set key v rest
  end.

(** [d.update(other)] *)
Definition entries_update (entries other : list (string * Json)) : list (string * Json) :=
  fold_left (fun acc kv => entries_set (fst kv) (snd kv) acc) other entries.

(** [type(x).__name__] of a decoded document. *)
Definition json_type_name (j : Json) : string :=
  match j with
  | JNull => "NoneType"
  | JBool _ => "bool"
  | JInt _ => "int"
  | JStr _ => "str"
  | JList _ => "list"
  | JDict _ => "dict"
  end.

(** An exception of the scripts: the name of its class and [str(e)]. *)
Record PyError : Type := mkPyError { err_class : string; err_msg : string }.

(** How a call ends: it returns, it raises, or it leaves the interpreter
    through [sys.exit(code)], which [except Exception] does not catch. *)
Inductive Outcome (A : Type) : Type :=
  | Returned (a : A)
  | Raised (e : PyError)
  | Exited (code : Z).
Arguments Returned {A} a.
Arguments Raised {A} e.
Arguments Exited {A} code.

(** What a file holds: the text of a JSON document, or a text that
    [json.load] rejects. *)
Inductive FileContent : Type :=
  | FJson (j : Json)
  | FText (s : string).

Record Host : Type := mkHost {
  platform_system : string;                 (* platform.system() *)
  sys_executable : string;                  (* sys.executable *)
  sys_version : string;                     (* sys.version *)
  version_info : Z * Z;                     (* sys.version_info[:2] *)
  script_dir : string;          (* os.path.abspath(os.path.dirname(__file__)) *)
  expanduser : string -> string;            (* os.path.expanduser *)
  host_join : string -> string -> string;   (* os.path.join of the platform *)
  host_dirname : string -> string;          (* os.path.dirname of the platform *)
  (* the outcome of starting a command and waiting for it *)
  run_command : list string -> CompletedProcess + PyError;
  (* open(path, "r") / open(path, "w") / os.makedirs(path) raise *)
  read_error : string -> option PyError;
  write_error : string -> option PyError;
  mkdir_error : string -> option PyError;
  (* the text of a document, and the message of json.load on another text *)
  json_text : Json -> string;
  json_decode_error : string -> string
}.

Record Machine : Type := mkMachine {
  m_printed : list string;               (* the arguments of print, in order *)
  m_files : gmap string FileContent;
  m_dirs : gset string;
  m_ran : list (list string)             (* the commands started, in order *)
}.

Definition Script (A : Type) : Type := Host -> Machine -> Outcome A * Machine.

Definition sret {A} (a : A) : Script A := fun _ m => (Returned a, m).
Definition sraise {A} (e : PyError) : Script A := fun _ m => (Raised e, m).
Definition sys_exit {A} (code : Z) : Script A := fun _ m => (Exited code, m).
Definition sbind {A B} (c : Script A) (k : A -> Script B) : Script B :=
  fun h m => match c h m with
             | (Returned a, m') => k a h m'
             | (Raised e, m') => (Raised e, m')
             | (Exited code, m') => (Exited code, m')
             end.

(** [try: body  except Exception as e: handler(e)]; [sys.exit] passes. *)
Definition stry {A} (body : Script A) (handler : PyError -> Script A) : Script A :=
  fun h m => match body h m with
             | (Raised e, m') => handler e h m'
             | other => other
             end.

Notation "'do!' x ':=' c 'in' k" := (sbind c (fun x => k))
  (at level 10, x name, c at level 100, k at level 200).
Notation "'go!' c 'in' k" := (sbind c (fun _ => k))
  (at level 10, c at level 100, k at level 200).

(** [for x in xs: body(x)] *)
Fixpoint sfor {A} (xs : list A) (body : A -> Script unit) : Script unit :=
  match xs with
  | [] => sret tt
  | x :: xs' => go! body x in sfor xs' body
  end.

Definition host {A} (f : Host -> A) : Script A := fun h m => (Returned (f h), m).

(** [print(line)]; writing to the standard output is taken to succeed. *)
Definition print (line : string) : Script unit :=
  fun _ m => (Returned tt, mkMachine (m_printed m ++ [line]) (m_files m) (m_dirs m) (m_ran m)).

(** [os.path.exists(path)] *)
Definition path_exists (path : string) : Script bool :=
  fun _ m => (Returned (bool_decide (is_Some (m_files m !! path))
                        || bool_decide (path ∈ m_dirs m)), m).

(** [os.makedirs(path)] and [os.makedirs(path, exist_ok=True)], as far as
    the scripts can tell: the empty path cannot be made; for another path
    the call raises, or the directory exists afterwards. *)
Definition makedirs (path : string) : Script unit :=
  fun h m =>
    if bool_decide (path = "") then
      (Raised (mkPyError "FileNotFoundError" "[Errno 2] No such file or directory: ''"), m)
    else match mkdir_error h path with
         | Some e => (Raised e, m)
         | None => (Returned tt,
                    mkMachine (m_printed m) (m_files m) ({[path]} ∪ m_dirs m) (m_ran m))
         end.

(** [with open(path, "r") as f: json.load(f)] *)
Definition load_json (path : string) : Script Json :=
  fun h m => match read_error h path with
             | Some e => (Raised e, m)
             | None =>
                 match m_files m !! path with
                 | Some (FJson j) => (Returned j, m)
                 | Some (FText s) =>
                     (Raised (mkPyError "JSONDecodeError" (json_decode_error h s)), m)
                 | None =>
                     if bool_decide (path ∈ m_dirs m) then
                       (Raised (mkPyError "IsADirectoryError"
                                  ("[Errno 21] Is a directory: '" +:+ path +:+ "'")), m)
                     else
                       (Raised (mkPyError "FileNotFoundError"
                                  ("[Errno 2] No such file or directory: '" +:+ path +:+ "'")), m)
                 end
             end.

(** [with open(path, "r") as f: f.read()] *)
Definition read_text (path : string) : Script string :=
  fun h m => match read_error h path with
             | Some e => (Raised e, m)
             | None =>
                 match m_files m !! path with
                 | Some (FJson j) => (Returned (json_text h j), m)
                 | Some (FText s) => (Returned s, m)
                 | None =>
                     if bool_decide (path ∈ m_dirs m) then
                       (Raised (mkPyError "IsADirectoryError"
                                  ("[Errno 21] Is a directory: '" +:+ path +:+ "'")), m)
                     else
                       (Raised (mkPyError "FileNotFoundError"
                                  ("[Errno 2] No such file or directory: '" +:+ path +:+ "'")), m)
                 end
             end.

(** [with open(path, "w") as f: json.dump(doc, f, indent=2, ...)]: the
    call fails where [open] does, and leaves the file as it was then; a
    document of [Json] is always serialisable. *)
Definition dump_json (path : string) (doc : Json) : Script unit :=
  fun h m => match write_error h path with
             | Some e => (Raised e, m)
             | None => (Returned tt,
                        mkMachine (m_printed m) (<[path := FJson doc]> (m_files m)) (m_dirs m) (m_ran m))
             end.

(** [s.replace("\\", "/")] *)
Fixpoint replace_backslash (s : string) : string :=
  match s with
  | EmptyString => EmptyString
  | String c s' =>
      String (if bool_decide (c = "\"%char) then "/"%char else c) (replace_backslash s')
  end.

(** ["=" * n] *)
Fixpoint rule (n : nat) : string :=
  match n with
  | O => ""
  | S n' => String "="%char (rule n')
  end.

(** [subprocess.run(cmd, ...)]: the command is started and waited for. *)
Definition start (cmd : list string) : Script CompletedProcess :=
  fun h m =>
    let m' := mkMachine (m_printed m) (m_files m) (m_dirs m) (m_ran m ++ [cmd]) in
    match run_command h cmd with
    | inl cp => (Returned cp, m')
    | inr e => (Raised e, m')
    end.

(** [subprocess.check_call(cmd)]: a return code other than 0 is a
    [CalledProcessError]. *)
Definition check_call (cmd : list string) : Script unit :=
  do! cp := start cmd in
  if returncode cp =? 0 then sret tt
  else sraise (mkPyError "CalledProcessError"
                 ("Command returned non-zero exit status " +:+ pretty (returncode cp) +:+ ".")).

(** [try: body  except <cls>: handler]; every other exception passes. *)
Definition stry_class {A} (cls : string) (body : Script A) (handler : Script A) : Script A :=
  fun h m => match body h m with
             | (Raised e, m') =>
                 if String.eqb (err_class e) cls then handler h m' else (Raised e, m')
             | other => other
             end.

(** ** [install.py] *)

Module Install.

(** [sys.version_info < (3, 8)]: tuples compare by their first difference,
    and the longer of two tuples that agree is the greater. *)
Definition older_than_3_8 (v : Z * Z) : bool :=
  (fst v <? 3) || ((fst v =? 3) && (snd v <? 8)).

Definition check_python_version : Script bool :=
  do! v := host version_info in
  do! version := host sys_version in
  if older_than_3_8 v then
    go! print "错误：需要Python 3.8或更高版本" in
    go! print ("当前版本：" +:+ version) in
    sret false
  else
    go! print ("✓ Python版本检查通过：" +:+ version) in
    sret true.

Definition install_requirements : Script bool :=
  go! print "正在安装Python依赖..." in
  do! python := host sys_executable in
  stry_class "CalledProcessError"
    (go! check_call [python; "-m"; "pip"; "install"; "-r"; "requirements.txt"] in
     go! print "✓ Python依赖安装成功" in
     sret true)
    (go! print "✗ Python依赖安装失败" in
     sret false).

Definition check_ffmpeg : Script bool :=
  stry
    (do! result := start ["ffmpeg"; "-version"] in
     if returncode result =? 0 then
       go! print "✓ FFmpeg已安装并可用" in sret true
     else
       go! print "✗ FFmpeg不可用" in sret false)
    (fun _ => go! print "✗ FFmpeg未安装或不在PATH中" in sret false).

Definition show_ffmpeg_install_instructions : Script unit :=
  do! system := host platform_system in
  go! print (nl +:+ "=== FFmpeg安装说明 ===") in
  go! (if String.eqb system "Windows" then
         go! print "Windows用户请按以下步骤安装FFmpeg：" in
         go! print "1. 访问 https://ffmpeg.org/download.html#build-windows" in
         go! print "2. 下载FFmpeg压缩包" in
         go! print "3. 解压到某个目录（如 C:\ffmpeg）" in
         go! print "4. 将 C:\ffmpeg\bin 添加到系统PATH环境变量" in
         print "5. 重启命令提示符并运行 'ffmpeg -version' 验证"
       else if String.eqb system "Darwin" then
         go! print "macOS用户可以使用Homebrew安装：" in
         print "brew install ffmpeg"
       else if String.eqb system "Linux" then
         go! print "Linux用户可以使用包管理器安装：" in
         go! print "Ubuntu/Debian: sudo apt update && sudo apt install ffmpeg" in
         print "CentOS/RHEL: sudo yum install ffmpeg 或 sudo dnf install ffmpeg"
       else sret tt) in
  print (nl +:+ "安装完成后，请重新运行此安装脚本进行验证。").

Definition create_test_directories : Script unit :=
  let test_dirs := ["test_input"; "test_output"] in
  sfor test_dirs
    (fun dir_name =>
       do! found := path_exists dir_name in
       if negb found then
         go! makedirs dir_name in
         print ("✓ 创建测试目录：" +:+ dir_name)
       else sret tt).

Definition main : Script unit :=
  go! print "=== FFmpeg MCP工具安装程序 ===" in
  do! python_ok := check_python_version in
  go! (if negb python_ok then sys_exit 1 else sret tt) in
  do! installed := install_requirements in
  go! (if negb installed then
         go! print "请解决依赖安装问题后重试" in sys_exit 1
       else sret tt) in
  do! ffmpeg_ok := check_ffmpeg in
  go! (if negb ffmpeg_ok then
         go! show_ffmpeg_install_instructions in
         print (nl +:+ "⚠️  警告：FFmpeg未正确安装，某些功能可能无法使用")
       else sret tt) in
  go! create_test_directories in
  go! print (nl +:+ "=== 安装完成 ===") in
  go! (if ffmpeg_ok then
         go! print "✓ 所有组件安装成功！" in
         go! print "你现在可以运行：" in
         go! print "  python start_server.py  # 启动MCP服务器" in
         print "  或者在Windows上双击 start_server.bat"
       else
         print "⚠️  安装部分完成，请安装FFmpeg后再使用") in
  print (nl +:+ "详细使用说明请查看 README.md 文件").

End Install.

(** ** [setup_cursor_mcp.py] *)

(** [key not in x] on a decoded document. *)
Definition py_not_in (key : string) (x : Json) : Script bool :=
  match x with
  | JDict entries => sret (negb (bool_decide (is_Some (entries_lookup key entries))))
  | JList items =>
      sret (negb (existsb (fun j => match j with
                                    | JStr s => String.eqb s key
                                    | _ => false
                                    end) items))
  | JStr s => sret (negb (contains s key))
  | _ => sraise (mkPyError "TypeError"
                   ("argument of type '" +:+ json_type_name x +:+ "' is not iterable"))
  end.

(** [x[key] = v] with a [str] key; the object after the assignment. *)
Definition py_setitem (x : Json) (key : string) (v : Json) : Script Json :=
  match x with
  | JDict entries => sret (JDict (entries_set key v entries))
  | JList _ => sraise (mkPyError "TypeError" "list indices must be integers or slices, not str")
  | _ => sraise (mkPyError "TypeError"
                   ("'" +:+ json_type_name x +:+ "' object does not support item assignment"))
  end.

(** [x[key]] with a [str] key. *)
Definition py_getitem (x : Json) (key : string) : Script Json :=
  match x with
  | JDict entries =>
      match entries_lookup key entries with
      | Some v => sret v
      | None => sraise (mkPyError "KeyError" ("'" +:+ key +:+ "'"))
      end
  | JList _ => sraise (mkPyError "TypeError" "list indices must be integers or slices, not str")
  | JStr _ => sraise (mkPyError "TypeError" "string indices must be integers, not 'str'")
  | _ => sraise (mkPyError "TypeError"
                   ("'" +:+ json_type_name x +:+ "' object is not subscriptable"))
  end.

(** [x.update(other)] for a [dict] [other]; the object after the call. *)
Definition py_update (x : Json) (other : list (string * Json)) : Script Json :=
  match x with
  | JDict entries => sret (JDict (entries_update entries other))
  | _ => sraise (mkPyError "AttributeError"
                   ("'" +:+ json_type_name x +:+ "' object has no attribute 'update'"))
  end.

Module SetupCursor.

Definition get_current_directory : Script string := host script_dir.

Definition get_cursor_config_path : Script (option string) :=
  do! system := host platform_system in
  if String.eqb system "Windows" then
    do! config_path :=
      host (fun h => expanduser h "~\AppData\Roaming\Cursor\User\settings.json") in
    sret (Some config_path)
  else if String.eqb system "Darwin" then
    do! config_path :=
      host (fun h => expanduser h "~/Library/Application Support/Cursor/User/settings.json") in
    sret (Some config_path)
  else if String.eqb system "Linux" then
    do! config_path :=
      host (fun h => expanduser h "~/.config/Cursor/User/settings.json") in
    sret (Some config_path)
  else sret None.

Definition get_python_executable : Script string := host sys_executable.

(** The entries of the [dict] that [create_mcp_config] returns. *)
Definition create_mcp_config : Script (list (string * Json)) :=
  do! current_dir := get_current_directory in
  do! python_exe := get_python_executable in
  do! joined := host (fun h => host_join h current_dir "ffmpeg_mcp.py") in
  let ffmpeg_script := replace_backslash joined in
  let config :=
    [("ffmpeg",
      JDict [("command", JStr (replace_backslash python_exe));
             ("args", JList [JStr ffmpeg_script]);
             ("env", JDict [("PYTHONPATH", JStr (replace_backslash current_dir))])])] in
  sret config.

Definition save_standalone_config : Script string :=
  do! servers := create_mcp_config in
  let config := JDict [("mcpServers", JDict servers)] in
  do! current_dir := get_current_directory in
  do! config_file := host (fun h => host_join h current_dir "cursor_mcp_config.json") in
  go! dump_json config_file config in
  go! print ("✓ 已创建配置文件：" +:+ config_file) in
  sret config_file.

Definition update_cursor_config : Script bool :=
  do! cursor_config_path := get_cursor_config_path in
  match cursor_config_path with
  | None =>
      go! print "✗ 无法确定Cursor配置文件路径" in
      sret false
  | Some "" =>
      (* an empty path is falsy as well *)
      go! print "✗ 无法确定Cursor配置文件路径" in
      sret false
  | Some cursor_config_path =>
      do! parent := host (fun h => host_dirname h cursor_config_path) in
      go! makedirs parent in
      let existing_config := JDict [] in
      do! found := path_exists cursor_config_path in
      do! existing_config :=
        (if found then
           stry (load_json cursor_config_path)
                (fun e =>
                   go! print ("⚠️  读取现有配置文件时出错：" +:+ err_msg e) in
                   sret (JDict []))
         else sret existing_config) in
      do! missing := py_not_in "mcpServers" existing_config in
      do! existing_config :=
        (if missing then py_setitem existing_config "mcpServers" (JDict [])
         else sret existing_config) in
      do! servers := py_getitem existing_config "mcpServers" in
      do! config := create_mcp_config in
      do! servers := py_update servers config in
      (* the updated dict is the one held by existing_config *)
      let existing_config :=
        match existing_config with
        | JDict entries => JDict (entries_set "mcpServers" servers entries)
        | other => other
        end in
      stry
        (go! dump_json cursor_config_path existing_config in
         go! print ("✓ 已更新Cursor配置文件：" +:+ cursor_config_path) in
         sret true)
        (fun e =>
           go! print ("✗ 更新配置文件失败：" +:+ err_msg e) in
           sret false)
  end.

Definition create_project_config : Script string :=
  do! current_dir := get_current_directory in
  do! cursor_server_dir := host (fun h => host_join h current_dir ".cursor-server") in
  go! makedirs cursor_server_dir in
  let config :=
    JDict [("mcpServers",
            JDict [("ffmpeg",
                    JDict [("command", JStr "python");
                           ("args", JList [JStr "./ffmpeg_mcp.py"]);
                           ("env", JNull)])])] in
  do! config_file := host (fun h => host_join h cursor_server_dir "config.json") in
  go! dump_json config_file config in
  go! print ("✓ 已创建项目配置：" +:+ config_file) in
  sret config_file.

Definition show_manual_instructions (config_file : string) : Script unit :=
  go! print (nl +:+ rule 60) in
  go! print "手动配置说明" in
  go! print (rule 60) in
  go! print (nl +:+ "如果自动配置失败，请手动进行以下操作：") in
  go! print (nl +:+ "1. 打开Cursor设置 (Ctrl+, 或 Cmd+,)") in
  go! print "2. 搜索 'MCP' 设置" in
  go! print "3. 添加以下配置内容：" in
  do! config_content := read_text config_file in
  go! print (nl +:+ config_content) in
  go! print (nl +:+ "4. 保存设置并重启Cursor") in
  print (nl +:+ "配置文件已保存到：" +:+ config_file).

Definition main : Script unit :=
  go! print "=== Cursor MCP 配置工具 ===" in
  go! print "正在配置FFmpeg MCP工具..." in
  do! current_dir := get_current_directory in
  do! ffmpeg_script := host (fun h => host_join h current_dir "ffmpeg_mcp.py") in
  do! found := path_exists ffmpeg_script in
  go! (if negb found then
         go! print ("✗ 找不到ffmpeg_mcp.py文件：" +:+ ffmpeg_script) in
         go! print "请确保在正确的项目目录中运行此脚本" in
         sys_exit 1
       else sret tt) in
  go! print ("✓ 项目目录：" +:+ current_dir) in
  do! python_exe := get_python_executable in
  go! print ("✓ Python路径：" +:+ python_exe) in
  do! config_file := save_standalone_config in
  let success_methods := [] in
  go! print (nl +:+ "正在尝试更新Cursor全局配置...") in
  do! updated := update_cursor_config in
  let success_methods :=
    if updated then success_methods ++ ["全局配置"] else success_methods in
  go! print (nl +:+ "正在创建项目特定配置...") in
  do! success_methods :=
    stry (go! create_project_config in sret (success_methods ++ ["项目配置"]))
         (fun e =>
            go! print ("✗ 创建项目配置失败：" +:+ err_msg e) in
            sret success_methods) in
  go! print (nl +:+ rule 60) in
  go! print "配置完成!" in
  go! print (rule 60) in
  go! (match success_methods with
       | _ :: _ =>
           go! print ("✓ 成功创建配置：" +:+ comma_join success_methods) in
           go! print (nl +:+ "下一步：") in
           go! print "1. 重启Cursor" in
           go! print "2. 在Cursor中测试FFmpeg MCP工具" in
           print "   例如输入：'压缩D:/1文件夹中的图片到D:/output'"
       | [] =>
           go! print "⚠️  自动配置未完全成功，请查看手动配置说明：" in
           show_manual_instructions config_file
       end) in
  print (nl +:+ "详细配置说明请查看：CURSOR_SETUP.md").

End SetupCursor.

(** A host and a machine for the examples: Linux, Python 3.11, every
    command exits with [rc], nothing fails. *)
Definition sample_host (rc : Z) : Host :=
  mkHost "Linux" "/usr/bin/python3" "3.11.4 (main)" (3, 11) "/opt/ffmpeg-mcp"
    (fun p => match p with
              | String "~" rest => "/home/ann" +:+ rest
              | _ => p
              end)
    join dirname
    (fun _ => inl (mkCompleted rc "" ""))
    (fun _ => None) (fun _ => None) (fun _ => None)
    (fun _ => "{...}") (fun _ => "Expecting value: line 1 column 1 (char 0)").

Definition empty_machine : Machine := mkMachine [] ∅ ∅ [].

(** The path is a file or a directory of the machine. *)
Definition present (m : Machine) (path : string) : bool :=
  bool_decide (is_Some (m_files m !! path)) || bool_decide (path ∈ m_dirs m).

(** The machine after more lines were printed. *)
Definition with_printed (m : Machine) (lines : list string) : Machine :=
  mkMachine (m_printed m ++ lines) (m_files m) (m_dirs m) (m_ran m).

(** A host on which [pip] works and [ffmpeg] is not installed. *)
Definition host_without_ffmpeg : Host :=
  mkHost "Linux" "/usr/bin/python3" "3.11.4" (3, 11) "/opt" (fun p => p) join dirname
    (fun cmd => if bool_decide (cmd = ["ffmpeg"; "-version"])
                then inr (mkPyError "FileNotFoundError"
                            "[Errno 2] No such file or directory: 'ffmpeg'")
                else inl (mkCompleted 0 "" ""))
    (fun _ => None) (fun _ => None) (fun _ => None) (fun _ => "") (fun _ => "").

(** The text holds a backslash. *)
Fixpoint has_backslash (s : string) : bool :=
  match s with
  | EmptyString => false
  | String c s' => bool_decide (c = "\"%char) || has_backslash s'
  end.

(** The settings document has the shape that [update_cursor_config] can
    extend: an object whose [mcpServers], when there is one, is an object. *)
Definition extendable (doc : Json) : bool :=
  match doc with
  | JDict entries =>
      match entries_lookup "mcpServers" entries with
      | None => true
      | Some (JDict _) => true
      | Some _ => false
      end
  | _ => false
  end.

(** The servers that a settings document lists already. *)
Definition listed_servers (doc : Json) : list (string * Json) :=
  match doc with
  | JDict entries =>
      match entries_lookup "mcpServers" entries with
      | Some (JDict servers) => servers
      | _ => []
      end
  | _ => []
  end.

(** The value under [key] of a document that is an object. *)
Definition member (key : string) (doc : Json) : option Json :=
  match doc with
  | JDict entries => entries_lookup key entries
  | _ => None
  end.

(** The server entries that [create_mcp_config] returns on a host. *)
Definition server_entries (h : Host) : list (string * Json) :=
  [("ffmpeg",
    JDict [("command", JStr (replace_backslash (sys_executable h)));
           ("args", JList [JStr (replace_backslash
                                   (host_join h (script_dir h) "ffmpeg_mcp.py"))]);
           ("env", JDict [("PYTHONPATH", JStr (replace_backslash (script_dir h)))])])].

(** Settings for the examples: one setting and one server of another tool. *)
Definition sample_settings_path : string := "/home/ann/.config/Cursor/User/settings.json".

Definition sample_settings : list (string * Json) :=
  [("editor.fontSize", JInt 14);
   ("mcpServers", JDict [("other", JDict [("command", JStr "node")])])].

Definition machine_with_settings : Machine :=
  mkMachine [] {[sample_settings_path := FJson (JDict sample_settings)]} ∅ [].

Definition machine_with_comments : Machine :=
  mkMachine [] {[sample_settings_path := FText "// settings"]} ∅ [].

Definition machine_with_null_servers : Machine :=
  mkMachine [] {[sample_settings_path := FJson (JDict [("mcpServers", JNull)])]} ∅ [].

(** * Properties *)

(** ** The path functions on examples *)

Example dirname_ex1 : dirname "out/a/x.jpg" = "out/a".
Proof. reflexivity. Qed.
Example dirname_ex2 : dirname "/x.jpg" = "/".
Proof. reflexivity. Qed.
Example dirname_ex3 : dirname "out.jpg" = "".
Proof. reflexivity. Qed.
Example dirname_ex4 : dirname "a//x.jpg" = "a".
Proof. reflexivity. Qed.
Example join_ex1 : join "out" "a.jpg" = "out/a.jpg".
Proof. reflexivity. Qed.
Example join_ex2 : join "out/" "a.jpg" = "out/a.jpg".
Proof. reflexivity. Qed.
Example path_ex1 : path_str (path_child (parse_path "d//e/./") "a.jpg") = "d/e/a.jpg".
Proof. reflexivity. Qed.
Example path_ex2 : path_str (path_child (parse_path "") "a.jpg") = "a.jpg".
Proof. reflexivity. Qed.
Example path_ex3 : path_name (parse_path "/d/e/a.JPG") = "a.JPG".
Proof. reflexivity. Qed.
Example upper_ex : upper "m4v" = "M4V".
Proof. reflexivity. Qed.
Example fnmatch_ex : fnmatch_star_dot "jpg" "a.jpgx" = false.
Proof. reflexivity. Qed.

(** ** Traces *)

Lemma spawned_app (t1 t2 : list Event) : spawned (t1 ++ t2) = spawned t1 ++ spawned t2.
Proof.
  induction t1 as [|ev t1 IH]; [done|].
  destruct ev; simpl; by rewrite ?IH.
Qed.

Lemma calls_app (t1 t2 : list Event) : calls (t1 ++ t2) = calls t1 ++ calls t2.
Proof.
  induction t1 as [|ev t1 IH]; [done|].
  destruct ev; simpl; by rewrite ?IH.
Qed.

Lemma trace_tick (w : World) : w_trace (tick w) = w_trace w.
Proof. done. Qed.

Lemma trace_emit (ev : Event) (w : World) : w_trace (emit ev w) = w_trace w ++ [ev].
Proof. done. Qed.

(** ** Bare file names have no parent directory *)

Lemma rev_head_rev_app (s acc : string) :
  has_sep s = false -> rev_head (String.rev_app s acc) = rev_head acc.
Proof.
  revert acc. induction s as [|c s IH]; intros acc Hs; [done|].
  simpl in Hs. apply orb_false_iff in Hs as [Hc Hs].
  simpl. rewrite IH by done. simpl. by rewrite Hc.
Qed.

Lemma dirname_bare (s : string) : has_sep s = false -> dirname s = "".
Proof.
  intros Hs. unfold dirname, String.rev.
  by rewrite rev_head_rev_app.
Qed.

(** Creating the parent of a bare file name raises, and nothing is
    spawned. *)
Lemma makedirs_of_bare (output : string) (w : World) :
  has_sep output = false ->
  (let! d := os_path_dirname (VStr output) in os_makedirs d) w
  = (Raise (mkExn FileNotFoundError "[Errno 2] No such file or directory: ''"),
     tick (emit (EvMakedirs "") w)).
Proof.
  intros Hs. unfold bind, os_path_dirname, os_fspath, bind, ret.
  rewrite dirname_bare by done. done.
Qed.

(** C10: each of the six single-file operations, given an output path
    without a directory part (a bare file name), answers [False] and hands
    no command line to the operating system: the parent directory of the
    output is the empty path, and creating it raises before the command is
    run. *)
Theorem bare_output_returns_false
    (quality width height crf preset : PyVal) (op : PyVal -> PyVal -> M bool)
    (input_path : PyVal) (output_path : string) (w : World) :
  op ∈ single_file_operations quality width height crf preset ->
  has_sep output_path = false ->
  exists w', op input_path (VStr output_path) w = (Ok false, w')
             /\ spawned (w_trace w') = spawned (w_trace w).
Proof.
  intros Hop Hs.
  exists (tick (emit (EvMakedirs "") w)). split.
  - pose proof (makedirs_of_bare output_path w Hs) as Hmk.
    unfold bind in Hmk.
    unfold single_file_operations in Hop.
    repeat (apply elem_of_cons in Hop as [->|Hop]);
      [..|by apply elem_of_nil in Hop];
      unfold FFmpegProcessor.compress_image, FFmpegProcessor.convert_image_format,
        FFmpegProcessor.resize_image, FFmpegProcessor.compress_video,
        FFmpegProcessor.convert_video_format, FFmpegProcessor.resize_video,
        try_except, bind;
      destruct (os_path_dirname (VStr output_path) w) as [[d|e] w1];
      simplify_eq; by rewrite ?Hmk.
  - by rewrite trace_tick, trace_emit, spawned_app, app_nil_r.
Qed.

Lemma bare_output_returns_false_witness :
  exists w', FFmpegProcessor.convert_image_format (VStr "in.png") (VStr "out.jpg")
               (sample_world ["in.png"] [] 0) = (Ok false, w')
             /\ spawned (w_trace w') = spawned (w_trace (sample_world ["in.png"] [] 0)).
Proof.
  apply (bare_output_returns_false VNone VNone VNone VNone VNone
           FFmpegProcessor.convert_image_format (VStr "in.png") "out.jpg").
  - unfold single_file_operations. apply list_elem_of_further, list_elem_of_here.
  - reflexivity.
Defined.

(** ** The dispatcher always answers with one text item *)

Lemma handle_call_tool_body_shape (name : string) (arguments : gmap string PyVal)
    (w w' : World) (r : list TextContent) :
  handle_call_tool_body name arguments w = (Ok r, w') ->
  exists s, r = [text_content s].
Proof.
  unfold handle_call_tool_body, bind, try_except, ret.
  intros H. repeat case_match; simplify_eq; eauto.
Qed.

(** C9: every call of the dispatcher, for any tool name and any argument
    map (also the absent one), returns a list of exactly one content item,
    and that item is a text item. *)
Theorem handle_call_tool_one_text_item
    (name : string) (arguments : option (gmap string PyVal)) (w : World) :
  exists s w', handle_call_tool name arguments w = (Ok [mkTextContent "text" s], w').
Proof.
  unfold handle_call_tool, try_except, ret.
  destruct (handle_call_tool_body name (default ∅ arguments) w) as [[r|e] w'] eqn:Hbody.
  - apply handle_call_tool_body_shape in Hbody as [s ->]. by exists s, w'.
  - by eexists _, w'.
Qed.

(** C6: for every tool name and every argument map the dispatcher returns a
    result value, never an exception; when the dispatched code raises, the
    result is the one text item made of "工具执行出错: " and the text of the
    exception. *)
Theorem handle_call_tool_never_raises
    (name : string) (arguments : option (gmap string PyVal)) (w : World) :
  exists r w',
    handle_call_tool name arguments w = (Ok r, w')
    /\ forall e, fst (handle_call_tool_body name (default ∅ arguments) w) = Raise e ->
                 r = [text_content ("工具执行出错: " +:+ exn_msg e)].
Proof.
  unfold handle_call_tool, try_except, ret.
  destruct (handle_call_tool_body name (default ∅ arguments) w) as [[r|e] w'] eqn:Hbody.
  - exists r, w'. split; [done|]. intros e He. discriminate He.
  - eexists _, w'. split; [done|]. intros e' He. simpl in He. by simplify_eq.
Qed.

Lemma handle_call_tool_never_raises_witness :
  exists r w',
    handle_call_tool "compress_image" None (sample_world [] [] 0) = (Ok r, w')
    /\ r = [text_content
              "工具执行出错: stat: path should be string, bytes, os.PathLike or integer, not NoneType"].
Proof.
  destruct (handle_call_tool_never_raises "compress_image" None (sample_world [] [] 0))
    as (r & w' & Hrun & Hwrap).
  exists r, w'. split; [exact Hrun|].
  apply (Hwrap (mkExn TypeError
    "stat: path should be string, bytes, os.PathLike or integer, not NoneType")).
  reflexivity.
Defined.

(** ** A missing input is reported before anything is run *)

Lemma input_param_cases (name param pre : string) :
  input_param name = Some (param, pre) ->
  name ∈ ["compress_image"; "convert_image_format"; "resize_image";
          "compress_video"; "convert_video_format"; "resize_video";
          "batch_compress_images"; "batch_compress_videos"; "get_media_info"].
Proof.
  unfold input_param. intros H. rewrite !elem_of_cons.
  repeat case_bool_decide; [| |subst name|discriminate H];
    repeat match goal with
           | Hin : _ ∈ _ :: _ |- _ => apply elem_of_cons in Hin as [->|Hin]
           end; tauto.
Qed.

(** C7: for each of the nine tools that take an input path (or input
    directory), when the value given for it does not exist on the file
    system, the dispatcher answers with the tool's "does not exist" text
    followed by the path, and no command line is handed to the operating
    system. *)
Theorem missing_input_is_reported
    (name param pre : string) (arguments : gmap string PyVal) (p : string) (w : World) :
  input_param name = Some (param, pre) ->
  arguments !! param = Some (VStr p) ->
  fs_exists w (w_clock w) p = false ->
  exists w', handle_call_tool name (Some arguments) w = (Ok [text_content (pre +:+ p)], w')
             /\ spawned (w_trace w') = spawned (w_trace w).
Proof.
  intros Hin Harg Hex. exists (tick w). split; [|done].
  pose proof (input_param_cases _ _ _ Hin) as Hname.
  repeat (apply elem_of_cons in Hname as [->|Hname]);
    [..|by apply elem_of_nil in Hname];
    vm_compute in Hin; simplify_eq;
    unfold handle_call_tool, handle_call_tool_body, try_except, bind, dict_get;
    simpl; rewrite Harg; simpl; by rewrite Hex.
Qed.

Lemma missing_input_is_reported_witness :
  exists w',
    handle_call_tool "get_media_info" (Some {[ "file_path" := VStr "/no/such.mp4" ]})
      (sample_world [] [] 0)
    = (Ok [text_content ("错误：文件不存在: " +:+ "/no/such.mp4")], w')
    /\ spawned (w_trace w') = spawned (w_trace (sample_world [] [] 0)).
Proof.
  apply (missing_input_is_reported "get_media_info" "file_path").
  - reflexivity.
  - reflexivity.
  - reflexivity.
Defined.

(** ** What a computation leaves unchanged *)

Section Preserves.
Context {O : Type} (f : World -> O).

Lemma preserves_ret {A} (a : A) : preserves f (ret a).
Proof. done. Qed.

Lemma preserves_raise {A} (e : Exn) : preserves f (@raise A e).
Proof. done. Qed.

Lemma preserves_bind {A B} (m : M A) (k : A -> M B) :
  preserves f m -> (forall a, preserves f (k a)) -> preserves f (bind m k).
Proof.
  intros Hm Hk w. unfold bind. specialize (Hm w).
  destruct (m w) as [[a|e] w1]; simpl in *; [|done].
  by rewrite Hk.
Qed.

Lemma preserves_try_except {A} (body : M A) (handler : Exn -> M A) :
  preserves f body -> (forall e, preserves f (handler e)) ->
  preserves f (try_except body handler).
Proof.
  intros Hm Hk w. unfold try_except. specialize (Hm w).
  destruct (body w) as [[a|e] w1]; simpl in *; [done|].
  by rewrite Hk.
Qed.

Lemma preserves_for_each {A S} (xs : list A) (body : A -> S -> M S) (acc : S) :
  (forall x s, preserves f (body x s)) -> preserves f (for_each xs body acc).
Proof.
  intros Hbody. revert acc.
  induction xs as [|x xs IH]; intros acc; simpl.
  - apply preserves_ret.
  - apply preserves_bind; auto.
Qed.

Lemma preserves_if {A} (b : bool) (m1 m2 : M A) :
  preserves f m1 -> preserves f m2 -> preserves f (if b then m1 else m2).
Proof. by destruct b. Qed.
End Preserves.

(** Looking at the file system leaves the trace alone. *)

Lemma os_fspath_quiet (v : PyVal) : preserves w_trace (os_fspath v).
Proof. by destruct v. Qed.

Lemma os_path_exists_quiet (v : PyVal) : preserves w_trace (os_path_exists v).
Proof.
  destruct v as [| [] | z | s | ty r]; try done;
    unfold os_path_exists, exists_fd; repeat case_match; done.
Qed.

Lemma os_path_join_quiet (a : PyVal) (b : string) : preserves w_trace (os_path_join a b).
Proof. apply preserves_bind; [apply os_fspath_quiet|done]. Qed.

Lemma os_path_dirname_quiet (v : PyVal) : preserves w_trace (os_path_dirname v).
Proof. apply preserves_bind; [apply os_fspath_quiet|done]. Qed.

Lemma get_files_by_extension_quiet (directory : PyVal) (extensions : list string) :
  preserves w_trace (FileManager.get_files_by_extension directory extensions).
Proof.
  unfold FileManager.get_files_by_extension, Path.
  apply preserves_bind; [apply preserves_bind; [apply os_fspath_quiet|done]|].
  intros path. apply preserves_bind; [done|].
  intros is_dir. apply preserves_bind; [|done].
  apply preserves_if; [|done].
  apply preserves_for_each. intros ext files.
  apply preserves_bind; [done|]. intros lower.
  apply preserves_bind; [done|]. done.
Qed.

(** ** The batch runner *)

Lemma names_marked_split (files : list string) (marks : list bool) :
  length marks = length files ->
  (length (names_marked true files marks) + length (names_marked false files marks)
   = length files)%nat.
Proof.
  revert marks. induction files as [|f files IH]; intros [|[] marks] Hlen;
    simplify_eq/=; try done; rewrite <- (IH marks) by done; lia.
Qed.

(** One turn of the loop with a [str] destination, by the outcome of the
    callback. *)
Lemma process_one_turn
    (d : string) (process_func : PyVal -> PyVal -> M bool)
    (file_path : string) (results : BatchResults) (w : World) :
  FileManager.process_one (VStr d) process_func file_path results w =
  let name := file_name_of file_path in
  match process_func (VStr file_path) (VStr (join d name)) w with
  | (Ok true, w') =>
      (Ok (mkResults (success results ++ [name]) (failed results) (total results)), w')
  | (Ok false, w') =>
      (Ok (mkResults (success results) (failed results ++ [name]) (total results)), w')
  | (Raise e, w') =>
      (Ok (mkResults (success results)
             (failed results ++ [name +:+ ": " +:+ exn_msg e]) (total results)), w')
  end.
Proof.
  unfold FileManager.process_one, try_except, bind, os_path_join, os_fspath, bind, ret.
  simpl. fold (file_name_of file_path).
  by destruct (process_func _ _ w) as [[[]|e] w'].
Qed.

(** C4 (as the code has it): one turn of the batch loop, with a destination
    directory that is a [str].  When the single-file operation returns
    [False] the entry appended to [failed] is the bare file name; when it
    raises, the entry is the file name, a colon and a blank, and the text of
    the exception; when it returns [True] the bare name goes to
    [success]. *)
Theorem process_one_records
    (d : string) (process_func : PyVal -> PyVal -> M bool)
    (file_path : string) (results : BatchResults) (w : World) :
  FileManager.process_one (VStr d) process_func file_path results w =
  let name := file_name_of file_path in
  match process_func (VStr file_path) (VStr (join d name)) w with
  | (Ok true, w') =>
      (Ok (mkResults (success results ++ [name]) (failed results) (total results)), w')
  | (Ok false, w') =>
      (Ok (mkResults (success results) (failed results ++ [name]) (total results)), w')
  | (Raise e, w') =>
      (Ok (mkResults (success results)
             (failed results ++ [name +:+ ": " +:+ exn_msg e]) (total results)), w')
  end.
Proof.
  unfold FileManager.process_one, try_except, bind, os_path_join, os_fspath, bind, ret.
  simpl. fold (file_name_of file_path).
  by destruct (process_func _ _ w) as [[[]|e] w'].
Qed.

(** One turn of the loop never raises and adds exactly one entry, to one of
    the two lists. *)
Lemma process_one_step (output_dir : PyVal) (process_func : PyVal -> PyVal -> M bool)
    (file_path : string) (results : BatchResults) (w : World) :
  exists (mark : bool) (entry : string) (w' : World),
    FileManager.process_one output_dir process_func file_path results w =
      (Ok (if mark
           then mkResults (success results ++ [entry]) (failed results) (total results)
           else mkResults (success results) (failed results ++ [entry]) (total results)),
       w')
    /\ (if mark then entry = file_name_of file_path
        else recorded_as (file_name_of file_path) entry).
Proof.
  unfold FileManager.process_one, try_except, bind, ret.
  fold (file_name_of file_path).
  destruct (os_path_join output_dir (file_name_of file_path) w) as [[o|e] w1].
  - destruct (process_func (VStr file_path) (VStr o) w1) as [[[]|e] w2].
    + by exists true, (file_name_of file_path), w2.
    + exists false, (file_name_of file_path), w2. split; [done|by left].
    + exists false, (file_name_of file_path +:+ ": " +:+ exn_msg e), w2.
      split; [done|right; by eexists].
  - exists false, (file_name_of file_path +:+ ": " +:+ exn_msg e), w1.
    split; [done|right; by eexists].
Qed.

Lemma batch_loop (output_dir : PyVal) (process_func : PyVal -> PyVal -> M bool)
    (files : list string) (results : BatchResults) (w : World) :
  exists (marks : list bool) (entries : list string) (w' : World),
    for_each files (FileManager.process_one output_dir process_func) results w =
      (Ok (mkResults (success results ++ names_marked true files marks)
                     (failed results ++ entries) (total results)), w')
    /\ length marks = length files
    /\ Forall2 recorded_as (names_marked false files marks) entries.
Proof.
  revert results w. induction files as [|f files IH]; intros results w.
  - exists [], [], w. simpl. rewrite !app_nil_r. by destruct results.
  - simpl. unfold bind.
    destruct (process_one_step output_dir process_func f results w)
      as (mark & entry & w1 & -> & Hentry).
    destruct (IH (if mark
           then mkResults (success results ++ [entry]) (failed results) (total results)
           else mkResults (success results) (failed results ++ [entry]) (total results))
           w1) as (marks & entries & w2 & -> & Hlen & Hrec).
    destruct mark; simpl.
    + exists (true :: marks), entries, w2. subst entry. simpl.
      rewrite <- app_assoc. by rewrite Hlen.
    + exists (false :: marks), (entry :: entries), w2. simpl.
      rewrite <- app_assoc. rewrite Hlen. split; [done|]. split; [done|].
      by constructor.
Qed.

(** C5: when the enumeration of the source directory gives [files], the
    batch returns a result (it does not raise) with [total] the number of
    enumerated files; every enumerated file is recorded in exactly one of
    the two lists (the files marked [true] are the [success] list, the
    others stand one by one in the [failed] list), so the two lengths add up
    to [total]; with no matching file the result is [total = 0] with both
    lists empty. *)
Theorem batch_counts
    (input_dir output_dir : PyVal) (process_func : PyVal -> PyVal -> M bool)
    (w w1 : World) (files : list string) :
  FileManager.get_files_by_extension input_dir FileManager.all_extensions w = (Ok files, w1) ->
  exists (r : BatchResults) (w2 : World) (marks : list bool),
    FileManager.batch_process_files input_dir output_dir process_func w = (Ok r, w2)
    /\ total r = length files
    /\ length marks = length files
    /\ success r = names_marked true files marks
    /\ Forall2 recorded_as (names_marked false files marks) (failed r)
    /\ (length (success r) + length (failed r))%nat = total r
    /\ (files = [] -> r = mkResults [] [] 0 /\ w2 = w1).
Proof.
  intros Hfiles. unfold FileManager.batch_process_files, bind. rewrite Hfiles. simpl.
  destruct (batch_loop output_dir process_func files (mkResults [] [] (length files)) w1)
    as (marks & entries & w2 & Hloop & Hlen & Hrec).
  exists (mkResults (names_marked true files marks) entries (length files)), w2, marks.
  simpl in *. repeat split; try done.
  - apply Forall2_length in Hrec. rewrite <- Hrec. by apply names_marked_split.
  - subst files. simpl in Hloop. unfold ret in Hloop. simplify_eq. by destruct marks.
  - subst files. simpl in Hloop. unfold ret in Hloop. by simplify_eq.
Qed.

Lemma batch_counts_witness :
  exists (r : BatchResults) (w2 : World),
    FileManager.batch_process_files (VStr "in") (VStr "out")
      (fun i o => FFmpegProcessor.compress_image i o (VInt 85))
      (sample_world ["in"] ["photo.jpg"; "doc.txt"] 0) = (Ok r, w2)
    /\ total r = 1%nat
    /\ (length (success r) + length (failed r))%nat = 1%nat.
Proof.
  edestruct (batch_counts (VStr "in") (VStr "out")
               (fun i o => FFmpegProcessor.compress_image i o (VInt 85))
               (sample_world ["in"] ["photo.jpg"; "doc.txt"] 0))
    as (r & w2 & marks & Hrun & Htotal & _ & _ & _ & Hsum & _).
  { vm_compute. reflexivity. }
  exists r, w2. split; [exact Hrun|]. split; [exact Htotal|].
  rewrite Hsum. exact Htotal.
Defined.

(** ** A failure on one file does not stop the batch *)

Lemma calls_of_recorded (d : string) (files : list string) :
  calls ((fun f => EvCall f (join d (file_name_of f))) <$> files)
  = (fun f => (f, join d (file_name_of f))) <$> files.
Proof.
  induction files as [|f files IH]; [done|].
  rewrite !fmap_cons. cbn [calls]. by rewrite IH.
Qed.

Lemma stub_loop (d : string) (behave : string -> string -> Res bool)
    (files : list string) (results : BatchResults) (w : World) :
  exists w',
    for_each files (FileManager.process_one (VStr d) (stub_process_func behave)) results w
    = (Ok (mkResults (success results ++ stub_success d behave files)
                     (failed results ++ stub_failed d behave files)
                     (total results)), w')
    /\ w_trace w' = w_trace w ++ ((fun f => EvCall f (join d (file_name_of f))) <$> files).
Proof.
  revert results w. induction files as [|f files IH]; intros results w.
  - exists w. simpl. rewrite !app_nil_r. by destruct results.
  - simpl for_each. unfold bind. rewrite process_one_turn.
    unfold stub_process_func at 1. simpl py_str. cbv zeta.
    unfold stub_success, stub_failed. simpl flat_map.
    fold (stub_success d behave files). fold (stub_failed d behave files).
    destruct (behave f (join d (file_name_of f))) as [[]|e];
      match goal with
      | |- context [for_each files _ ?r ?w1] =>
          destruct (IH r w1) as (w' & -> & Htr)
      end;
      exists w'; simpl; rewrite Htr, trace_emit, <- !app_assoc; done.
Qed.

(** C8: with a destination directory that is a [str] and a callback that
    records each call and then returns [True], returns [False] or raises as
    [behave] decides, the batch never raises; the callback is called on every
    enumerated file, in order, whatever happened on the files before it; and
    each file on which it returned [False] or raised has its entry in the
    [failed] list. *)
Theorem batch_continues_after_failure
    (input_dir : PyVal) (d : string) (behave : string -> string -> Res bool)
    (w w1 : World) (files : list string) :
  FileManager.get_files_by_extension input_dir FileManager.all_extensions w = (Ok files, w1) ->
  exists (r : BatchResults) (w2 : World),
    FileManager.batch_process_files input_dir (VStr d) (stub_process_func behave) w = (Ok r, w2)
    /\ calls (w_trace w2)
       = calls (w_trace w) ++ ((fun f => (f, join d (file_name_of f))) <$> files)
    /\ success r = stub_success d behave files
    /\ failed r = stub_failed d behave files.
Proof.
  intros Hfiles.
  pose proof (get_files_by_extension_quiet input_dir FileManager.all_extensions w) as Hquiet.
  rewrite Hfiles in Hquiet. simpl in Hquiet.
  unfold FileManager.batch_process_files, bind. rewrite Hfiles. cbn [success failed total].
  destruct (stub_loop d behave files (mkResults [] [] (length files)) w1)
    as (w2 & Hloop & Htr).
  cbn [success failed total app] in Hloop.
  rewrite Hloop.
  eexists _, w2. split; [done|]. split; [|done].
  by rewrite Htr, Hquiet, calls_app, calls_of_recorded.
Qed.

Lemma batch_continues_after_failure_witness :
  exists (r : BatchResults) (w2 : World),
    FileManager.batch_process_files (VStr "in") (VStr "out")
      (stub_process_func (fun i _ =>
         if bool_decide (i = "in/a.jpg") then Ok false
         else if bool_decide (i = "in/b.png") then Raise (mkExn OSError "disk full")
         else Ok true))
      (sample_world ["in"] ["a.jpg"; "b.png"; "c.mp4"] 0) = (Ok r, w2)
    /\ calls (w_trace w2)
       = [("in/a.jpg", "out/a.jpg"); ("in/b.png", "out/b.png"); ("in/c.mp4", "out/c.mp4")]
    /\ success r = ["c.mp4"]
    /\ failed r = ["a.jpg"; "b.png: disk full"].
Proof.
  edestruct (batch_continues_after_failure (VStr "in") "out"
               (fun i _ =>
                  if bool_decide (i = "in/a.jpg") then Ok false
                  else if bool_decide (i = "in/b.png") then Raise (mkExn OSError "disk full")
                  else Ok true)
               (sample_world ["in"] ["a.jpg"; "b.png"; "c.mp4"] 0))
    as (r & w2 & Hrun & Hcalls & Hsucc & Hfail).
  { vm_compute. reflexivity. }
  exists r, w2. split; [exact Hrun|]. split; [exact Hcalls|]. split; [exact Hsucc|exact Hfail].
Defined.

(** ** Requests that leave out a required argument *)

Lemma handle_call_tool_answers
    (name : string) (arguments : option (gmap string PyVal)) (w : World) :
  exists s w', handle_call_tool name arguments w = (Ok [text_content s], w').
Proof.
  unfold handle_call_tool, try_except, ret.
  destruct (handle_call_tool_body name (default ∅ arguments) w) as [[r|e] w'] eqn:Hbody.
  - apply handle_call_tool_body_shape in Hbody as [s ->]. by exists s, w'.
  - by eexists _, w'.
Qed.

(** Without an output directory the batch loop stops at [os.path.join] on
    every file. *)
Lemma no_output_dir_quiet (input_dir : PyVal) (process_func : PyVal -> PyVal -> M bool) :
  preserves w_trace (FileManager.batch_process_files input_dir VNone process_func).
Proof.
  unfold FileManager.batch_process_files.
  apply preserves_bind; [apply get_files_by_extension_quiet|].
  intros files. apply preserves_for_each. by intros f r w.
Qed.

Lemma answer_quiet (found : bool) (text1 : string) (m : M (list TextContent)) :
  preserves w_trace m ->
  preserves w_trace (if negb found then ret [text_content text1] else m).
Proof. by destruct found. Qed.

Lemma no_output_dispatch_quiet (name param : string) (arguments : gmap string PyVal) :
  output_param name = Some param ->
  arguments !! param = None ->
  preserves w_trace (handle_call_tool name (Some arguments)).
Proof.
  intros Hout Harg.
  assert (name ∈ ["compress_image"; "convert_image_format"; "resize_image";
                  "compress_video"; "convert_video_format"; "resize_video";
                  "batch_compress_images"; "batch_compress_videos"]) as Hname.
  { unfold output_param in Hout. rewrite !elem_of_cons.
    repeat case_bool_decide; [| |discriminate Hout];
      repeat match goal with
             | Hin : _ ∈ _ :: _ |- _ => apply elem_of_cons in Hin as [->|Hin]
             end; tauto. }
  repeat (apply elem_of_cons in Hname as [->|Hname]);
    [..|by apply elem_of_nil in Hname];
    vm_compute in Hout; simplify_eq;
    unfold handle_call_tool; change (default ∅ (Some arguments)) with arguments;
    (apply preserves_try_except; [|done]);
    unfold handle_call_tool_body;
    repeat match goal with
           | |- context [String.eqb ?a ?b] =>
               let v := eval vm_compute in (String.eqb a b) in
               change (String.eqb a b) with v
           end;
    cbv iota; unfold dict_get; rewrite Harg;
    (apply preserves_bind; [apply os_path_exists_quiet|]);
    intros found; apply answer_quiet;
    (apply preserves_bind; [|by intros []]);
    first [apply no_output_dir_quiet | by intros w].
Qed.

(** C1 (as the code has it): the dispatcher has no check for missing
    arguments.  For every registered tool and every request that leaves out
    one of its required path arguments (the input path, directory or file,
    or the output path or directory), the answer is still one text item and
    no command line is handed to the operating system; when the argument
    left out is the input one, the answer is the generic execution-error text
    around the [TypeError] of [os.path.exists(None)], which does not name the
    parameter. *)
Theorem omitted_path_argument
    (name param : string) (arguments : gmap string PyVal) (w : World) :
  required_of name param ->
  param ∉ ["width"; "height"] ->
  arguments !! param = None ->
  exists s w',
    handle_call_tool name (Some arguments) w = (Ok [text_content s], w')
    /\ spawned (w_trace w') = spawned (w_trace w)
    /\ (param ∈ ["input_path"; "input_dir"; "file_path"] ->
        s = "工具执行出错: stat: path should be string, bytes, os.PathLike or integer, not NoneType"
        /\ contains s param = false).
Proof.
  intros (t & Ht & <- & Hp) Hwh Harg.
  unfold handle_list_tools in Ht.
  repeat (apply elem_of_cons in Ht as [->|Ht]); [..|by apply elem_of_nil in Ht];
    simpl in Hp;
    repeat (apply elem_of_cons in Hp as [->|Hp]);
    try (by apply elem_of_nil in Hp);
    try (exfalso; apply Hwh; set_solver);
    simpl tool_name.
  all: first
    [ (* an output argument *)
      match goal with
      | |- context [handle_call_tool ?n (Some _) _] =>
          pose proof (no_output_dispatch_quiet n _ arguments eq_refl Harg w) as Hquiet;
          destruct (handle_call_tool_answers n (Some arguments) w) as (s & w' & Hrun)
      end;
      rewrite Hrun in Hquiet; simpl in Hquiet;
      exists s, w'; split; [done|]; split; [by rewrite Hquiet|];
      intros Hin; exfalso;
      repeat (apply elem_of_cons in Hin as [Hin|Hin]; [discriminate Hin|]);
      by apply elem_of_nil in Hin
    | (* the input argument *)
      eexists _, w; split;
      [ unfold handle_call_tool, handle_call_tool_body, try_except, bind, dict_get;
        simpl; rewrite Harg; reflexivity
      | split; [done|]; intros _; split; [reflexivity|vm_compute; reflexivity] ] ].
Qed.

Lemma omitted_path_argument_witness :
  exists s w',
    handle_call_tool "compress_image" (Some {[ "output_path" := VStr "out/o.jpg" ]})
      (sample_world ["in.jpg"] [] 0) = (Ok [text_content s], w')
    /\ spawned (w_trace w') = []
    /\ s = "工具执行出错: stat: path should be string, bytes, os.PathLike or integer, not NoneType".
Proof.
  destruct (omitted_path_argument "compress_image" "input_path"
              {[ "output_path" := VStr "out/o.jpg" ]} (sample_world ["in.jpg"] [] 0))
    as (s & w' & Hrun & Hspawn & Htext).
  - exists (mkTool "compress_image" ["input_path"; "output_path"]).
    split; [apply list_elem_of_here|]. split; [reflexivity|apply list_elem_of_here].
  - intros Hin. apply elem_of_cons in Hin as [Hin|Hin]; [discriminate Hin|].
    apply elem_of_cons in Hin as [Hin|Hin]; [discriminate Hin|].
    by apply elem_of_nil in Hin.
  - reflexivity.
  - exists s, w'. split; [exact Hrun|]. split; [exact Hspawn|].
    apply Htext, list_elem_of_here.
Defined.

(** C1 as the claim has it fails: without [input_path] the answer of
    [compress_image] does not name the parameter, and without [width] the
    [resize_image] tool does run the external program, with the text [None]
    in the scale filter. *)
Lemma missing_argument_not_detected :
  (required_of "compress_image" "input_path"
   /\ exists s w',
        handle_call_tool "compress_image" (Some {[ "output_path" := VStr "out/o.jpg" ]})
          (sample_world ["in.jpg"] [] 0) = (Ok [text_content s], w')
        /\ contains s "input_path" = false)
  /\ (required_of "resize_image" "width"
      /\ exists r w',
           handle_call_tool "resize_image"
             (Some {[ "input_path" := VStr "in.png"; "output_path" := VStr "out/o.png";
                      "height" := VInt 50 ]})
             (sample_world ["in.png"] [] 0) = (Ok r, w')
           /\ r = [text_content "图片尺寸调整成功：in.png -> out/o.png (Nonex50)"]
           /\ spawned (w_trace w')
              = [["ffmpeg"; "-y"; "-i"; "in.png"; "-vf"; "scale=None:50"; "out/o.png"]]).
Proof.
  split; split.
  - exists (mkTool "compress_image" ["input_path"; "output_path"]). set_solver.
  - eexists _, _. split; [vm_compute; reflexivity|]. vm_compute. reflexivity.
  - exists (mkTool "resize_image" ["input_path"; "output_path"; "width"; "height"]).
    unfold handle_list_tools. set_solver.
  - eexists _, _. split; [vm_compute; reflexivity|]. split; vm_compute; reflexivity.
Qed.

(** ** Where the code departs from its description *)

(** C4 as the claim has it fails: when the external program ends with a
    non-zero return code on [a.jpg], the entry in [failed] is the bare name
    [a.jpg], with no colon and no reason. *)
Lemma failed_entry_is_bare_name :
  exists r w',
    FileManager.batch_process_files (VStr "in") (VStr "out")
      (fun i o => FFmpegProcessor.compress_image i o (VInt 85))
      (sample_world ["in"] ["a.jpg"] 1) = (Ok r, w')
    /\ spawned (w_trace w')
       = [["ffmpeg"; "-y"; "-i"; "in/a.jpg"; "-q:v"; "85"; "out/a.jpg"]]
    /\ failed r = ["a.jpg"]
    /\ forall reason, "a.jpg" <> "a.jpg" +:+ ": " +:+ reason.
Proof.
  eexists _, _. split; [vm_compute; reflexivity|].
  split; [vm_compute; reflexivity|]. split; [vm_compute; reflexivity|].
  intros reason Heq. discriminate Heq.
Qed.

(** C2 on the code: in a directory holding [A.JPG], [a.jpg], [a.Jpg] and
    [a.jpgx], the enumeration finds [a.jpg] and [A.JPG] and leaves out both
    [a.jpgx] and the mixed-case [a.Jpg]: only the lower-case and the
    upper-case spelling of an extension are looked for. *)
Theorem mixed_case_extension_is_skipped :
  fst (FileManager.get_files_by_extension (VStr "in") FileManager.all_extensions
         (sample_world ["in"] ["A.JPG"; "a.jpg"; "a.Jpg"; "a.jpgx"] 0))
  = Ok ["in/a.jpg"; "in/A.JPG"].
Proof. vm_compute. reflexivity. Qed.

(** C3 on the code: an image batch over a directory holding [photo.jpg],
    [clip.mp4] and [doc.txt] counts two files and runs the image compression
    on the video as well: the enumeration uses the image and the video
    extensions together, whatever the tool. *)
Theorem image_batch_takes_videos :
  exists w',
    handle_call_tool "batch_compress_images"
      (Some {[ "input_dir" := VStr "in"; "output_dir" := VStr "out" ]})
      (sample_world ["in"] ["photo.jpg"; "clip.mp4"; "doc.txt"] 0)
    = (Ok [text_content
             ("批量图片压缩完成！" +:+ nl +:+ "总计: 2 个文件" +:+ nl
              +:+ "成功: 2 个" +:+ nl +:+ "失败: 0 个")], w')
    /\ spawned (w_trace w')
       = [["ffmpeg"; "-y"; "-i"; "in/photo.jpg"; "-q:v"; "85"; "out/photo.jpg"];
          ["ffmpeg"; "-y"; "-i"; "in/clip.mp4"; "-q:v"; "85"; "out/clip.mp4"]].
Proof. eexists. split; vm_compute; reflexivity. Qed.

(** * Further properties of the code *)

(** ** The registry and the dispatcher *)

Lemma dict_get_insert_ne (arguments : gmap string PyVal) (key k : string) (v dflt : PyVal) :
  key <> k -> dict_get (<[key:=v]> arguments) k dflt = dict_get arguments k dflt.
Proof. intros Hne. unfold dict_get. by rewrite lookup_insert_ne. Qed.

Lemma dict_get_insert_eq (arguments : gmap string PyVal) (key : string) (v dflt : PyVal) :
  dict_get (<[key:=v]> arguments) key dflt = v.
Proof. unfold dict_get. by rewrite lookup_insert_eq. Qed.

Lemma dict_get_missing (arguments : gmap string PyVal) (key : string) (dflt : PyVal) :
  arguments !! key = None -> dict_get arguments key dflt = dflt.
Proof. intros H. unfold dict_get. by rewrite H. Qed.

(** Reduce the comparisons of a known tool name in the goal. *)
Ltac pick_branch :=
  repeat match goal with
         | |- context [String.eqb ?a ?b] =>
             let v := eval vm_compute in (String.eqb a b) in
             change (String.eqb a b) with v
         end;
  cbv iota.

Lemma last_branch (name : string) (arguments : option (gmap string PyVal)) (w : World) :
  name ∉ tool_names ->
  handle_call_tool name arguments w
  = (Ok [text_content ("未知的工具名称: " +:+ name)], w).
Proof.
  intros Hnot. unfold tool_names, handle_list_tools in Hnot. simpl in Hnot.
  rewrite !not_elem_of_cons in Hnot.
  destruct Hnot as (H1 & H2 & H3 & H4 & H5 & H6 & H7 & H8 & H9 & H10 & _).
  unfold handle_call_tool, handle_call_tool_body, try_except.
  apply String.eqb_neq in H1, H2, H3, H4, H5, H6, H7, H8, H9, H10.
  by rewrite H1, H2, H3, H4, H5, H6, H7, H8, H9, H10.
Qed.

(** A tool name that the registry does not advertise is answered with the
    "unknown tool" text and the name, whatever the arguments, and the call
    touches nothing: no query of the file system, no directory, no
    command. *)
Theorem unknown_tool_is_reported
    (name : string) (arguments : option (gmap string PyVal)) (w : World) :
  name ∉ tool_names ->
  handle_call_tool name arguments w
  = (Ok [text_content ("未知的工具名称: " +:+ name)], w).
Proof. apply last_branch. Qed.

Lemma unknown_tool_is_reported_witness :
  handle_call_tool "crop_image" (Some {[ "input_path" := VStr "a.png" ]})
    (sample_world [] [] 0)
  = (Ok [text_content ("未知的工具名称: " +:+ "crop_image")], sample_world [] [] 0).
Proof.
  apply unknown_tool_is_reported.
  unfold tool_names, handle_list_tools. simpl.
  intros Hin.
  repeat (apply elem_of_cons in Hin as [Hin|Hin]; [discriminate Hin|]).
  by apply elem_of_nil in Hin.
Defined.

(** The registry and the dispatcher agree on the tool names: called without
    arguments, the dispatcher gives the "unknown tool" answer exactly for
    the names that [handle_list_tools] does not advertise. *)
Theorem advertised_iff_dispatched (name : string) (w : World) :
  fst (handle_call_tool name None w) = Ok [text_content ("未知的工具名称: " +:+ name)]
  <-> name ∉ tool_names.
Proof.
  split.
  - intros Hrun Hin. unfold tool_names, handle_list_tools in Hin. simpl in Hin.
    repeat (apply elem_of_cons in Hin as [->|Hin]); [..|by apply elem_of_nil in Hin].
    all: revert Hrun;
      unfold handle_call_tool, handle_call_tool_body, try_except, bind; pick_branch;
      simpl; repeat case_match; simpl; intros Heq; simplify_eq.
  - intros Hnot. by rewrite last_branch.
Qed.

(** ** Defaults and arguments that are not read *)

(** Each default that a schema advertises is the one the dispatcher uses:
    leaving the argument out and passing the default give the same answer
    and the same effects. *)
Theorem advertised_default_is_used
    (name key : string) (v : PyVal) (arguments : gmap string PyVal) (w : World) :
  (name, key, v) ∈ tool_defaults ->
  arguments !! key = None ->
  handle_call_tool name (Some arguments) w
  = handle_call_tool name (Some (<[key:=v]> arguments)) w.
Proof.
  intros Hin Harg. unfold tool_defaults in Hin.
  repeat (apply elem_of_cons in Hin as [Hin|Hin]); [..|by apply elem_of_nil in Hin];
    simplify_eq;
    unfold handle_call_tool; f_equal; cbn [default]; unfold from_option, id;
    unfold handle_call_tool_body; pick_branch;
    rewrite dict_get_insert_eq, !dict_get_insert_ne by done;
    by rewrite (dict_get_missing arguments _ _ Harg).
Qed.

Lemma advertised_default_is_used_witness :
  handle_call_tool "compress_video"
    (Some {[ "input_path" := VStr "a.mp4"; "output_path" := VStr "out/a.mp4" ]})
    (sample_world ["a.mp4"] [] 0)
  = handle_call_tool "compress_video"
      (Some (<["crf" := VInt 23]>
               {[ "input_path" := VStr "a.mp4"; "output_path" := VStr "out/a.mp4" ]}))
      (sample_world ["a.mp4"] [] 0).
Proof.
  apply advertised_default_is_used.
  - unfold tool_defaults. do 2 apply list_elem_of_further. apply list_elem_of_here.
  - reflexivity.
Defined.

(** An argument under a key that the tool's schema does not list is never
    read: adding it changes neither the answer nor the effects. *)
Theorem unlisted_argument_is_ignored
    (name key : string) (props : list string) (v : PyVal)
    (arguments : gmap string PyVal) (w : World) :
  (name, props) ∈ tool_properties ->
  key ∉ props ->
  handle_call_tool name (Some (<[key:=v]> arguments)) w
  = handle_call_tool name (Some arguments) w.
Proof.
  intros Hin Hkey. unfold tool_properties in Hin.
  repeat (apply elem_of_cons in Hin as [Hin|Hin]); [..|by apply elem_of_nil in Hin];
    simplify_eq; rewrite ?not_elem_of_cons in Hkey;
    unfold handle_call_tool; f_equal; cbn [default]; unfold from_option, id;
    unfold handle_call_tool_body; pick_branch;
    rewrite ?dict_get_insert_ne by tauto; reflexivity.
Qed.

Lemma unlisted_argument_is_ignored_witness :
  handle_call_tool "convert_image_format"
    (Some (<["format" := VStr "png"]>
             {[ "input_path" := VStr "a.jpg"; "output_path" := VStr "out/a.png" ]}))
    (sample_world ["a.jpg"] [] 0)
  = handle_call_tool "convert_image_format"
      (Some {[ "input_path" := VStr "a.jpg"; "output_path" := VStr "out/a.png" ]})
      (sample_world ["a.jpg"] [] 0).
Proof.
  apply (unlisted_argument_is_ignored "convert_image_format" "format"
           ["input_path"; "output_path"]).
  - unfold tool_properties. do 2 apply list_elem_of_further. apply list_elem_of_here.
  - intros Hin.
    repeat (apply elem_of_cons in Hin as [Hin|Hin]; [discriminate Hin|]).
    by apply elem_of_nil in Hin.
Defined.

(** ** The single-file operations *)

Ltac unfold_operations :=
  unfold FFmpegProcessor.compress_image, FFmpegProcessor.convert_image_format,
    FFmpegProcessor.resize_image, FFmpegProcessor.compress_video,
    FFmpegProcessor.convert_video_format, FFmpegProcessor.resize_video.

Ltac each_operation Hop :=
  unfold single_file_operations in Hop;
  repeat (apply elem_of_cons in Hop as [->|Hop]); [..|by apply elem_of_nil in Hop].

Lemma operation_true_inv
    (quality width height crf preset : PyVal) (op : PyVal -> PyVal -> M bool)
    (input_path output_path : PyVal) (w w' : World) :
  op ∈ single_file_operations quality width height crf preset ->
  op input_path output_path w = (Ok true, w') ->
  exists (ins outs : string) (argv : list string) (cp : CompletedProcess),
    input_path = VStr ins /\ output_path = VStr outs
    /\ dirname outs <> ""
    /\ fs_makedirs w (w_clock w) (dirname outs) = None
    /\ w_trace w' = w_trace w ++ [EvMakedirs (dirname outs); EvSpawn argv]
    /\ proc_run w (S (w_clock w)) argv = Ok cp
    /\ returncode cp = 0
    /\ take 4 argv = ["ffmpeg"; "-y"; "-i"; ins]
    /\ last argv = Some outs.
Proof.
  intros Hop Hrun. each_operation Hop.
  all: revert Hrun; unfold_operations;
    unfold try_except, bind, ret, os_path_dirname, os_fspath, bind, ret, raise,
      os_makedirs, subprocess_run;
    destruct output_path as [| | |outs|]; try (intros Hrun; by simplify_eq);
    cbv beta iota; case_bool_decide; [intros Hrun; by simplify_eq|];
    destruct (fs_makedirs w (w_clock w) (dirname outs)) as [e|] eqn:Hmk;
      [intros Hrun; by simplify_eq|];
    destruct input_path as [| | |ins|]; try (intros Hrun; by simplify_eq).
  all: try match goal with
           | |- context [VStr "-preset"] =>
               destruct preset as [| | |pre|]; try (intros Hrun; by simplify_eq)
           end.
  all: simpl;
    match goal with
    | |- context [proc_run ?w0 (S (w_clock ?w0)) ?a] =>
        destruct (proc_run w0 (S (w_clock w0)) a) as [cp|e] eqn:Hproc
    end; [|intros Hrun; by simplify_eq];
    intros Hrun; simplify_eq;
    match goal with
    | H : (returncode _ =? 0) = true |- _ => apply Z.eqb_eq in H
    end;
    eexists ins, outs, _, cp;
    repeat split; try done;
    simpl; by rewrite <- app_assoc.
Qed.

(** When one of the six operations returns [True], both paths were [str]s,
    the parent directory of the output was created first, and then exactly
    one command was run: it starts with [ffmpeg -y -i <input>], ends with the
    output path, and exited with return code 0. *)
Theorem operation_success_means_exit_zero
    (quality width height crf preset : PyVal) (op : PyVal -> PyVal -> M bool)
    (input_path output_path : PyVal) (w w' : World) :
  op ∈ single_file_operations quality width height crf preset ->
  op input_path output_path w = (Ok true, w') ->
  exists (ins outs : string) (argv : list string) (cp : CompletedProcess),
    input_path = VStr ins /\ output_path = VStr outs
    /\ dirname outs <> ""
    /\ fs_makedirs w (w_clock w) (dirname outs) = None
    /\ w_trace w' = w_trace w ++ [EvMakedirs (dirname outs); EvSpawn argv]
    /\ proc_run w (S (w_clock w)) argv = Ok cp
    /\ returncode cp = 0
    /\ take 4 argv = ["ffmpeg"; "-y"; "-i"; ins]
    /\ last argv = Some outs.
Proof. apply operation_true_inv. Qed.

Lemma operation_success_means_exit_zero_witness :
  exists (ins outs : string) (argv : list string) (cp : CompletedProcess),
    VStr "a.png" = VStr ins /\ VStr "out/a.jpg" = VStr outs
    /\ dirname outs <> ""
    /\ fs_makedirs (sample_world ["a.png"] [] 0) 0 (dirname outs) = None
    /\ w_trace (tick (emit (EvSpawn ["ffmpeg"; "-y"; "-i"; "a.png"; "out/a.jpg"])
                 (tick (emit (EvMakedirs "out") (sample_world ["a.png"] [] 0)))))
       = [] ++ [EvMakedirs (dirname outs); EvSpawn argv]
    /\ proc_run (sample_world ["a.png"] [] 0) 1 argv = Ok cp
    /\ returncode cp = 0
    /\ take 4 argv = ["ffmpeg"; "-y"; "-i"; ins]
    /\ last argv = Some outs.
Proof.
  apply (operation_success_means_exit_zero VNone VNone VNone VNone VNone
           FFmpegProcessor.convert_image_format (VStr "a.png") (VStr "out/a.jpg")
           (sample_world ["a.png"] [] 0)).
  - unfold single_file_operations. apply list_elem_of_further, list_elem_of_here.
  - reflexivity.
Defined.

(** None of the six operations ever raises, whatever it is given.  What it
    does to the outside is nothing, or one [os.makedirs], or one
    [os.makedirs] followed by one command: no command is run before the
    directory of the output was asked for, and never more than one. *)
Theorem operation_effects
    (quality width height crf preset : PyVal) (op : PyVal -> PyVal -> M bool)
    (input_path output_path : PyVal) (w : World) :
  op ∈ single_file_operations quality width height crf preset ->
  exists (b : bool) (w' : World) (evs : list Event),
    op input_path output_path w = (Ok b, w')
    /\ w_trace w' = w_trace w ++ evs
    /\ (evs = []
        \/ exists d, evs = [EvMakedirs d]
                     \/ exists argv, evs = [EvMakedirs d; EvSpawn argv]).
Proof.
  intros Hop. each_operation Hop.
  all: unfold_operations;
    unfold try_except, bind, ret, os_path_dirname, os_fspath, bind, ret, raise,
      os_makedirs, subprocess_run;
    destruct output_path as [| | |outs|];
    try (by eexists false, w, []; rewrite app_nil_r; auto);
    cbv beta iota;
    (case_bool_decide;
       [by eexists false, _, [_]; split; [done|]; split; [done|]; right; eauto|]);
    (destruct (fs_makedirs w (w_clock w) (dirname outs)) as [e|] eqn:Hmk;
       [by eexists false, _, [_]; split; [done|]; split; [done|]; right; eauto|]).
  all: match goal with
       | |- context [argv_of ?cmd] => destruct (argv_of cmd) as [bad|argv] eqn:Hargv
       end;
    [by eexists false, _, [_]; split; [done|]; split; [done|]; right; eauto|];
    match goal with
    | |- context [proc_run ?w0 ?c ?a] => destruct (proc_run w0 c a) as [cp|e] eqn:Hproc
    end;
    eexists _, _, [_; _]; (split; [done|]); simpl; rewrite <- app_assoc;
    (split; [done|]); right; eauto.
Qed.

Lemma operation_effects_witness :
  exists (b : bool) (w' : World) (evs : list Event),
    FFmpegProcessor.resize_video (VInt 3) (VStr "out/a.mp4") (VInt 640) (VInt 480)
      (sample_world [] [] 0) = (Ok b, w')
    /\ w_trace w' = [] ++ evs
    /\ (evs = []
        \/ exists d, evs = [EvMakedirs d]
                     \/ exists argv, evs = [EvMakedirs d; EvSpawn argv]).
Proof.
  apply (operation_effects VNone (VInt 640) (VInt 480) VNone VNone
           (fun i o => FFmpegProcessor.resize_video i o (VInt 640) (VInt 480))
           (VInt 3) (VStr "out/a.mp4") (sample_world [] [] 0)).
  unfold single_file_operations. do 5 apply list_elem_of_further. apply list_elem_of_here.
Defined.

(** When [os.makedirs] fails on the parent directory of the output, each of
    the six operations answers [False] and runs no command. *)
Theorem makedirs_failure_returns_false
    (quality width height crf preset : PyVal) (op : PyVal -> PyVal -> M bool)
    (input_path : PyVal) (output_path : string) (e : Exn) (w : World) :
  op ∈ single_file_operations quality width height crf preset ->
  fs_makedirs w (w_clock w) (dirname output_path) = Some e ->
  op input_path (VStr output_path) w
  = (Ok false, tick (emit (EvMakedirs (dirname output_path)) w)).
Proof.
  intros Hop Hmk. each_operation Hop.
  all: unfold_operations;
    unfold try_except, bind, ret, os_path_dirname, os_fspath, bind, ret, os_makedirs;
    cbv beta iota; rewrite Hmk; by case_bool_decide.
Qed.

Lemma makedirs_failure_returns_false_witness :
  FFmpegProcessor.convert_video_format (VStr "a.avi") (VStr "/ro/a.mp4")
    (mkWorld 0 [] (fun _ _ => true) (fun _ _ => false) (fun _ _ => Ok true)
       (fun _ _ => Ok []) (fun _ _ => Some (mkExn OSError "[Errno 30] Read-only file system: '/ro'"))
       (fun _ _ => Ok (mkCompleted 0 "" "")) (fun s => Ok s) (fun d => d))
  = (Ok false,
     tick (emit (EvMakedirs (dirname "/ro/a.mp4"))
       (mkWorld 0 [] (fun _ _ => true) (fun _ _ => false) (fun _ _ => Ok true)
          (fun _ _ => Ok []) (fun _ _ => Some (mkExn OSError "[Errno 30] Read-only file system: '/ro'"))
          (fun _ _ => Ok (mkCompleted 0 "" "")) (fun s => Ok s) (fun d => d)))).
Proof.
  apply (makedirs_failure_returns_false VNone VNone VNone VNone VNone
           FFmpegProcessor.convert_video_format (VStr "a.avi") "/ro/a.mp4"
           (mkExn OSError "[Errno 30] Read-only file system: '/ro'")).
  - unfold single_file_operations. do 4 apply list_elem_of_further. apply list_elem_of_here.
  - reflexivity.
Defined.

(** With [str] paths, a parent directory that can be created and a [str]
    preset, the answer of each of the six operations is decided by the
    command alone: [True] when it exits with return code 0, [False] when it
    exits with another code or cannot be started. *)
Theorem operation_answer_is_exit_status
    (quality width height crf : PyVal) (preset : string) (op : PyVal -> PyVal -> M bool)
    (input_path output_path : string) (outcome : Res CompletedProcess) (w : World) :
  op ∈ single_file_operations quality width height crf (VStr preset) ->
  dirname output_path <> "" ->
  fs_makedirs w (w_clock w) (dirname output_path) = None ->
  (forall argv, proc_run w (S (w_clock w)) argv = outcome) ->
  exists w',
    op (VStr input_path) (VStr output_path) w
    = (Ok (match outcome with
           | Ok cp => returncode cp =? 0
           | Raise _ => false
           end), w').
Proof.
  intros Hop Hdir Hmk Hproc. each_operation Hop.
  all: unfold_operations;
    unfold try_except, bind, ret, os_path_dirname, os_fspath, bind, ret,
      os_makedirs, subprocess_run;
    cbv beta iota; rewrite Hmk; rewrite bool_decide_eq_false_2 by done;
    simpl; rewrite Hproc; destruct outcome; by eexists.
Qed.

Lemma operation_answer_is_exit_status_witness :
  exists w',
    FFmpegProcessor.compress_image (VStr "a.jpg") (VStr "out/a.jpg") (VInt 85)
      (sample_world ["a.jpg"] [] 1)
    = (Ok (match Ok (mkCompleted 1 "" "") with
           | Ok cp => returncode cp =? 0
           | Raise _ => false
           end), w').
Proof.
  apply (operation_answer_is_exit_status (VInt 85) VNone VNone VNone "medium"
           (fun i o => FFmpegProcessor.compress_image i o (VInt 85))).
  - unfold single_file_operations. apply list_elem_of_here.
  - discriminate.
  - reflexivity.
  - reflexivity.
Defined.

(** ** The two probes *)

(** The availability check never fails: it runs [ffmpeg -version] once,
    whatever the arguments, and answers "available" exactly when that command
    exits with return code 0; a command that cannot be started, a timeout and
    any other return code all give the "not available" answer. *)
Theorem ffmpeg_status_answer (arguments : option (gmap string PyVal)) (w : World) :
  handle_call_tool "check_ffmpeg_status" arguments w
  = (Ok [text_content
           (match proc_run w (w_clock w) ["ffmpeg"; "-version"] with
            | Ok cp => if returncode cp =? 0 then "FFmpeg 已安装并可用"
                       else "FFmpeg 未安装或不可用，请先安装FFmpeg"
            | Raise _ => "FFmpeg 未安装或不可用，请先安装FFmpeg"
            end)],
     tick (emit (EvSpawn ["ffmpeg"; "-version"]) w)).
Proof.
  unfold handle_call_tool, handle_call_tool_body, try_except, bind; pick_branch.
  unfold FFmpegProcessor.check_ffmpeg_available, try_except, bind, subprocess_run.
  simpl. destruct (proc_run w (w_clock w) _) as [cp|e]; simpl; [|done].
  by destruct (returncode cp =? 0).
Qed.

(** [get_media_info] of the processor either returns the document parsed
    from the standard output of an [ffprobe] that exited with return code 0,
    or raises a plain [Exception] whose text starts with
    "Failed to get media info: "; no other exception class leaves it. *)
Theorem get_media_info_outcome (file_path : PyVal) (w : World) :
  match FFmpegProcessor.get_media_info file_path w with
  | (Ok doc, w') =>
      exists p cp,
        file_path = VStr p
        /\ proc_run w (w_clock w)
             ["ffprobe"; "-v"; "quiet"; "-print_format"; "json";
              "-show_format"; "-show_streams"; p] = Ok cp
        /\ returncode cp = 0
        /\ json_loads w (stdout cp) = Ok doc
  | (Raise e, w') =>
      exn_kind e = PlainException
      /\ exists reason, exn_msg e = "Failed to get media info: " +:+ reason
  end.
Proof.
  unfold FFmpegProcessor.get_media_info, try_except, bind, subprocess_run, raise,
    json_loads_text.
  destruct file_path as [| | |p|]; simpl; try (split; [done|by eexists]).
  destruct (proc_run w (w_clock w) _) as [cp|e] eqn:Hproc; [|split; [done|by eexists]].
  destruct (returncode cp =? 0) eqn:Hrc; [|split; [done|by eexists]].
  simpl. destruct (json_loads w (stdout cp)) as [doc|e] eqn:Hjson.
  - apply Z.eqb_eq in Hrc. by exists p, cp.
  - split; [done|by eexists].
Qed.

(** The media-info tool on an existing [str] path runs one [ffprobe] command
    on it.  The answer is the pretty-printed document when the command exits
    with 0 and prints JSON; otherwise it is the failure text, which carries
    the standard error of the command word for word, or the text of the
    exception that stopped it. *)
Theorem media_info_answer (arguments : gmap string PyVal) (p : string) (w : World) :
  arguments !! "file_path" = Some (VStr p) ->
  fs_exists w (w_clock w) p = true ->
  let argv := ["ffprobe"; "-v"; "quiet"; "-print_format"; "json";
               "-show_format"; "-show_streams"; p] in
  handle_call_tool "get_media_info" (Some arguments) w
  = (Ok [text_content
           (match proc_run w (S (w_clock w)) argv with
            | Ok cp =>
                if returncode cp =? 0 then
                  match json_loads w (stdout cp) with
                  | Ok doc => json_dumps w doc
                  | Raise e =>
                      "获取媒体信息失败：Failed to get media info: " +:+ exn_msg e
                  end
                else "获取媒体信息失败：Failed to get media info: FFprobe error: "
                     +:+ stderr cp
            | Raise e => "获取媒体信息失败：Failed to get media info: " +:+ exn_msg e
            end)],
     tick (emit (EvSpawn argv) (tick w))).
Proof.
  intros Harg Hex argv.
  assert (dict_get arguments "file_path" VNone = VStr p) as Hget
    by (unfold dict_get; by rewrite Harg).
  unfold handle_call_tool. change (default ∅ (Some arguments)) with arguments.
  unfold handle_call_tool_body; pick_branch. cbv zeta. rewrite Hget.
  unfold try_except, bind. simpl. rewrite Hex. simpl.
  unfold FFmpegProcessor.get_media_info, try_except, bind, subprocess_run, raise,
    json_loads_text. simpl. fold argv.
  destruct (proc_run w (S (w_clock w)) argv) as [cp|e]; simpl; [|reflexivity].
  destruct (returncode cp =? 0); simpl; [|reflexivity].
  destruct (json_loads w (stdout cp)); reflexivity.
Qed.

Lemma media_info_answer_witness :
  handle_call_tool "get_media_info" (Some {[ "file_path" := VStr "a.mp4" ]})
    (sample_world ["a.mp4"] [] 1)
  = (Ok [text_content "获取媒体信息失败：Failed to get media info: FFprobe error: "],
     tick (emit (EvSpawn ["ffprobe"; "-v"; "quiet"; "-print_format"; "json";
                          "-show_format"; "-show_streams"; "a.mp4"])
             (tick (sample_world ["a.mp4"] [] 1)))).
Proof.
  apply (media_info_answer {[ "file_path" := VStr "a.mp4" ]} "a.mp4"
           (sample_world ["a.mp4"] [] 1)).
  - reflexivity.
  - reflexivity.
Defined.

(** ** Paths of enumerated files *)

Lemma append_cons (c : ascii) (a b : string) : String c a +:+ b = String c (a +:+ b).
Proof. done. Qed.

Lemma append_nil_r (s : string) : s +:+ "" = s.
Proof. induction s as [|c s IH]; [done|]. by rewrite append_cons, IH. Qed.

Lemma append_assoc (a b c : string) : (a +:+ b) +:+ c = a +:+ (b +:+ c).
Proof. induction a as [|x a IH]; [done|]. by rewrite !append_cons, IH. Qed.

Lemma rev_app_rev_app (a b c : string) :
  String.rev_app (String.rev_app a b) c = String.rev_app b (a +:+ c).
Proof.
  revert b c. induction a as [|x a IH]; intros b c; [done|].
  rewrite append_cons. cbn [String.rev_app]. by rewrite IH.
Qed.

Lemma rev_rev_app (n cur : string) :
  String.rev (String.rev_app n cur) = String.rev_app cur n.
Proof. unfold String.rev. by rewrite rev_app_rev_app, append_nil_r. Qed.

Lemma has_sep_rev_app (a b : string) :
  has_sep (String.rev_app a b) = has_sep a || has_sep b.
Proof.
  revert b. induction a as [|x a IH]; intros b; [done|].
  cbn [String.rev_app has_sep]. rewrite IH. cbn [has_sep].
  by destruct (is_sep x), (has_sep a), (has_sep b).
Qed.

(** Splitting a text without separator gives the text itself. *)
Lemma split_sep_go_bare (n cur : string) :
  has_sep n = false -> split_sep_go cur n = [String.rev_app cur n].
Proof.
  revert cur. induction n as [|c n IH]; intros cur Hn.
  - done.
  - cbn [has_sep] in Hn. apply orb_false_iff in Hn as [Hc Hn].
    cbn [split_sep_go]. rewrite Hc. by rewrite IH.
Qed.

(** The last piece of [s/n] is [n]. *)
Lemma split_sep_go_snoc (s n cur : string) :
  has_sep n = false ->
  exists l, split_sep_go cur (s +:+ "/" +:+ n) = l ++ [n].
Proof.
  intros Hn. revert cur. induction s as [|c s IH]; intros cur.
  - exists [String.rev cur].
    change ("" +:+ "/" +:+ n) with (String "/" n). cbn [split_sep_go].
    assert (is_sep "/" = true) as -> by done.
    by rewrite split_sep_go_bare.
  - rewrite append_cons. cbn [split_sep_go]. destruct (is_sep c).
    + destruct (IH "") as [l ->]. by exists (String.rev cur :: l).
    + apply IH.
Qed.

Lemma split_sep_go_no_sep (s cur : string) :
  has_sep cur = false -> Forall (fun x => has_sep x = false) (split_sep_go cur s).
Proof.
  revert cur. induction s as [|c s IH]; intros cur Hcur; cbn [split_sep_go].
  - constructor; [|done]. unfold String.rev. by rewrite has_sep_rev_app, Hcur.
  - destruct (is_sep c) eqn:Hc.
    + constructor; [|by apply IH]. unfold String.rev. by rewrite has_sep_rev_app, Hcur.
    + apply IH. cbn [has_sep]. by rewrite Hc.
Qed.

(** [Path(file_path).name] never holds a separator. *)
Lemma file_name_of_no_sep (file_path : string) : has_sep (file_name_of file_path) = false.
Proof.
  unfold file_name_of, path_name, parse_path. cbn [path_parts].
  pose proof (split_sep_go_no_sep file_path "" eq_refl) as Hall.
  fold (split_sep file_path) in Hall.
  assert (Forall (fun x => has_sep x = false)
            (filter (fun x => x <> "" /\ x <> ".") (split_sep file_path))) as Hfil.
  { apply Forall_forall. intros x Hx. apply list_elem_of_filter in Hx as [_ Hx].
    by eapply Forall_forall in Hall. }
  revert Hfil. generalize (filter (fun x => x <> "" /\ x <> ".") (split_sep file_path)).
  intros l. induction l as [|a [|b l] IH]; intros Hl; [done| |].
  - by inversion Hl.
  - apply IH. by inversion Hl.
Qed.

Lemma join_sep_snoc (parts : list string) (n : string) :
  parts <> [] -> join_sep (parts ++ [n]) = join_sep parts +:+ "/" +:+ n.
Proof.
  induction parts as [|a [|b parts] IH]; intros Hne; [done|done|].
  change (join_sep ((a :: b :: parts) ++ [n]))
    with (a +:+ "/" +:+ join_sep ((b :: parts) ++ [n])).
  rewrite IH by done.
  change (join_sep (a :: b :: parts)) with (a +:+ "/" +:+ join_sep (b :: parts)).
  by rewrite !append_assoc.
Qed.

(** The text of a child path is a prefix, the same for every child, that is
    empty or ends with the separator, followed by the name of the child. *)
Lemma child_text (d : string) :
  exists pre, (pre = "" \/ exists s, pre = s +:+ "/")
              /\ forall n, path_str (path_child (parse_path d) n) = pre +:+ n.
Proof.
  unfold parse_path, path_child, path_str. cbn [path_root path_parts].
  generalize (filter (fun x => x <> "" /\ x <> ".") (split_sep d)). intros parts.
  destruct parts as [|a parts].
  - unfold parse_root.
    destruct (startswith d "//" && negb (startswith d "///"));
      [|destruct (startswith d "/")].
    + exists "//". split; [|done]. right. by exists "/".
    + exists "/". split; [|done]. right. by exists "".
    + exists "". split; [|done]. by left.
  - generalize (parse_root d). intros root.
    exists (root +:+ join_sep (a :: parts) +:+ "/"). split.
    + right. eexists. by rewrite <- append_assoc.
    + intros n. rewrite !append_assoc, <- join_sep_snoc by done. by destruct root.
Qed.

(** The name of an enumerated file is the directory entry it was made from:
    for an entry name [n] (no separator, not empty, not a single dot),
    [Path(str(Path(directory) / n)).name] is [n], so the batch writes each
    file to the destination directory under its own name. *)
Theorem child_name_round_trip (directory n : string) :
  has_sep n = false -> n <> "" -> n <> "." ->
  file_name_of (path_str (path_child (parse_path directory) n)) = n.
Proof.
  intros Hsep Hne Hdot.
  destruct (child_text directory) as (pre & Hpre & ->).
  unfold file_name_of, path_name, parse_path. cbn [path_parts].
  assert (exists l, split_sep (pre +:+ n) = l ++ [n]) as [l ->].
  { destruct Hpre as [->|[s ->]].
    - exists []. unfold split_sep. by rewrite split_sep_go_bare.
    - rewrite append_assoc. apply split_sep_go_snoc. done. }
  rewrite filter_app, filter_cons_True, filter_nil by done.
  apply last_last.
Qed.

Lemma child_name_round_trip_witness :
  file_name_of (path_str (path_child (parse_path "/srv//media/") "clip.MP4")) = "clip.MP4".
Proof.
  apply child_name_round_trip.
  - reflexivity.
  - discriminate.
  - discriminate.
Defined.

(** ** What the enumeration returns when the directory does not change *)

Section StableListing.
Variables (w : World) (d : string) (names : list string).
Hypothesis Hlist : forall t, fs_listdir w t (path_str (parse_path d)) = Ok names.

Lemma glob_loop (extensions : list string) (acc : list PurePath) (w0 : World) :
  fs_listdir w0 = fs_listdir w ->
  exists w1,
    for_each extensions
      (fun ext files =>
         let! lower := path_glob_star_dot (parse_path d) ext in
         let! upper := path_glob_star_dot (parse_path d) (upper ext) in
         ret (files ++ lower ++ upper))
      acc w0
    = (Ok (acc ++ (path_child (parse_path d) <$>
                    flat_map (fun s => filter (fun n => fnmatch_star_dot s n = true) names)
                      (glob_suffixes extensions))), w1).
Proof.
  revert acc w0. induction extensions as [|ext extensions IH]; intros acc w0 Hw0.
  - exists w0. simpl. by rewrite app_nil_r.
  - cbn [for_each]. unfold bind at 1. unfold bind at 1.
    unfold path_glob_star_dot at 1. rewrite Hw0, Hlist.
    unfold bind at 1. unfold path_glob_star_dot at 1. cbn [fs_listdir tick].
    rewrite Hw0, Hlist. unfold ret at 1.
    destruct (IH (acc ++ (path_child (parse_path d) <$> filter (fun n => fnmatch_star_dot ext n = true) names)
                       ++ (path_child (parse_path d) <$> filter (fun n => fnmatch_star_dot (upper ext) n = true) names))
                 (tick (tick w0)) Hw0) as [w1 ->].
    exists w1. f_equal. f_equal.
    cbn [glob_suffixes flat_map app]. fold (glob_suffixes extensions).
    rewrite !fmap_app, <- !app_assoc. done.
Qed.

Lemma stable_enumeration (extensions : list string) :
  fs_is_dir w (w_clock w) (path_str (parse_path d)) = Ok true ->
  exists w',
    FileManager.get_files_by_extension (VStr d) extensions w
    = (Ok ((fun n => path_str (path_child (parse_path d) n)) <$>
             flat_map (fun s => filter (fun n => fnmatch_star_dot s n = true) names)
               (glob_suffixes extensions)), w').
Proof.
  intros Hdir.
  unfold FileManager.get_files_by_extension, Path, os_fspath.
  unfold bind at 1. unfold bind at 1. unfold ret at 1. unfold ret at 1.
  unfold bind at 1. unfold path_exists_and_is_dir. rewrite Hdir.
  unfold bind at 1.
  destruct (glob_loop extensions [] (tick w) eq_refl) as [w1 ->].
  exists w1. unfold ret. cbn [app]. by rewrite <- list_fmap_compose.
Qed.
End StableListing.

Lemma elem_of_glob_suffixes (s : string) (extensions : list string) :
  s ∈ glob_suffixes extensions <-> exists ext, ext ∈ extensions /\ (s = ext \/ s = upper ext).
Proof.
  unfold glob_suffixes. rewrite list_elem_of_In, in_flat_map. split.
  - intros (ext & Hext & Hs). exists ext. rewrite list_elem_of_In. split; [done|].
    destruct Hs as [<-|[<-|[]]]; auto.
  - intros (ext & Hext & Hs). exists ext. rewrite <- list_elem_of_In. split; [done|].
    simpl. destruct Hs as [->| ->]; auto.
Qed.

Lemma elem_of_globbed (n : string) (names suffixes : list string) :
  n ∈ flat_map (fun s => filter (fun n => fnmatch_star_dot s n = true) names) suffixes
  <-> n ∈ names /\ exists s, s ∈ suffixes /\ fnmatch_star_dot s n = true.
Proof.
  rewrite list_elem_of_In, in_flat_map. split.
  - intros (s & Hs & Hn). apply list_elem_of_In, list_elem_of_filter in Hn as [Hm Hn].
    split; [done|]. exists s. by rewrite list_elem_of_In.
  - intros (Hn & s & Hs & Hm). exists s. rewrite <- !list_elem_of_In.
    split; [done|]. by apply list_elem_of_filter.
Qed.



(** ** No file is enumerated twice *)

Lemma prefix_both (a b c : string) :
  String.prefix a c = true -> String.prefix b c = true ->
  String.prefix a b = true \/ String.prefix b a = true.
Proof.
  revert a b. induction c as [|x c IH]; intros [|y a] [|z b]; simpl; auto;
    try discriminate.
  destruct (ascii_dec y x) as [->|]; [|discriminate].
  destruct (ascii_dec z x) as [->|]; [|discriminate].
  destruct (ascii_dec x x); [|done]. apply IH.
Qed.

Lemma exclusive_head (s s' n : string) (rest : list string) :
  exclusive (s :: rest) = true -> s' ∈ rest ->
  fnmatch_star_dot s n = true -> fnmatch_star_dot s' n = true -> False.
Proof.
  cbn [exclusive]. intros Hex Hin Hs Hs'.
  apply andb_true_iff in Hex as [Hall _].
  rewrite forallb_forall in Hall. apply list_elem_of_In in Hin.
  specialize (Hall s' Hin). apply andb_true_iff in Hall as [H1 H2].
  unfold fnmatch_star_dot, endswith in *.
  destruct (prefix_both _ _ _ Hs Hs') as [H|H]; rewrite H in *; discriminate.
Qed.

Lemma nodup_globbed (names suffixes : list string) :
  exclusive suffixes = true -> NoDup names ->
  NoDup (flat_map (fun s => filter (fun n => fnmatch_star_dot s n = true) names) suffixes).
Proof.
  intros Hex Hnames. induction suffixes as [|s rest IH]; [constructor|].
  cbn [flat_map]. apply NoDup_app. split; [by apply NoDup_filter|]. split.
  - intros n Hn Hn'. apply list_elem_of_filter in Hn as [Hm _].
    apply elem_of_globbed in Hn' as (_ & s' & Hs' & Hm').
    by eapply exclusive_head.
  - apply IH. cbn [exclusive] in Hex. by apply andb_true_iff in Hex as [_ ?].
Qed.

Lemma has_known_extension_spec (n : string) :
  has_known_extension n = true
  <-> exists s, s ∈ glob_suffixes FileManager.all_extensions /\ fnmatch_star_dot s n = true.
Proof.
  unfold has_known_extension. rewrite existsb_exists. split.
  - intros (ext & Hext & Hm). apply list_elem_of_In in Hext.
    unfold matches_extension in Hm. apply orb_true_iff in Hm as [Hm|Hm].
    + exists ext. split; [|done]. apply elem_of_glob_suffixes. eauto.
    + exists (upper ext). split; [|done]. apply elem_of_glob_suffixes. eauto.
  - intros (s & Hs & Hm). apply elem_of_glob_suffixes in Hs as (ext & Hext & Hs).
    exists ext. rewrite <- list_elem_of_In. split; [done|].
    unfold matches_extension. destruct Hs as [-> | ->]; rewrite Hm; by rewrite ?orb_true_r.
Qed.

(** With the extension lists of the batch runner and a directory that does
    not change, no entry is enumerated twice (a name ends with at most one of
    the thirty dotted suffixes), so the number of enumerated files, which
    becomes [total], is the number of entries whose name ends with a known
    extension in lower or in upper case. *)
Theorem no_file_is_enumerated_twice (w : World) (d : string) (names : list string) :
  (forall t, fs_listdir w t (path_str (parse_path d)) = Ok names) ->
  fs_is_dir w (w_clock w) (path_str (parse_path d)) = Ok true ->
  NoDup names ->
  exists files w',
    FileManager.get_files_by_extension (VStr d) FileManager.all_extensions w = (Ok files, w')
    /\ NoDup files
    /\ length files = length (filter (fun n => has_known_extension n = true) names).
Proof.
  intros Hlist Hdir Hnames.
  destruct (stable_enumeration w d names Hlist FileManager.all_extensions Hdir) as [w' Hrun].
  eexists _, w'. split; [exact Hrun|].
  assert (NoDup (flat_map (fun s => filter (fun n => fnmatch_star_dot s n = true) names)
                   (glob_suffixes FileManager.all_extensions))) as Hnd.
  { apply nodup_globbed; [|done]. vm_compute. reflexivity. }
  split.
  - destruct (child_text d) as (pre & _ & Htext).
    apply NoDup_fmap_2_strong; [|done].
    intros x y _ _. rewrite !Htext. apply String.app_inj.
  - rewrite length_fmap. apply Permutation_length, NoDup_Permutation; [done| |].
    + by apply NoDup_filter.
    + intros n. rewrite elem_of_globbed, list_elem_of_filter, has_known_extension_spec. tauto.
Qed.

Lemma no_file_is_enumerated_twice_witness :
  exists files w',
    FileManager.get_files_by_extension (VStr "in") FileManager.all_extensions
      (sample_world ["in"] ["a.jpg"; "a.JPG"; "a.jpeg"; "b.webm"; "c.txt"] 0) = (Ok files, w')
    /\ NoDup files
    /\ length files = 4%nat.
Proof.
  apply (no_file_is_enumerated_twice
           (sample_world ["in"] ["a.jpg"; "a.JPG"; "a.jpeg"; "b.webm"; "c.txt"] 0) "in"
           ["a.jpg"; "a.JPG"; "a.jpeg"; "b.webm"; "c.txt"]).
  - intros t. reflexivity.
  - reflexivity.
  - apply (bool_decide_unpack _). vm_compute. exact I.
Defined.

(** ** The batch runner with the real operations *)

Lemma operation_returns
    (quality width height crf preset : PyVal) (op : PyVal -> PyVal -> M bool)
    (input_path output_path : PyVal) (w : World) :
  op ∈ single_file_operations quality width height crf preset ->
  exists b w', op input_path output_path w = (Ok b, w').
Proof.
  intros Hop. each_operation Hop.
  all: unfold_operations; unfold try_except;
    match goal with
    | |- context [match ?body ?w0 with _ => _ end] => destruct (body w0) as [[b|e] w1]
    end; by eexists _, _.
Qed.

Lemma real_loop
    (quality width height crf preset : PyVal) (op : PyVal -> PyVal -> M bool)
    (d : string) (files : list string) (results : BatchResults) (w : World) :
  op ∈ single_file_operations quality width height crf preset ->
  exists (marks : list bool) (w' : World),
    for_each files (FileManager.process_one (VStr d) op) results w
    = (Ok (mkResults (success results ++ names_marked true files marks)
                     (failed results ++ names_marked false files marks)
                     (total results)), w')
    /\ length marks = length files.
Proof.
  intros Hop. revert results w. induction files as [|f files IH]; intros results w.
  - exists [], w. simpl. rewrite !app_nil_r. by destruct results.
  - cbn [for_each]. unfold bind. rewrite process_one_turn. cbv zeta.
    destruct (operation_returns _ _ _ _ _ op (VStr f) (VStr (join d (file_name_of f))) w Hop)
      as (b & w1 & ->).
    destruct b;
      match goal with
      | |- context [for_each files _ ?r ?w0] => destruct (IH r w0) as (marks & w2 & -> & Hlen)
      end; cbn [success failed total].
    + exists (true :: marks), w2. cbn [names_marked length].
      repeat case_bool_decide; try done.
      rewrite <- app_assoc. split; [reflexivity|]. simpl. by rewrite Hlen.
    + exists (false :: marks), w2. cbn [names_marked length].
      repeat case_bool_decide; try done.
      rewrite <- app_assoc. split; [reflexivity|]. simpl. by rewrite Hlen.
Qed.

(** With one of the six operations as the callback (the two batch tools
    use [compress_image] and [compress_video]) and a destination directory
    that is a [str], every entry of [failed] is a bare file name: the
    operations turn their own exceptions into [False], so the batch never
    records a reason. *)
Theorem batch_failures_carry_no_reason
    (quality width height crf preset : PyVal) (op : PyVal -> PyVal -> M bool)
    (input_dir : PyVal) (d : string) (w w1 : World) (files : list string) :
  op ∈ single_file_operations quality width height crf preset ->
  FileManager.get_files_by_extension input_dir FileManager.all_extensions w = (Ok files, w1) ->
  exists (r : BatchResults) (w2 : World) (marks : list bool),
    FileManager.batch_process_files input_dir (VStr d) op w = (Ok r, w2)
    /\ length marks = length files
    /\ success r = names_marked true files marks
    /\ failed r = names_marked false files marks.
Proof.
  intros Hop Hfiles. unfold FileManager.batch_process_files, bind. rewrite Hfiles.
  cbn [success failed total].
  destruct (real_loop _ _ _ _ _ op d files (mkResults [] [] (length files)) w1 Hop)
    as (marks & w2 & -> & Hlen).
  by eexists _, w2, marks.
Qed.

Lemma batch_failures_carry_no_reason_witness :
  exists (r : BatchResults) (w2 : World) (marks : list bool),
    FileManager.batch_process_files (VStr "in") (VStr "out")
      (fun i o => FFmpegProcessor.compress_video i o (VInt 23) (VStr "medium"))
      (sample_world ["in"] ["a.mp4"; "b.avi"] 1) = (Ok r, w2)
    /\ length marks = 2%nat
    /\ success r = names_marked true ["in/a.mp4"; "in/b.avi"] marks
    /\ failed r = names_marked false ["in/a.mp4"; "in/b.avi"] marks.
Proof.
  eapply (batch_failures_carry_no_reason VNone VNone VNone (VInt 23) (VStr "medium")
            (fun i o => FFmpegProcessor.compress_video i o (VInt 23) (VStr "medium"))
            (VStr "in") "out" (sample_world ["in"] ["a.mp4"; "b.avi"] 1) _
            ["in/a.mp4"; "in/b.avi"]).
  - unfold single_file_operations. do 3 apply list_elem_of_further. apply list_elem_of_here.
  - vm_compute. reflexivity.
Defined.

(** Without a usable destination directory (the argument is missing or is
    not a [str]) the callback is never called: every enumerated file is
    recorded as failed with the [TypeError] text of [os.path.join], nothing
    succeeds, and the world is left as the enumeration left it. *)
Theorem batch_without_destination
    (input_dir output_dir : PyVal) (process_func : PyVal -> PyVal -> M bool)
    (w w1 : World) (files : list string) :
  (forall s, output_dir <> VStr s) ->
  FileManager.get_files_by_extension input_dir FileManager.all_extensions w = (Ok files, w1) ->
  FileManager.batch_process_files input_dir output_dir process_func w
  = (Ok (mkResults []
           ((fun f => file_name_of f +:+ ": "
                      +:+ "expected str, bytes or os.PathLike object, not "
                      +:+ py_type_name output_dir) <$> files)
           (length files)), w1).
Proof.
  intros Hdest Hfiles. unfold FileManager.batch_process_files, bind. rewrite Hfiles.
  cbn [success failed total].
  assert (forall fs results w0,
             for_each fs (FileManager.process_one output_dir process_func) results w0
             = (Ok (mkResults (success results)
                      (failed results ++
                         ((fun f => file_name_of f +:+ ": "
                                    +:+ "expected str, bytes or os.PathLike object, not "
                                    +:+ py_type_name output_dir) <$> fs))
                      (total results)), w0)) as Hloop.
  { induction fs as [|f fs IH]; intros results w0.
    - simpl. rewrite app_nil_r. by destruct results.
    - cbn [for_each]. unfold bind.
      assert (FileManager.process_one output_dir process_func f results w0
              = (Ok (mkResults (success results)
                       (failed results ++
                          [file_name_of f +:+ ": "
                           +:+ "expected str, bytes or os.PathLike object, not "
                           +:+ py_type_name output_dir])
                       (total results)), w0)) as ->.
      { unfold FileManager.process_one, try_except, bind, os_path_join, os_fspath, bind.
        destruct output_dir; try done. by destruct (Hdest s). }
      rewrite IH. cbn [success failed total]. by rewrite <- app_assoc. }
  by rewrite Hloop.
Qed.

Lemma batch_without_destination_witness :
  FileManager.batch_process_files (VStr "in") VNone
    (fun i o => FFmpegProcessor.compress_image i o (VInt 85))
    (sample_world ["in"] ["a.jpg"] 0)
  = (Ok (mkResults []
           ["a.jpg: expected str, bytes or os.PathLike object, not NoneType"] 1),
     Nat.iter 31 tick (sample_world ["in"] ["a.jpg"] 0)).
Proof.
  apply (batch_without_destination (VStr "in") VNone
           (fun i o => FFmpegProcessor.compress_image i o (VInt 85))
           (sample_world ["in"] ["a.jpg"] 0) _ ["in/a.jpg"]).
  - discriminate.
  - vm_compute. reflexivity.
Defined.

Lemma operation_on_bare_output
    (quality width height crf preset : PyVal) (op : PyVal -> PyVal -> M bool)
    (input_path : PyVal) (output_path : string) (w : World) :
  op ∈ single_file_operations quality width height crf preset ->
  has_sep output_path = false ->
  op input_path (VStr output_path) w = (Ok false, tick (emit (EvMakedirs "") w)).
Proof.
  intros Hop Hs.
  pose proof (makedirs_of_bare output_path w Hs) as Hmk. unfold bind in Hmk.
  each_operation Hop.
  all: unfold_operations; unfold try_except, bind;
    destruct (os_path_dirname (VStr output_path) w) as [[d|e] w1];
    simplify_eq; by rewrite ?Hmk.
Qed.

Lemma join_empty (n : string) : has_sep n = false -> join "" n = n.
Proof.
  intros Hn. unfold join, startswith.
  destruct n as [|c n]; [done|].
  cbn [has_sep] in Hn. apply orb_false_iff in Hn as [Hc _].
  unfold is_sep in Hc. apply bool_decide_eq_false in Hc.
  assert (String.prefix "/" (String c n) = false) as ->.
  { cbn [String.prefix]. by destruct (ascii_dec "/" c) as [<-|]. }
  reflexivity.
Qed.

(** With the empty text as destination directory every file of the batch
    fails and no command is run: the output path of each file is its bare
    name, whose parent directory cannot be created. *)
Theorem batch_into_empty_destination
    (quality width height crf preset : PyVal) (op : PyVal -> PyVal -> M bool)
    (input_dir : PyVal) (w w1 : World) (files : list string) :
  op ∈ single_file_operations quality width height crf preset ->
  FileManager.get_files_by_extension input_dir FileManager.all_extensions w = (Ok files, w1) ->
  exists w2,
    FileManager.batch_process_files input_dir (VStr "") op w
    = (Ok (mkResults [] (file_name_of <$> files) (length files)), w2)
    /\ spawned (w_trace w2) = spawned (w_trace w).
Proof.
  intros Hop Hfiles.
  pose proof (get_files_by_extension_quiet input_dir FileManager.all_extensions w) as Hquiet.
  rewrite Hfiles in Hquiet. simpl in Hquiet.
  unfold FileManager.batch_process_files, bind. rewrite Hfiles. cbn [success failed total].
  rewrite <- Hquiet.
  assert (forall fs results w0,
             exists w2,
               for_each fs (FileManager.process_one (VStr "") op) results w0
               = (Ok (mkResults (success results) (failed results ++ (file_name_of <$> fs))
                        (total results)), w2)
               /\ spawned (w_trace w2) = spawned (w_trace w0)) as Hloop.
  { induction fs as [|f fs IH]; intros results w0.
    - exists w0. simpl. rewrite app_nil_r. by destruct results.
    - cbn [for_each]. unfold bind. rewrite process_one_turn. cbv zeta.
      rewrite join_empty by apply file_name_of_no_sep.
      rewrite (operation_on_bare_output _ _ _ _ _ op _ _ _ Hop (file_name_of_no_sep f)).
      match goal with
      | |- context [for_each fs _ ?r ?w3] => destruct (IH r w3) as (w2 & -> & Hsp)
      end.
      exists w2. cbn [success failed total]. rewrite <- app_assoc. split; [reflexivity|].
      rewrite Hsp. rewrite trace_tick, trace_emit, spawned_app. simpl. by rewrite app_nil_r. }
  destruct (Hloop files (mkResults [] [] (length files)) w1) as (w2 & -> & Hsp).
  by exists w2.
Qed.

Lemma batch_into_empty_destination_witness :
  exists w2,
    FileManager.batch_process_files (VStr "in") (VStr "")
      (fun i o => FFmpegProcessor.compress_image i o (VInt 85))
      (sample_world ["in"] ["a.jpg"; "b.png"] 0)
    = (Ok (mkResults [] (file_name_of <$> ["in/a.jpg"; "in/b.png"]) 2), w2)
    /\ spawned (w_trace w2) = [].
Proof.
  eapply (batch_into_empty_destination (VInt 85) VNone VNone VNone VNone
            (fun i o => FFmpegProcessor.compress_image i o (VInt 85))
            (VStr "in") (sample_world ["in"] ["a.jpg"; "b.png"] 0) _ ["in/a.jpg"; "in/b.png"]).
  - unfold single_file_operations. apply list_elem_of_here.
  - vm_compute. reflexivity.
Defined.

(** ** Batch tools on a path that is no directory *)

(** When the input of a batch tool exists but is not a directory (a plain
    file, say), the tool does not report an error: it answers with the
    summary of an empty batch and runs nothing. *)
Theorem batch_on_a_file_is_empty
    (name : string) (arguments : gmap string PyVal) (d : string) (w : World) :
  name ∈ ["batch_compress_images"; "batch_compress_videos"] ->
  arguments !! "input_dir" = Some (VStr d) ->
  fs_exists w (w_clock w) d = true ->
  fs_is_dir w (S (w_clock w)) (path_str (parse_path d)) = Ok false ->
  handle_call_tool name (Some arguments) w
  = (Ok [text_content (batch_message (batch_title name) (mkResults [] [] 0))],
     tick (tick w)).
Proof.
  intros Hname Harg Hex Hdir.
  assert (dict_get arguments "input_dir" VNone = VStr d) as Hget
    by (unfold dict_get; by rewrite Harg).
  repeat (apply elem_of_cons in Hname as [->|Hname]); [..|by apply elem_of_nil in Hname].
  all: unfold handle_call_tool; change (default ∅ (Some arguments)) with arguments;
    unfold handle_call_tool_body; pick_branch; cbv zeta; rewrite Hget;
    unfold try_except, bind at 1; simpl os_path_exists; cbv beta; rewrite Hex;
    cbn [negb]; cbv iota;
    unfold bind at 1, FileManager.batch_process_files, bind at 1,
      FileManager.get_files_by_extension, bind at 1, Path, bind at 1, os_fspath, ret at 1;
    cbv beta iota; unfold ret at 1, bind at 1, path_exists_and_is_dir;
    cbn [fs_is_dir tick w_clock]; rewrite Hdir; reflexivity.
Qed.

Lemma batch_on_a_file_is_empty_witness :
  handle_call_tool "batch_compress_videos"
    (Some {[ "input_dir" := VStr "movie.mp4"; "output_dir" := VStr "out" ]})
    (mkWorld 0 [] (fun _ _ => true) (fun _ _ => false) (fun _ _ => Ok false)
       (fun _ _ => Ok []) (fun _ _ => None) (fun _ _ => Ok (mkCompleted 0 "" ""))
       (fun s => Ok s) (fun d => d))
  = (Ok [text_content (batch_message (batch_title "batch_compress_videos")
                         (mkResults [] [] 0))],
     tick (tick
       (mkWorld 0 [] (fun _ _ => true) (fun _ _ => false) (fun _ _ => Ok false)
          (fun _ _ => Ok []) (fun _ _ => None) (fun _ _ => Ok (mkCompleted 0 "" ""))
          (fun s => Ok s) (fun d => d)))).
Proof.
  apply (batch_on_a_file_is_empty "batch_compress_videos" _ "movie.mp4").
  - apply list_elem_of_further, list_elem_of_here.
  - reflexivity.
  - reflexivity.
  - reflexivity.
Defined.

(** ** The answers of the single-file tools *)

Ltac pick_branch_in H :=
  repeat match type of H with
         | context [String.eqb ?a ?b] =>
             let v := eval vm_compute in (String.eqb a b) in
             change (String.eqb a b) with v in H
         end;
  cbv iota in H.

Ltac close_answer :=
  eexists; split;
  [ reflexivity
  | cbn [w_trace tick emit]; rewrite ?spawned_app; cbn [spawned];
    rewrite ?app_nil_r; reflexivity ].

(** With both paths given as [str]s and an input that exists, the answer of
    a single-file tool is decided by [os.makedirs] and by the one command of
    the tool: the success text with both paths when the directory can be
    made and the command exits with 0, the failure text with the input path
    otherwise.  The command is the one of the tool named, built from its own
    arguments, and it is run only when the directory could be made. *)
Theorem single_file_tool_answer
    (name : string) (arguments : gmap string PyVal) (ins outs : string) (w : World) :
  name ∈ single_file_tools ->
  arguments !! "input_path" = Some (VStr ins) ->
  arguments !! "output_path" = Some (VStr outs) ->
  (name = "compress_video" ->
   exists pre, dict_get arguments "preset" (VStr "medium") = VStr pre) ->
  fs_exists w (w_clock w) ins = true ->
  let made := bool_decide (dirname outs <> "")
              && bool_decide (fs_makedirs w (S (w_clock w)) (dirname outs) = None) in
  exists w',
    handle_call_tool name (Some arguments) w
    = (Ok [text_content
             (if made
                 && match proc_run w (S (S (w_clock w)))
                            (tool_command name arguments ins outs) with
                    | Ok cp => returncode cp =? 0
                    | Raise _ => false
                    end
              then success_prefix name +:+ ins +:+ " -> " +:+ outs
                   +:+ success_suffix name arguments
              else failure_prefix name +:+ ins)], w')
    /\ spawned (w_trace w')
       = spawned (w_trace w)
         ++ (if made then [tool_command name arguments ins outs] else []).
Proof.
  intros Hname Hin Hout Hpre Hex made. subst made.
  assert (dict_get arguments "input_path" VNone = VStr ins) as Hgi
    by (unfold dict_get; by rewrite Hin).
  assert (dict_get arguments "output_path" VNone = VStr outs) as Hgo
    by (unfold dict_get; by rewrite Hout).
  unfold single_file_tools in Hname.
  repeat (apply elem_of_cons in Hname as [->|Hname]); [..|by apply elem_of_nil in Hname].
  all: try (destruct (Hpre eq_refl) as [pre Hp]).
  all: unfold handle_call_tool; change (default ∅ (Some arguments)) with arguments;
    unfold handle_call_tool_body, tool_command, success_prefix, failure_prefix,
      success_suffix; pick_branch; cbv zeta; rewrite Hgi, Hgo, ?Hp;
    unfold try_except, bind at 1; simpl os_path_exists; cbv beta; rewrite Hex;
    cbn [negb]; cbv iota;
    unfold_operations;
    unfold try_except, bind, ret, os_path_dirname, os_fspath, bind, ret, os_makedirs,
      subprocess_run;
    cbv beta iota; cbn [fs_makedirs tick emit w_clock argv_of proc_run];
    (case_bool_decide as Hd;
       [rewrite bool_decide_eq_false_2 by (by intros ?); close_answer|]);
    rewrite (bool_decide_eq_true_2 (dirname outs <> "")) by done;
    (destruct (fs_makedirs w (S (w_clock w)) (dirname outs)) as [e|] eqn:Hmk;
       [rewrite bool_decide_eq_false_2 by done; close_answer|]);
    rewrite bool_decide_eq_true_2 by done;
    cbn [andb proc_run tick emit w_clock py_str];
    match goal with
    | |- context [proc_run ?w0 ?c ?a] => destruct (proc_run w0 c a) as [cp|e]
    end; [|close_answer];
    cbn [orb]; cbv iota; rewrite ?append_nil_r;
    destruct (returncode cp =? 0); close_answer.
Qed.

Lemma single_file_tool_answer_witness :
  exists w',
    handle_call_tool "resize_video"
      (Some {[ "input_path" := VStr "a.mp4"; "output_path" := VStr "out/a.mp4";
               "width" := VInt 640; "height" := VInt 360 ]})
      (sample_world ["a.mp4"] [] 0)
    = (Ok [text_content "视频尺寸调整成功：a.mp4 -> out/a.mp4 (640x360)"], w')
    /\ spawned (w_trace w')
       = [["ffmpeg"; "-y"; "-i"; "a.mp4"; "-vf"; "scale=640:360"; "-c:a"; "copy";
           "out/a.mp4"]].
Proof.
  destruct (single_file_tool_answer "resize_video"
              {[ "input_path" := VStr "a.mp4"; "output_path" := VStr "out/a.mp4";
                 "width" := VInt 640; "height" := VInt 360 ]}
              "a.mp4" "out/a.mp4" (sample_world ["a.mp4"] [] 0))
    as (w' & Hrun & Hspawn).
  - unfold single_file_tools. do 5 apply list_elem_of_further. apply list_elem_of_here.
  - reflexivity.
  - reflexivity.
  - discriminate.
  - reflexivity.
  - exists w'. split; [exact Hrun|exact Hspawn].
Defined.

(** ** The destination directory is made once per file *)

Lemma made_dirs_app (t1 t2 : list Event) : made_dirs (t1 ++ t2) = made_dirs t1 ++ made_dirs t2.
Proof.
  induction t1 as [|ev t1 IH]; [done|].
  destruct ev; simpl; by rewrite ?IH.
Qed.

Lemma rev_app_append (a b c : string) :
  String.rev_app (a +:+ b) c = String.rev_app b (String.rev_app a c).
Proof.
  revert c. induction a as [|x a IH]; intros c; [done|].
  rewrite append_cons. cbn [String.rev_app]. by rewrite IH.
Qed.

Lemma rev_rev (s : string) : String.rev (String.rev s) = s.
Proof. change (String.rev s) with (String.rev_app s ""). by rewrite rev_rev_app. Qed.

(** The parent of [join(d, n)] is [d], for a directory text that is not
    empty and does not end with the separator. *)
Lemma dirname_join (d n : string) :
  has_sep n = false -> d <> "" -> endswith d "/" = false ->
  dirname (join d n) = d.
Proof.
  intros Hn Hd Hend.
  assert (join d n = d +:+ "/" +:+ n) as ->.
  { unfold join, startswith.
    assert (String.prefix "/" n = false) as ->.
    { destruct n as [|c n]; [done|].
      cbn [has_sep] in Hn. apply orb_false_iff in Hn as [Hc _].
      unfold is_sep in Hc. apply bool_decide_eq_false in Hc.
      cbn [String.prefix]. by destruct (ascii_dec "/" c) as [<-|]. }
    rewrite Hend, bool_decide_eq_false_2 by done. done. }
  assert (String.rev (d +:+ "/" +:+ n) = String.rev_app n (String "/" (String.rev d)))
    as Hrev by (unfold String.rev; by rewrite rev_app_append).
  unfold dirname. rewrite Hrev, rev_head_rev_app by done.
  cbn [rev_head]. assert (is_sep "/" = true) as Hsep by done. rewrite Hsep.
  cbn [lstrip_sep]. rewrite Hsep.
  unfold endswith in Hend. change (String.rev "/") with "/" in Hend.
  assert (lstrip_sep (String.rev d) = String.rev d /\ String.rev d <> "") as [-> Hne].
  { destruct (String.rev d) as [|c r] eqn:Hr.
    - exfalso. apply Hd. apply (f_equal String.rev) in Hr.
      by rewrite rev_rev in Hr.
    - split; [|done]. cbn [lstrip_sep]. cbn [String.prefix] in Hend.
      unfold is_sep. destruct (ascii_dec "/" c) as [<-|Hc]; [by destruct r|].
      rewrite bool_decide_eq_false_2; [done|]. by intros ->. }
  rewrite bool_decide_eq_false_2 by done.
  apply rev_rev.
Qed.

(** Each operation asks [os.makedirs] for the parent directory of its
    output path, once, whatever happens afterwards. *)
Lemma operation_makes_parent
    (quality width height crf preset : PyVal) (op : PyVal -> PyVal -> M bool)
    (input_path : PyVal) (output_path : string) (w : World) :
  op ∈ single_file_operations quality width height crf preset ->
  exists b w',
    op input_path (VStr output_path) w = (Ok b, w')
    /\ made_dirs (w_trace w') = made_dirs (w_trace w) ++ [dirname output_path].
Proof.
  intros Hop. each_operation Hop.
  all: unfold_operations;
    unfold try_except, bind, ret, os_path_dirname, os_fspath, bind, ret, raise,
      os_makedirs, subprocess_run;
    cbv beta iota;
    (case_bool_decide;
       [eexists _, _; split; [reflexivity|];
        cbn [w_trace tick emit]; rewrite made_dirs_app; reflexivity|]);
    (destruct (fs_makedirs w (w_clock w) (dirname output_path)) as [e|];
       [eexists _, _; split; [reflexivity|];
        cbn [w_trace tick emit]; rewrite made_dirs_app; reflexivity|]).
  all: match goal with
       | |- context [argv_of ?cmd] => destruct (argv_of cmd) as [bad|argv]
       end;
    [eexists _, _; split; [reflexivity|];
     cbn [w_trace tick emit]; rewrite made_dirs_app; reflexivity|];
    match goal with
    | |- context [proc_run ?w0 ?c ?a] => destruct (proc_run w0 c a) as [cp|e]
    end;
    eexists _, _; (split; [reflexivity|]);
    cbn [w_trace tick emit]; rewrite !made_dirs_app; cbn [made_dirs];
    by rewrite app_nil_r.
Qed.

(** The batch runner never makes the destination directory itself: each
    file makes it on its own.  With a destination text [d] that is not empty
    and does not end with the separator, a batch over [files] asks
    [os.makedirs] for [d] once per enumerated file and for nothing else, so
    an empty batch leaves the destination unmade. *)
Theorem destination_made_once_per_file
    (quality width height crf preset : PyVal) (op : PyVal -> PyVal -> M bool)
    (input_dir : PyVal) (d : string) (w w1 : World) (files : list string) :
  op ∈ single_file_operations quality width height crf preset ->
  d <> "" -> endswith d "/" = false ->
  FileManager.get_files_by_extension input_dir FileManager.all_extensions w = (Ok files, w1) ->
  exists r w2,
    FileManager.batch_process_files input_dir (VStr d) op w = (Ok r, w2)
    /\ made_dirs (w_trace w2) = made_dirs (w_trace w) ++ replicate (length files) d.
Proof.
  intros Hop Hd Hend Hfiles.
  pose proof (get_files_by_extension_quiet input_dir FileManager.all_extensions w) as Hquiet.
  rewrite Hfiles in Hquiet. simpl in Hquiet.
  unfold FileManager.batch_process_files, bind. rewrite Hfiles. cbn [success failed total].
  rewrite <- Hquiet.
  assert (forall fs results w0,
             exists r w2,
               for_each fs (FileManager.process_one (VStr d) op) results w0 = (Ok r, w2)
               /\ made_dirs (w_trace w2)
                  = made_dirs (w_trace w0) ++ replicate (length fs) d) as Hloop.
  { induction fs as [|f fs IH]; intros results w0.
    - exists results, w0. simpl. by rewrite app_nil_r.
    - cbn [for_each]. unfold bind. rewrite process_one_turn. cbv zeta.
      destruct (operation_makes_parent _ _ _ _ _ op (VStr f) (join d (file_name_of f)) w0 Hop)
        as (b & w3 & -> & Hmade).
      rewrite dirname_join in Hmade by (done || apply file_name_of_no_sep).
      destruct b;
        match goal with
        | |- context [for_each fs _ ?r0 ?w4] => destruct (IH r0 w4) as (r & w2 & -> & Hrest)
        end;
        exists r, w2; (split; [done|]);
        rewrite Hrest, Hmade, <- app_assoc; reflexivity. }
  apply Hloop.
Qed.

Lemma destination_made_once_per_file_witness :
  exists r w2,
    FileManager.batch_process_files (VStr "in") (VStr "out/small")
      (fun i o => FFmpegProcessor.compress_image i o (VInt 85))
      (sample_world ["in"] ["a.jpg"; "b.png"; "c.txt"] 1) = (Ok r, w2)
    /\ made_dirs (w_trace w2) = [] ++ replicate 2 "out/small".
Proof.
  eapply (destination_made_once_per_file (VInt 85) VNone VNone VNone VNone
            (fun i o => FFmpegProcessor.compress_image i o (VInt 85))
            (VStr "in") "out/small" (sample_world ["in"] ["a.jpg"; "b.png"; "c.txt"] 1) _
            ["in/a.jpg"; "in/b.png"]).
  - unfold single_file_operations. apply list_elem_of_here.
  - discriminate.
  - reflexivity.
  - vm_compute. reflexivity.
Defined.

(** ** A directory that cannot be read stops the whole batch *)



(** * Properties of the scripts *)

(** ** [install.py] *)

(** The version test accepts exactly Python 3.8 and later: [True] when the
    major version is above 3, or is 3 with a minor version of at least 8;
    it prints one line then, two lines otherwise, and does nothing else. *)
Lemma python_version_check (h : Host) (m : Machine) :
  let ok := bool_decide (3 < fst (version_info h)
                         \/ (fst (version_info h) = 3 /\ 8 <= snd (version_info h))) in
  Install.check_python_version h m
  = (Returned ok,
     mkMachine
       (m_printed m ++
          (if ok then ["✓ Python版本检查通过：" +:+ sys_version h]
           else ["错误：需要Python 3.8或更高版本"; "当前版本：" +:+ sys_version h]))
       (m_files m) (m_dirs m) (m_ran m)).
Proof.
  intros ok. subst ok.
  unfold Install.check_python_version, sbind, host, print, sret, Install.older_than_3_8.
  destruct (version_info h) as [major minor]. cbn [fst snd].
  case_bool_decide as Hok.
  - assert ((major <? 3) || (major =? 3) && (minor <? 8) = false) as ->.
    { apply orb_false_iff. split; [lia|]. apply andb_false_iff. lia. }
    done.
  - assert ((major <? 3) || (major =? 3) && (minor <? 8) = true) as ->.
    { apply orb_true_iff. destruct (Z.ltb_spec major 3); [by left|right].
      apply andb_true_iff. split; lia. }
    cbn [m_printed]. by rewrite <- app_assoc.
Qed.

(** With a Python older than 3.8 the installer leaves with exit status 1
    before it runs any command, writes anything or makes a directory. *)
Theorem old_python_stops_install (h : Host) (m : Machine) :
  Install.older_than_3_8 (version_info h) = true ->
  exists m',
    Install.main h m = (Exited 1, m')
    /\ m_ran m' = m_ran m /\ m_files m' = m_files m /\ m_dirs m' = m_dirs m.
Proof.
  intros Hold.
  unfold Install.main, Install.check_python_version, sbind, host, print, sret, sys_exit.
  rewrite Hold. by eexists.
Qed.

Lemma old_python_stops_install_witness :
  exists m',
    Install.main
      (mkHost "Linux" "/usr/bin/python3" "3.7.9" (3, 7) "/opt" (fun p => p) join dirname
         (fun _ => inl (mkCompleted 0 "" "")) (fun _ => None) (fun _ => None) (fun _ => None)
         (fun _ => "") (fun _ => ""))
      empty_machine = (Exited 1, m')
    /\ m_ran m' = m_ran empty_machine /\ m_files m' = m_files empty_machine
    /\ m_dirs m' = m_dirs empty_machine.
Proof.
  apply old_python_stops_install. reflexivity.
Defined.

(** When [pip] exits with a return code other than 0, the installer leaves
    with exit status 1: [ffmpeg] is not looked for and no test directory is
    made.  [pip] is the only command that was run. *)
Theorem failed_pip_stops_install (h : Host) (m : Machine) (cp : CompletedProcess) :
  Install.older_than_3_8 (version_info h) = false ->
  run_command h [sys_executable h; "-m"; "pip"; "install"; "-r"; "requirements.txt"] = inl cp ->
  returncode cp <> 0 ->
  exists m',
    Install.main h m = (Exited 1, m')
    /\ m_ran m' = m_ran m ++ [[sys_executable h; "-m"; "pip"; "install"; "-r"; "requirements.txt"]]
    /\ m_files m' = m_files m /\ m_dirs m' = m_dirs m.
Proof.
  intros Hver Hrun Hrc.
  unfold Install.main, Install.check_python_version, Install.install_requirements,
    stry_class, check_call, start, sbind, host, print, sret, sys_exit, sraise.
  rewrite Hver. cbn [negb m_printed m_files m_dirs m_ran]. rewrite Hrun.
  apply Z.eqb_neq in Hrc. rewrite Hrc. cbn [err_class]. by eexists.
Qed.

Lemma failed_pip_stops_install_witness :
  exists m',
    Install.main (sample_host 1) empty_machine = (Exited 1, m')
    /\ m_ran m' = m_ran empty_machine
                  ++ [[sys_executable (sample_host 1); "-m"; "pip"; "install"; "-r";
                       "requirements.txt"]]
    /\ m_files m' = m_files empty_machine /\ m_dirs m' = m_dirs empty_machine.
Proof.
  apply (failed_pip_stops_install (sample_host 1) empty_machine (mkCompleted 1 "" "")).
  - reflexivity.
  - reflexivity.
  - discriminate.
Defined.

(** Only a return code is handled: when [pip] cannot be started at all, the
    exception is not caught and the installer ends with it instead of the
    exit status 1. *)
Theorem pip_that_cannot_start_is_not_handled (h : Host) (m : Machine) (e : PyError) :
  Install.older_than_3_8 (version_info h) = false ->
  run_command h [sys_executable h; "-m"; "pip"; "install"; "-r"; "requirements.txt"] = inr e ->
  err_class e <> "CalledProcessError" ->
  exists m', Install.main h m = (Raised e, m') /\ m_dirs m' = m_dirs m.
Proof.
  intros Hver Hrun Hcls.
  unfold Install.main, Install.check_python_version, Install.install_requirements,
    stry_class, check_call, start, sbind, host, print, sret, sys_exit, sraise.
  rewrite Hver. cbn [negb m_printed m_files m_dirs m_ran]. rewrite Hrun.
  apply String.eqb_neq in Hcls. rewrite Hcls. by eexists.
Qed.

Lemma pip_that_cannot_start_is_not_handled_witness :
  exists m',
    Install.main
      (mkHost "Linux" "/gone/python3" "3.11.4" (3, 11) "/opt" (fun p => p) join dirname
         (fun _ => inr (mkPyError "FileNotFoundError" "[Errno 2] No such file or directory"))
         (fun _ => None) (fun _ => None) (fun _ => None) (fun _ => "") (fun _ => ""))
      empty_machine
    = (Raised (mkPyError "FileNotFoundError" "[Errno 2] No such file or directory"), m')
    /\ m_dirs m' = m_dirs empty_machine.
Proof.
  apply pip_that_cannot_start_is_not_handled.
  - reflexivity.
  - reflexivity.
  - discriminate.
Defined.

Lemma with_printed_nil (m : Machine) : with_printed m [] = m.
Proof. destruct m. unfold with_printed. simpl. by rewrite app_nil_r. Qed.

Lemma with_printed_app (m : Machine) (l1 l2 : list string) :
  with_printed (with_printed m l1) l2 = with_printed m (l1 ++ l2).
Proof. unfold with_printed. simpl. by rewrite app_assoc. Qed.

Lemma print_spec (line : string) (h : Host) (m : Machine) :
  print line h m = (Returned tt, with_printed m [line]).
Proof. done. Qed.

Lemma path_exists_spec (path : string) (h : Host) (m : Machine) :
  path_exists path h m = (Returned (present m path), m).
Proof. done. Qed.

(** The instructions only print. *)
Lemma instructions_only_print (h : Host) (m : Machine) :
  exists lines,
    Install.show_ffmpeg_install_instructions h m = (Returned tt, with_printed m lines).
Proof.
  unfold Install.show_ffmpeg_install_instructions, sbind, host.
  rewrite !print_spec.
  destruct (String.eqb (platform_system h) "Windows");
    [|destruct (String.eqb (platform_system h) "Darwin");
      [|destruct (String.eqb (platform_system h) "Linux")]];
    unfold sret; rewrite ?print_spec, ?with_printed_app; by eexists.
Qed.

(** The probe of the installer never raises: it runs [ffmpeg -version] and
    prints one line. *)
Lemma check_ffmpeg_spec (h : Host) (m : Machine) :
  exists b line,
    Install.check_ffmpeg h m
    = (Returned b,
       mkMachine (m_printed m ++ [line]) (m_files m) (m_dirs m)
         (m_ran m ++ [["ffmpeg"; "-version"]])).
Proof.
  unfold Install.check_ffmpeg, stry, sbind, start, print, sret.
  destruct (run_command h ["ffmpeg"; "-version"]) as [cp|e]; [|by eexists _, _].
  destruct (returncode cp =? 0); by eexists _, _.
Qed.

Ltac solve_present :=
  unfold present in *; cbn [m_files m_dirs] in *;
  repeat match goal with
         | H : _ || _ = true |- _ => apply orb_true_iff in H as [H|H]
         end;
  repeat match goal with
         | H : bool_decide _ = true |- _ => apply bool_decide_eq_true in H
         end;
  apply orb_true_iff;
  first [ left; apply bool_decide_eq_true; done
        | right; apply bool_decide_eq_true;
          rewrite ?elem_of_union, ?elem_of_singleton; tauto ].

Lemma test_directories_present (h : Host) (m : Machine) :
  present m "test_input" = true -> present m "test_output" = true ->
  Install.create_test_directories h m = (Returned tt, m).
Proof.
  intros Hpi Hpo. unfold Install.create_test_directories. cbn [sfor]. unfold sbind.
  rewrite !path_exists_spec, Hpi. cbn [negb]. unfold sret at 1.
  rewrite path_exists_spec, Hpo. done.
Qed.

Lemma test_directories_made (h : Host) (m : Machine) :
  mkdir_error h "test_input" = None ->
  mkdir_error h "test_output" = None ->
  exists m',
    Install.create_test_directories h m = (Returned tt, m')
    /\ present m' "test_input" = true /\ present m' "test_output" = true
    /\ m_files m' = m_files m /\ m_ran m' = m_ran m.
Proof.
  intros Hin Hout.
  unfold Install.create_test_directories. cbn [sfor]. unfold sbind.
  rewrite !path_exists_spec.
  destruct (present m "test_input") eqn:Hpi; cbn [negb].
  - unfold sret at 1. rewrite path_exists_spec.
    destruct (present m "test_output") eqn:Hpo; cbn [negb].
    + by exists m.
    + unfold makedirs at 1. rewrite bool_decide_eq_false_2 by done. rewrite Hout.
      rewrite print_spec. unfold sret, with_printed. cbn [m_printed m_files m_dirs m_ran].
      eexists. split; [reflexivity|]. clear Hpo.
      repeat split; try done; solve_present.
  - unfold makedirs at 1. rewrite bool_decide_eq_false_2 by done. rewrite Hin.
    rewrite print_spec. unfold with_printed at 1. cbn [m_printed m_files m_dirs m_ran].
    rewrite path_exists_spec. clear Hpi.
    match goal with
    | |- context [present ?m1 "test_output"] => destruct (present m1 "test_output") eqn:Hpo
    end; cbn [negb].
    + unfold sret. eexists. split; [reflexivity|].
      repeat split; try done; solve_present.
    + unfold makedirs at 1. rewrite bool_decide_eq_false_2 by done. rewrite Hout.
      rewrite print_spec. unfold sret, with_printed. cbn [m_printed m_files m_dirs m_ran].
      eexists. split; [reflexivity|]. clear Hpo.
      repeat split; try done; solve_present.
Qed.

(** When both directories can be made, [create_test_directories] leaves
    both of them present and no file changed; a path that is already there is
    left alone without a message, so a second run prints nothing and changes
    nothing. *)
Theorem test_directories_are_made_once (h : Host) (m : Machine) :
  mkdir_error h "test_input" = None ->
  mkdir_error h "test_output" = None ->
  exists m',
    Install.create_test_directories h m = (Returned tt, m')
    /\ present m' "test_input" = true /\ present m' "test_output" = true
    /\ m_files m' = m_files m /\ m_ran m' = m_ran m
    /\ Install.create_test_directories h m' = (Returned tt, m').
Proof.
  intros Hin Hout.
  destruct (test_directories_made h m Hin Hout) as (m' & Hrun & Hpi & Hpo & Hf & Hr).
  exists m'. repeat split; try done. by apply test_directories_present.
Qed.

Lemma test_directories_are_made_once_witness :
  exists m',
    Install.create_test_directories (sample_host 0) empty_machine = (Returned tt, m')
    /\ present m' "test_input" = true /\ present m' "test_output" = true
    /\ m_files m' = m_files empty_machine /\ m_ran m' = m_ran empty_machine
    /\ Install.create_test_directories (sample_host 0) m' = (Returned tt, m').
Proof.
  apply test_directories_are_made_once; reflexivity.
Defined.

Lemma sbind_returned {A B} (c : Script A) (k : A -> Script B) (h : Host) (m m' : Machine) (a : A) :
  c h m = (Returned a, m') -> sbind c k h m = k a h m'.
Proof. intros H. unfold sbind. by rewrite H. Qed.

(** A missing [ffmpeg] does not stop the installer: once Python is recent
    enough and [pip] exits with 0, the installer runs to its end whatever the
    probe of [ffmpeg] gives (when the two test directories can be made); it
    has then run [pip] and the probe and nothing else, both test directories
    are present and no file was written. *)
Theorem install_finishes_without_ffmpeg (h : Host) (m : Machine) (cp : CompletedProcess) :
  Install.older_than_3_8 (version_info h) = false ->
  run_command h [sys_executable h; "-m"; "pip"; "install"; "-r"; "requirements.txt"] = inl cp ->
  returncode cp = 0 ->
  mkdir_error h "test_input" = None ->
  mkdir_error h "test_output" = None ->
  exists m',
    Install.main h m = (Returned tt, m')
    /\ m_ran m' = m_ran m ++ [[sys_executable h; "-m"; "pip"; "install"; "-r"; "requirements.txt"];
                              ["ffmpeg"; "-version"]]
    /\ present m' "test_input" = true /\ present m' "test_output" = true
    /\ m_files m' = m_files m.
Proof.
  intros Hver Hpip Hrc Hin Hout.
  unfold Install.main.
  rewrite (sbind_returned _ _ _ _ _ _ (print_spec _ _ _)).
  erewrite sbind_returned; cycle 1.
  { unfold Install.check_python_version, sbind, host. rewrite Hver. reflexivity. }
  cbn [negb]. rewrite (sbind_returned (sret tt) _ _ _ _ tt eq_refl).
  erewrite sbind_returned; cycle 1.
  { unfold Install.install_requirements, stry_class, check_call, start, sbind, host, print.
    cbn [m_printed m_files m_dirs m_ran]. rewrite Hpip, Hrc. reflexivity. }
  cbn [negb]. rewrite (sbind_returned (sret tt) _ _ _ _ tt eq_refl).
  match goal with
  | |- context [sbind Install.check_ffmpeg _ _ ?m1] =>
      destruct (check_ffmpeg_spec h m1) as (b & line & Hprobe)
  end.
  rewrite (sbind_returned _ _ _ _ _ _ Hprobe).
  cbn [m_printed m_files m_dirs m_ran].
  match goal with
  | |- context [sbind (if negb b then ?c else _) _ _ ?m2] =>
      assert (exists lines, (if negb b then c else sret tt) h m2
                            = (Returned tt, with_printed m2 lines)) as [lines Hwarn]
  end.
  { destruct b; cbn [negb].
    - exists []. by rewrite with_printed_nil.
    - match goal with
      | |- context [sbind _ _ _ ?m2] =>
          destruct (instructions_only_print h m2) as [lines Hlines]
      end.
      rewrite (sbind_returned _ _ _ _ _ _ Hlines), print_spec, with_printed_app.
      by eexists. }
  rewrite (sbind_returned _ _ _ _ _ _ Hwarn).
  match goal with
  | |- context [sbind Install.create_test_directories _ _ ?m3] =>
      destruct (test_directories_made h m3 Hin Hout) as (m4 & Hdirs & Hpi & Hpo & Hf & Hr)
  end.
  rewrite (sbind_returned _ _ _ _ _ _ Hdirs).
  rewrite (sbind_returned _ _ _ _ _ _ (print_spec _ _ _)).
  assert (forall m5, exists lines,
             (if b then
                go! print "✓ 所有组件安装成功！" in
                go! print "你现在可以运行：" in
                go! print "  python start_server.py  # 启动MCP服务器" in
                print "  或者在Windows上双击 start_server.bat"
              else print "⚠️  安装部分完成，请安装FFmpeg后再使用") h m5
             = (Returned tt, with_printed m5 lines)) as Hend.
  { intros m5. destruct b; unfold sbind; rewrite !print_spec, ?with_printed_app; by eexists. }
  match goal with
  | |- context [sbind _ _ _ ?m5] => destruct (Hend m5) as [lines' Hlast]
  end.
  rewrite (sbind_returned _ _ _ _ _ _ Hlast), print_spec.
  eexists. split; [reflexivity|]. repeat split.
  - simpl. rewrite Hr. simpl. by rewrite <- app_assoc.
  - exact Hpi.
  - exact Hpo.
  - simpl. by rewrite Hf.
Qed.

Lemma install_finishes_without_ffmpeg_witness :
  exists m',
    Install.main host_without_ffmpeg empty_machine = (Returned tt, m')
    /\ m_ran m' = [["/usr/bin/python3"; "-m"; "pip"; "install"; "-r"; "requirements.txt"];
                   ["ffmpeg"; "-version"]]
    /\ present m' "test_input" = true /\ present m' "test_output" = true
    /\ m_files m' = ∅.
Proof.
  destruct (install_finishes_without_ffmpeg host_without_ffmpeg empty_machine
              (mkCompleted 0 "" ""))
    as (m' & Hrun & Hran & Hpi & Hpo & Hfiles).
  - reflexivity.
  - reflexivity.
  - reflexivity.
  - reflexivity.
  - reflexivity.
  - exists m'. split; [exact Hrun|]. split; [exact Hran|]. split; [exact Hpi|].
    split; [exact Hpo|exact Hfiles].
Defined.

(** ** [setup_cursor_mcp.py] *)

Lemma entries_lookup_set_eq (key : string) (v : Json) (entries : list (string * Json)) :
  entries_lookup key (entries_set key v entries) = Some v.
Proof.
  induction entries as [|[k old] rest IH]; cbn [entries_set entries_lookup].
  - by rewrite String.eqb_refl.
  - destruct (String.eqb k key) eqn:Hk; cbn [entries_lookup]; by rewrite Hk.
Qed.

Lemma entries_lookup_set_ne (key other : string) (v : Json) (entries : list (string * Json)) :
  other <> key ->
  entries_lookup other (entries_set key v entries) = entries_lookup other entries.
Proof.
  intros Hne. induction entries as [|[k old] rest IH]; cbn [entries_set entries_lookup].
  - apply not_eq_sym, String.eqb_neq in Hne. by rewrite Hne.
  - destruct (String.eqb k key) eqn:Hk; cbn [entries_lookup].
    + apply String.eqb_eq in Hk as ->.
      apply not_eq_sym, String.eqb_neq in Hne. by rewrite Hne.
    + by rewrite IH.
Qed.

Lemma replace_backslash_clean (s : string) : has_backslash (replace_backslash s) = false.
Proof.
  induction s as [|c s IH]; [done|].
  cbn [replace_backslash has_backslash]. rewrite IH, orb_false_r.
  by destruct (bool_decide (c = "\"%char)) eqn:Hc.
Qed.

Lemma replace_backslash_id (s : string) : has_backslash s = false -> replace_backslash s = s.
Proof.
  induction s as [|c s IH]; [done|].
  cbn [replace_backslash has_backslash]. intros H.
  apply orb_false_iff in H as [Hc Hs]. by rewrite Hc, IH.
Qed.

(** The server entry that the script writes never holds a backslash: the
    interpreter, the script path and [PYTHONPATH] are written with forward
    slashes, and a path that has no backslash is written as it is. *)
Theorem mcp_config_uses_forward_slashes (h : Host) (m : Machine) :
  exists command script pythonpath,
    SetupCursor.create_mcp_config h m
    = (Returned [("ffmpeg",
                  JDict [("command", JStr command);
                         ("args", JList [JStr script]);
                         ("env", JDict [("PYTHONPATH", JStr pythonpath)])])], m)
    /\ has_backslash command = false
    /\ has_backslash script = false
    /\ has_backslash pythonpath = false
    /\ (has_backslash (sys_executable h) = false -> command = sys_executable h)
    /\ (has_backslash (script_dir h) = false -> pythonpath = script_dir h).
Proof.
  exists (replace_backslash (sys_executable h)),
    (replace_backslash (host_join h (script_dir h) "ffmpeg_mcp.py")),
    (replace_backslash (script_dir h)).
  split; [reflexivity|].
  rewrite !replace_backslash_clean. repeat split; try done; apply replace_backslash_id.
Qed.

Lemma create_mcp_config_spec (h : Host) (m : Machine) :
  SetupCursor.create_mcp_config h m = (Returned (server_entries h), m).
Proof. reflexivity. Qed.

(** The part of [update_cursor_config] after the settings were read. *)
Lemma update_after_read (h : Host) (m : Machine) (path : string) (doc : Json) (b : bool)
    (lines : list string) :
  SetupCursor.get_cursor_config_path h m = (Returned (Some path), m) ->
  path <> "" ->
  host_dirname h path <> "" ->
  mkdir_error h (host_dirname h path) = None ->
  let m1 := mkMachine (m_printed m) (m_files m) ({[host_dirname h path]} ∪ m_dirs m) (m_ran m) in
  (if present m1 path
   then stry (load_json path)
          (fun e => go! print ("⚠️  读取现有配置文件时出错：" +:+ err_msg e) in sret (JDict []))
   else sret (JDict [])) h m1 = (Returned doc, with_printed m1 lines) ->
  extendable doc = b ->
  if b then
    let doc' :=
      JDict (entries_set "mcpServers"
               (JDict (entries_update (listed_servers doc) (server_entries h)))
               match doc with JDict entries => entries | _ => [] end) in
    SetupCursor.update_cursor_config h m
    = match write_error h path with
      | None =>
          (Returned true,
           mkMachine (m_printed m ++ lines ++ ["✓ 已更新Cursor配置文件：" +:+ path])
             (<[path := FJson doc']> (m_files m))
             ({[host_dirname h path]} ∪ m_dirs m) (m_ran m))
      | Some e =>
          (Returned false,
           mkMachine (m_printed m ++ lines ++ ["✗ 更新配置文件失败：" +:+ err_msg e])
             (m_files m) ({[host_dirname h path]} ∪ m_dirs m) (m_ran m))
      end
  else
    exists e,
      SetupCursor.update_cursor_config h m = (Raised e, with_printed m1 lines)
      /\ (err_class e = "TypeError" \/ err_class e = "AttributeError").
Proof.
  intros Hpath Hne Hparent Hmk m1 Hread Hshape.
  unfold SetupCursor.update_cursor_config.
  rewrite (sbind_returned _ _ _ _ _ _ Hpath). cbv beta iota.
  destruct path as [|c path']; [done|]. set (path := String c path') in *.
  rewrite (sbind_returned (host _) _ h m m _ eq_refl).
  erewrite sbind_returned; cycle 1.
  { unfold makedirs. rewrite bool_decide_eq_false_2 by done. rewrite Hmk. reflexivity. }
  fold m1. rewrite (sbind_returned _ _ _ _ _ _ (path_exists_spec _ _ _)).
  rewrite (sbind_returned _ _ _ _ _ _ Hread).
  destruct doc as [|b0|z|s|items|entries]; cbn in Hshape; subst b;
    try (eexists; split; [reflexivity|]; left; reflexivity).
  - (* a string *)
    unfold sbind at 1, py_not_in, sret at 1.
    destruct (contains s "mcpServers"); cbn [negb];
      eexists; (split; [reflexivity|]); left; reflexivity.
  - (* a list *)
    unfold sbind at 1, py_not_in, sret at 1.
    destruct (existsb _ items); cbn [negb];
      eexists; (split; [reflexivity|]); left; reflexivity.
  - (* an object *)
    cbn [listed_servers].
    destruct (entries_lookup "mcpServers" entries) as [v|] eqn:Hlook.
    + erewrite sbind_returned; cycle 1.
      { unfold py_not_in. rewrite Hlook. reflexivity. }
      rewrite bool_decide_eq_true_2 by done. cbn [negb].
      rewrite (sbind_returned (sret _) _ _ _ _ _ eq_refl).
      destruct v as [|b0|z|s|items|servers];
        try (eexists; split; [unfold sbind, py_getitem; rewrite Hlook; reflexivity|];
             right; reflexivity).
      erewrite sbind_returned; cycle 1.
      { unfold py_getitem. rewrite Hlook. reflexivity. }
      rewrite (sbind_returned _ _ _ _ _ _ (create_mcp_config_spec _ _)).
      erewrite sbind_returned by reflexivity.
      unfold stry, sbind, dump_json, print, sret.
      unfold with_printed, m1.
      destruct (write_error h path); cbn [m_printed m_files m_dirs m_ran];
        by rewrite <- ?app_assoc.
    + erewrite sbind_returned; cycle 1.
      { unfold py_not_in. rewrite Hlook. reflexivity. }
      rewrite bool_decide_eq_false_2 by (by intros [? ?]). cbn [negb].
      erewrite sbind_returned by reflexivity.
      erewrite sbind_returned; cycle 1.
      { unfold py_getitem. rewrite entries_lookup_set_eq. reflexivity. }
      rewrite (sbind_returned _ _ _ _ _ _ (create_mcp_config_spec _ _)).
      erewrite sbind_returned by reflexivity.
      unfold stry, sbind, dump_json, print, sret.
      unfold with_printed, m1.
      assert (forall v, entries_set "mcpServers" v (entries_set "mcpServers" (JDict []) entries)
                        = entries_set "mcpServers" v entries) as ->.
      { intros v. clear Hread. induction entries as [|[k old] rest IH]; cbn [entries_set].
        - by rewrite String.eqb_refl.
        - cbn [entries_lookup] in Hlook. destruct (String.eqb k "mcpServers") eqn:Hk; [done|].
          cbn [entries_set]. rewrite Hk. by rewrite IH. }
      destruct (write_error h path); cbn [m_printed m_files m_dirs m_ran];
        by rewrite <- ?app_assoc.
Qed.

Lemma present_file (m : Machine) (path : string) (content : FileContent)
    (printed : list string) (dirs : gset string) (ran : list (list string)) :
  m_files m !! path = Some content ->
  present (mkMachine printed (m_files m) dirs ran) path = true.
Proof.
  intros H. unfold present. cbn [m_files]. rewrite H.
  apply orb_true_iff. left. by apply bool_decide_eq_true.
Qed.

(** A settings file that holds an object is extended, not replaced: when
    its [mcpServers], if any, is an object and the file can be written,
    [update_cursor_config] returns [True], writes this one file, keeps every
    other setting and every other server, and sets the [ffmpeg] server to
    the entry of [create_mcp_config]. *)
Theorem update_keeps_other_settings (h : Host) (m : Machine) (path : string)
    (entries : list (string * Json)) :
  SetupCursor.get_cursor_config_path h m = (Returned (Some path), m) ->
  path <> "" ->
  host_dirname h path <> "" ->
  mkdir_error h (host_dirname h path) = None ->
  read_error h path = None ->
  write_error h path = None ->
  m_files m !! path = Some (FJson (JDict entries)) ->
  extendable (JDict entries) = true ->
  exists doc m',
    SetupCursor.update_cursor_config h m = (Returned true, m')
    /\ m_files m' = <[path := FJson doc]> (m_files m)
    /\ m_printed m' = m_printed m ++ ["✓ 已更新Cursor配置文件：" +:+ path]
    /\ (forall key, key <> "mcpServers" -> member key doc = entries_lookup key entries)
    /\ (forall name, name <> "ffmpeg" ->
          member "mcpServers" doc ≫= member name
          = entries_lookup name (listed_servers (JDict entries)))
    /\ member "mcpServers" doc ≫= member "ffmpeg" = entries_lookup "ffmpeg" (server_entries h).
Proof.
  intros Hpath Hne Hparent Hmk Hrd Hwr Hfile Hshape.
  pose proof (update_after_read h m path (JDict entries) true [] Hpath Hne Hparent Hmk) as Hrun.
  cbv zeta in Hrun. rewrite Hwr in Hrun.
  eexists _, _. split.
  { apply Hrun; [|done].
    rewrite (present_file m path _ _ _ _ Hfile).
    unfold stry, load_json. cbn [m_files]. rewrite Hrd, Hfile.
    unfold with_printed. cbn [m_printed m_files m_dirs m_ran]. by rewrite app_nil_r. }
  cbn [m_files m_printed member]. split; [done|]. split; [done|].
  split; [|split].
  - intros key Hkey. by apply entries_lookup_set_ne.
  - intros name Hname. change (member ?k (JDict ?es)) with (entries_lookup k es). rewrite entries_lookup_set_eq.
    cbn [mbind option_bind option_ret member].
    unfold server_entries, entries_update. cbn [fold_left fst snd].
    by apply entries_lookup_set_ne.
  - change (member ?k (JDict ?es)) with (entries_lookup k es). rewrite entries_lookup_set_eq.
    cbn [mbind option_bind option_ret member].
    unfold server_entries, entries_update. cbn [fold_left fst snd].
    rewrite entries_lookup_set_eq. cbn [entries_lookup]. by rewrite String.eqb_refl.
Qed.

Lemma update_keeps_other_settings_witness :
  exists doc m',
    SetupCursor.update_cursor_config (sample_host 0) machine_with_settings = (Returned true, m')
    /\ m_files m' = <[sample_settings_path := FJson doc]> (m_files machine_with_settings)
    /\ m_printed m' = m_printed machine_with_settings
                      ++ ["✓ 已更新Cursor配置文件：" +:+ sample_settings_path]
    /\ (forall key, key <> "mcpServers" -> member key doc = entries_lookup key sample_settings)
    /\ (forall name, name <> "ffmpeg" ->
          member "mcpServers" doc ≫= member name
          = entries_lookup name (listed_servers (JDict sample_settings)))
    /\ member "mcpServers" doc ≫= member "ffmpeg"
       = entries_lookup "ffmpeg" (server_entries (sample_host 0)).
Proof.
  apply (update_keeps_other_settings (sample_host 0) machine_with_settings
           sample_settings_path sample_settings).
  - reflexivity.
  - discriminate.
  - discriminate.
  - reflexivity.
  - reflexivity.
  - reflexivity.
  - reflexivity.
  - reflexivity.
Defined.

(** A settings file that cannot be read or parsed is lost: the failure is
    printed as a warning, and [update_cursor_config] then overwrites the file
    with a document that holds the [mcpServers] object alone, and returns
    [True]. *)
Theorem unreadable_settings_are_replaced (h : Host) (m : Machine) (path : string)
    (content : FileContent) (e : PyError) :
  SetupCursor.get_cursor_config_path h m = (Returned (Some path), m) ->
  path <> "" ->
  host_dirname h path <> "" ->
  mkdir_error h (host_dirname h path) = None ->
  write_error h path = None ->
  m_files m !! path = Some content ->
  (read_error h path = Some e
   \/ (read_error h path = None
       /\ exists text, content = FText text
                       /\ e = mkPyError "JSONDecodeError" (json_decode_error h text))) ->
  exists m',
    SetupCursor.update_cursor_config h m = (Returned true, m')
    /\ m_files m' = <[path := FJson (JDict [("mcpServers", JDict (server_entries h))])]> (m_files m)
    /\ m_printed m' = m_printed m ++ ["⚠️  读取现有配置文件时出错：" +:+ err_msg e;
                                      "✓ 已更新Cursor配置文件：" +:+ path].
Proof.
  intros Hpath Hne Hparent Hmk Hwr Hfile Hbad.
  pose proof (update_after_read h m path (JDict []) true
                ["⚠️  读取现有配置文件时出错：" +:+ err_msg e] Hpath Hne Hparent Hmk) as Hrun.
  cbv zeta in Hrun. rewrite Hwr in Hrun.
  eexists. split.
  { apply Hrun; [|done].
    rewrite (present_file m path _ _ _ _ Hfile).
    unfold stry, load_json. cbn [m_files].
    destruct Hbad as [Hrd|(Hrd & text & -> & ->)]; rewrite Hrd; [done|].
    by rewrite Hfile. }
  split; reflexivity.
Qed.

Lemma unreadable_settings_are_replaced_witness :
  exists m',
    SetupCursor.update_cursor_config (sample_host 0) machine_with_comments = (Returned true, m')
    /\ m_files m'
       = <[sample_settings_path := FJson (JDict [("mcpServers", JDict (server_entries (sample_host 0)))])]>
           (m_files machine_with_comments)
    /\ m_printed m'
       = m_printed machine_with_comments
         ++ ["⚠️  读取现有配置文件时出错：" +:+ "Expecting value: line 1 column 1 (char 0)";
             "✓ 已更新Cursor配置文件：" +:+ sample_settings_path].
Proof.
  apply (unreadable_settings_are_replaced (sample_host 0) machine_with_comments
           sample_settings_path (FText "// settings")
           (mkPyError "JSONDecodeError" "Expecting value: line 1 column 1 (char 0)")).
  - reflexivity.
  - discriminate.
  - discriminate.
  - reflexivity.
  - reflexivity.
  - reflexivity.
  - right. split; [reflexivity|]. by exists "// settings".
Defined.

(** A settings file that parses to something else than such an object is
    not handled: a document that is no object, or whose [mcpServers] is no
    object, makes [update_cursor_config] raise a [TypeError] or an
    [AttributeError] instead of returning [False]; no file is written. *)
Theorem unexpected_settings_are_not_handled (h : Host) (m : Machine) (path : string)
    (doc : Json) :
  SetupCursor.get_cursor_config_path h m = (Returned (Some path), m) ->
  path <> "" ->
  host_dirname h path <> "" ->
  mkdir_error h (host_dirname h path) = None ->
  read_error h path = None ->
  m_files m !! path = Some (FJson doc) ->
  extendable doc = false ->
  exists e m',
    SetupCursor.update_cursor_config h m = (Raised e, m')
    /\ (err_class e = "TypeError" \/ err_class e = "AttributeError")
    /\ m_files m' = m_files m /\ m_printed m' = m_printed m.
Proof.
  intros Hpath Hne Hparent Hmk Hrd Hfile Hshape.
  pose proof (update_after_read h m path doc false [] Hpath Hne Hparent Hmk) as Hrun.
  cbv zeta in Hrun.
  destruct Hrun as (e & Hrun & Hcls); [|done|].
  { rewrite (present_file m path _ _ _ _ Hfile).
    unfold stry, load_json. cbn [m_files]. rewrite Hrd, Hfile.
    unfold with_printed. cbn [m_printed m_files m_dirs m_ran]. by rewrite app_nil_r. }
  eexists _, _. split; [exact Hrun|]. split; [done|].
  unfold with_printed. cbn [m_files m_printed]. by rewrite app_nil_r.
Qed.

Lemma unexpected_settings_are_not_handled_witness :
  exists e m',
    SetupCursor.update_cursor_config (sample_host 0) machine_with_null_servers = (Raised e, m')
    /\ (err_class e = "TypeError" \/ err_class e = "AttributeError")
    /\ m_files m' = m_files machine_with_null_servers
    /\ m_printed m' = m_printed machine_with_null_servers.
Proof.
  apply (unexpected_settings_are_not_handled (sample_host 0) machine_with_null_servers
           sample_settings_path (JDict [("mcpServers", JNull)])).
  - reflexivity.
  - discriminate.
  - discriminate.
  - reflexivity.
  - reflexivity.
  - reflexivity.
  - reflexivity.
Defined.
